(** * go-backend-template: authentication and authorization core

    A shallow embedding of the credential service, the field cipher and the
    access-control gate of the repository, with the properties the
    specification states about them.

    Go strings are byte sequences, so a Go [string] is a [string] of 8-bit
    [ascii] characters and a [[]byte] is a [list ascii].  Unsigned machine
    integers are [N] with their truncation written out. *)

From Stdlib Require Import String Ascii NArith ZArith Bool Lia List Sorted.
Import ListNotations.

Set Implicit Arguments.

(* ================================================================== *)
(** ** Bytes and byte strings *)
(* ================================================================== *)

Module Bytes.

Definition byte := ascii.
Definition bytes := list byte.

(** [[]byte(s)] and [string(b)]. *)
Definition of_string (s : string) : bytes := list_ascii_of_string s.
Definition to_string (b : bytes) : string := string_of_list_ascii b.

(** The conversion [byte(x)] of an unsigned integer keeps its low 8 bits. *)
Definition byte_of_N (x : N) : byte := ascii_of_N (N.land x 255).
Definition N_of_byte (b : byte) : N := N_of_ascii b.

(** [bytes.Equal], and [hmac.Equal] as to its result. *)
Definition bytes_eqb (a b : bytes) : bool := String.eqb (to_string a) (to_string b).

(** [a ^ b] on [uint8]. *)
Definition xor_byte (a b : byte) : byte :=
  match a, b with
  | Ascii a0 a1 a2 a3 a4 a5 a6 a7, Ascii b0 b1 b2 b3 b4 b5 b6 b7 =>
      Ascii (xorb a0 b0) (xorb a1 b1) (xorb a2 b2) (xorb a3 b3)
            (xorb a4 b4) (xorb a5 b5) (xorb a6 b6) (xorb a7 b7)
  end.

Fixpoint zipWith {A B C} (f : A -> B -> C) (xs : list A) (ys : list B) : list C :=
  match xs, ys with
  | x :: xs', y :: ys' => f x y :: zipWith f xs' ys'
  | _, _ => []
  end.

(** [s[i] = v] on a slice; out of range is a run-time panic in Go and is
    never reached by the callers below, here the slice is left as it is. *)
Fixpoint set_nth {A} (i : nat) (v : A) (l : list A) : list A :=
  match l, i with
  | [], _ => []
  | _ :: t, O => v :: t
  | h :: t, S j => h :: set_nth j v t
  end.

(** Hexadecimal notation for byte strings, as [encoding/hex] reads it (in
    either case) and writes it (in lower case). *)
Definition hexval (c : ascii) : N :=
  let n := N_of_ascii c in
  if (48 <=? n)%N && (n <=? 57)%N then n - 48
  else if (97 <=? n)%N && (n <=? 102)%N then n - 87
  else if (65 <=? n)%N && (n <=? 70)%N then n - 55
  else 0.

Fixpoint unhex (s : string) : bytes :=
  match s with
  | String h (String l rest) => byte_of_N (16 * hexval h + hexval l) :: unhex rest
  | _ => []
  end.

Definition hexdigit (n : N) : ascii :=
  if (n <? 10)%N then ascii_of_N (48 + n) else ascii_of_N (87 + n).

Fixpoint hex (b : bytes) : string :=
  match b with
  | [] => EmptyString
  | c :: rest =>
      let n := N_of_byte c in
      String (hexdigit (N.shiftr n 4)) (String (hexdigit (N.land n 15)) (hex rest))
  end.

End Bytes.
Import Bytes.

(* ================================================================== *)
(** ** crypto/aes: the block cipher of FIPS-197 *)
(* ================================================================== *)

Module AES.
Local Open Scope N_scope.

Definition BlockSize : nat := 16.

(** Multiplication by [x] in GF(2^8) modulo x^8 + x^4 + x^3 + x + 1. *)
Definition xtime (b : N) : N :=
  let s := N.land (N.shiftl b 1) 255 in
  if N.testbit b 7 then N.lxor s 0x1b else s.

Fixpoint gmul_aux (n : nat) (a b : N) : N :=
  match n with
  | O => 0
  | S n' => N.lxor (if N.odd b then a else 0) (gmul_aux n' (xtime a) (N.shiftr b 1))
  end.
Definition gmul : N -> N -> N := gmul_aux 8.

Fixpoint gpow (a : N) (n : nat) : N :=
  match n with
  | O => 1
  | S n' => gmul a (gpow a n')
  end.

(** The multiplicative inverse, with 0 mapped to 0. *)
Definition ginv (a : N) : N := gpow a 254.

Definition rotl8 (x : N) (s : N) : N :=
  N.land (N.lor (N.shiftl x s) (N.shiftr x (8 - s))) 255.

Definition sbox_formula (a : N) : N :=
  let b := ginv a in
  N.lxor b (N.lxor (rotl8 b 1) (N.lxor (rotl8 b 2) (N.lxor (rotl8 b 3) (N.lxor (rotl8 b 4) 0x63)))).

(** The substitution table [sbox0], computed once. *)
Definition sbox0 : list N :=
  Eval vm_compute in map (fun i => sbox_formula (N.of_nat i)) (seq 0 256).

Definition sbox (b : N) : N := nth (N.to_nat b) sbox0 0.

Definition word := list N.

Definition xor_word (a b : word) : word := zipWith N.lxor a b.
Definition subw (w : word) : word := map sbox w.
Definition rotw (w : word) : word :=
  match w with
  | a :: rest => rest ++ [a]
  | [] => []
  end.

(** [powx[i]]: the powers of [x]. *)
Fixpoint powx (i : nat) : N :=
  match i with
  | O => 1
  | S j => xtime (powx j)
  end.

Fixpoint words (bs : list N) : list word :=
  match bs with
  | a :: b :: c :: d :: rest => [a; b; c; d] :: words rest
  | _ => []
  end.

(** The loop of [expandKey]: one word per step, [enc[i] = enc[i-nk] ^ t]. *)
Fixpoint expand (steps nk : nat) (enc : list word) : list word :=
  match steps with
  | O => enc
  | S steps' =>
      let i := length enc in
      let t := nth (i - 1) enc [] in
      let t :=
        if (i mod nk =? 0)%nat then xor_word (subw (rotw t)) [powx (i / nk - 1); 0; 0; 0]
        else if (6 <? nk)%nat && (i mod nk =? 4)%nat then subw t
        else t in
      expand steps' nk (enc ++ [xor_word (nth (i - nk) enc []) t])
  end.

Definition expandKey (key : list N) : list word :=
  let nk := (length key / 4)%nat in
  expand (4 * (nk + 7) - nk) nk (words key).

Definition state := list N.

Definition addRoundKey (xk : list word) (r : nat) (st : state) : state :=
  zipWith N.lxor st (concat (firstn 4 (skipn (4 * r) xk))).

Definition subBytes (st : state) : state := map sbox st.

(** Row [r] of the column-major state is rotated left by [r]. *)
Definition shiftRows (st : state) : state :=
  map (fun i => nth (i mod 4 + 4 * ((i / 4 + i mod 4) mod 4))%nat st 0) (seq 0 16).

Definition mixColumn (c : word) : word :=
  match c with
  | [a0; a1; a2; a3] =>
      [ N.lxor (gmul 2 a0) (N.lxor (gmul 3 a1) (N.lxor a2 a3));
        N.lxor a0 (N.lxor (gmul 2 a1) (N.lxor (gmul 3 a2) a3));
        N.lxor a0 (N.lxor a1 (N.lxor (gmul 2 a2) (gmul 3 a3)));
        N.lxor (gmul 3 a0) (N.lxor a1 (N.lxor a2 (gmul 2 a3))) ]
  | _ => c
  end.

Definition mixColumns (st : state) : state := concat (map mixColumn (words st)).

Fixpoint rounds (xk : list word) (n r : nat) (st : state) : state :=
  match n with
  | O => st
  | S n' => rounds xk n' (S r) (addRoundKey xk r (mixColumns (shiftRows (subBytes st))))
  end.

(** An expanded key, as [aes.NewCipher] keeps it. *)
Record Block := { enc : list word; nr : nat }.

(** [aes.NewCipher]: keys of 16, 24 or 32 bytes, [KeySizeError] otherwise. *)
Definition NewCipher (key : bytes) : option Block :=
  let k := length key in
  if (k =? 16)%nat || (k =? 24)%nat || (k =? 32)%nat
  then Some {| enc := expandKey (map N_of_byte key); nr := k / 4 + 6 |}
  else None.

(** [Block.Encrypt] on one block of 16 bytes. *)
Definition Encrypt (b : Block) (src : bytes) : bytes :=
  let st := addRoundKey (enc b) 0 (map N_of_byte (firstn 16 src)) in
  let st := rounds (enc b) (nr b - 1) 1 st in
  let st := addRoundKey (enc b) (nr b) (shiftRows (subBytes st)) in
  map byte_of_N st.

End AES.


(* ================================================================== *)
(** ** crypto/cipher: cipher feedback mode *)
(* ================================================================== *)

Module CFB.

(** The stream state of [cipher.cfb]. *)
Record cfb := {
  b : AES.Block;
  next : bytes;
  out : bytes;
  outUsed : nat;
  decrypt : bool
}.

(** [newCFB]; Go panics when the IV is not one block long, which is [None]
    here. *)
Definition newCFB (block : AES.Block) (iv : bytes) (dec : bool) : option cfb :=
  if (length iv =? AES.BlockSize)%nat
  then Some {| b := block; next := iv; out := repeat zero AES.BlockSize;
               outUsed := AES.BlockSize; decrypt := dec |}
  else None.

Definition NewCFBEncrypter (block : AES.Block) (iv : bytes) := newCFB block iv false.
Definition NewCFBDecrypter (block : AES.Block) (iv : bytes) := newCFB block iv true.

(** One byte of the loop of [XORKeyStream]: refill the key stream when it
    is used up, xor, and feed the ciphertext byte back into [next]. *)
Definition xorByte (x : cfb) (s : byte) : byte * cfb :=
  let x :=
    if (outUsed x =? length (out x))%nat
    then {| b := b x; next := next x; out := AES.Encrypt (b x) (next x);
            outUsed := 0; decrypt := decrypt x |}
    else x in
  let d := xor_byte s (nth (outUsed x) (out x) zero) in
  let fed := if decrypt x then s else d in
  (d, {| b := b x; next := set_nth (outUsed x) fed (next x); out := out x;
         outUsed := S (outUsed x); decrypt := decrypt x |}).

Fixpoint XORKeyStream (x : cfb) (src : bytes) : bytes * cfb :=
  match src with
  | [] => ([], x)
  | s :: rest =>
      let (d, x') := xorByte x s in
      let (ds, x'') := XORKeyStream x' rest in
      (d :: ds, x'')
  end.

(** The stream that runs in the other direction from the same state. *)
Definition mirror (x : cfb) : cfb :=
  {| b := b x; next := next x; out := out x; outUsed := outUsed x;
     decrypt := negb (decrypt x) |}.

End CFB.

(* ================================================================== *)
(** ** encoding/base64 *)
(* ================================================================== *)

Module Base64.
Local Open Scope N_scope.

(** An encoding: its 64-character alphabet and its padding character
    ([None] is [NoPadding]). *)
Record Encoding := { encode : string; padChar : option ascii }.

Definition encodeStd : string :=
  "ABCDEFGHIJKLMNOPQRSTUVWXYZabcdefghijklmnopqrstuvwxyz0123456789+/".
Definition encodeURL : string :=
  "ABCDEFGHIJKLMNOPQRSTUVWXYZabcdefghijklmnopqrstuvwxyz0123456789-_".

Definition StdPadding : ascii := "="%char.

Definition StdEncoding : Encoding := {| encode := encodeStd; padChar := Some StdPadding |}.
Definition RawURLEncoding : Encoding := {| encode := encodeURL; padChar := None |}.

Definition enc_char (e : Encoding) (v : N) : ascii :=
  nth (N.to_nat v) (list_ascii_of_string (encode e)) zero.

(** [decodeMap]: the position of a character in the alphabet. *)
Fixpoint index_of (c : ascii) (l : list ascii) (i : N) : option N :=
  match l with
  | [] => None
  | h :: t => if Ascii.eqb h c then Some i else index_of c t (N.succ i)
  end.

Definition dec_char (e : Encoding) (c : ascii) : option N :=
  index_of c (list_ascii_of_string (encode e)) 0.

Definition pad (e : Encoding) (n : nat) : list ascii :=
  match padChar e with
  | Some p => repeat p n
  | None => []
  end.

Definition is_pad (e : Encoding) (c : ascii) : bool :=
  match padChar e with
  | Some p => Ascii.eqb p c
  | None => false
  end.

Fixpoint Encode (e : Encoding) (src : bytes) : list ascii :=
  match src with
  | [] => []
  | [a] =>
      let val := N.shiftl (N_of_byte a) 16 in
      [enc_char e (N.land (N.shiftr val 18) 0x3F);
       enc_char e (N.land (N.shiftr val 12) 0x3F)] ++ pad e 2
  | [a; b] =>
      let val := N.lor (N.shiftl (N_of_byte a) 16) (N.shiftl (N_of_byte b) 8) in
      [enc_char e (N.land (N.shiftr val 18) 0x3F);
       enc_char e (N.land (N.shiftr val 12) 0x3F);
       enc_char e (N.land (N.shiftr val 6) 0x3F)] ++ pad e 1
  | a :: b :: c :: rest =>
      let val := N.lor (N.lor (N.shiftl (N_of_byte a) 16) (N.shiftl (N_of_byte b) 8))
                       (N_of_byte c) in
      enc_char e (N.land (N.shiftr val 18) 0x3F)
      :: enc_char e (N.land (N.shiftr val 12) 0x3F)
      :: enc_char e (N.land (N.shiftr val 6) 0x3F)
      :: enc_char e (N.land val 0x3F)
      :: Encode e rest
  end.

Definition EncodeToString (e : Encoding) (src : bytes) : string :=
  string_of_list_ascii (Encode e src).

(** The bytes of one quantum of [dlen] sextets (2, 3 or 4). *)
Definition quantum (v0 v1 v2 v3 : N) (dlen : nat) : bytes :=
  let val := N.lor (N.lor (N.lor (N.shiftl v0 18) (N.shiftl v1 12)) (N.shiftl v2 6)) v3 in
  firstn (dlen - 1)
    [byte_of_N (N.shiftr val 16); byte_of_N (N.shiftr val 8); byte_of_N val].

Definition is_newline (c : ascii) : bool :=
  Ascii.eqb c "010"%char || Ascii.eqb c "013"%char.

(** [decodeQuantum], on input from which line breaks were dropped. *)
Fixpoint decodeQuanta (e : Encoding) (s : list ascii) : option bytes :=
  match s with
  | [] => Some []
  | [_] => None
  | [c0; c1] =>
      match padChar e, dec_char e c0, dec_char e c1 with
      | None, Some v0, Some v1 => Some (quantum v0 v1 0 0 2)
      | _, _, _ => None
      end
  | [c0; c1; c2] =>
      match padChar e, dec_char e c0, dec_char e c1, dec_char e c2 with
      | None, Some v0, Some v1, Some v2 => Some (quantum v0 v1 v2 0 3)
      | _, _, _, _ => None
      end
  | c0 :: c1 :: c2 :: c3 :: rest =>
      match dec_char e c0, dec_char e c1 with
      | Some v0, Some v1 =>
          match dec_char e c2, dec_char e c3 with
          | Some v2, Some v3 =>
              match decodeQuanta e rest with
              | Some tl => Some (quantum v0 v1 v2 v3 4 ++ tl)
              | None => None
              end
          | Some v2, None =>
              match rest with
              | [] => if is_pad e c3 then Some (quantum v0 v1 v2 0 3) else None
              | _ => None
              end
          | None, _ =>
              match rest with
              | [] => if is_pad e c2 && is_pad e c3 then Some (quantum v0 v1 0 0 2) else None
              | _ => None
              end
          end
      | _, _ => None
      end
  end.

(** [DecodeString]: carriage returns and line feeds are ignored; [None] is
    a [CorruptInputError]. *)
Definition DecodeString (e : Encoding) (s : string) : option bytes :=
  decodeQuanta e (filter (fun c => negb (is_newline c)) (list_ascii_of_string s)).

(** An alphabet decodes what it encodes, holds no line break, and does
    not hold the padding character. *)
Definition good_alphabet (e : Encoding) : bool :=
  forallb (fun i => let v := N.of_nat i in
                    match dec_char e (enc_char e v) with
                    | Some w => N.eqb w v
                    | None => false
                    end && negb (is_newline (enc_char e v))) (seq 0 64)
  && match padChar e with
     | Some p => match dec_char e p with
                 | Some _ => false
                 | None => negb (is_newline p)
                 end
     | None => true
     end.

End Base64.


(* ================================================================== *)
(** ** crypto/sha256 and crypto/hmac *)
(* ================================================================== *)

Module SHA256.
Local Open Scope N_scope.

Definition mask32 : N := 0xFFFFFFFF.
Definition add32 (a b : N) : N := N.land (a + b) mask32.
Definition rotr (x n : N) : N :=
  N.lor (N.shiftr x n) (N.land (N.shiftl x (32 - n)) mask32).
Definition not32 (x : N) : N := N.lxor x mask32.

Definition Ch (x y z : N) : N := N.lxor (N.land x y) (N.land (not32 x) z).
Definition Maj (x y z : N) : N := N.lxor (N.land x y) (N.lxor (N.land x z) (N.land y z)).
Definition Sigma0 (x : N) : N := N.lxor (rotr x 2) (N.lxor (rotr x 13) (rotr x 22)).
Definition Sigma1 (x : N) : N := N.lxor (rotr x 6) (N.lxor (rotr x 11) (rotr x 25)).
Definition sigma0 (x : N) : N := N.lxor (rotr x 7) (N.lxor (rotr x 18) (N.shiftr x 3)).
Definition sigma1 (x : N) : N := N.lxor (rotr x 17) (N.lxor (rotr x 19) (N.shiftr x 10)).

(** The first 64 primes, and the fractional parts of their square and
    cube roots (FIPS 180-4, sections 4.2.2 and 5.3.3). *)
Definition is_prime (n : nat) : bool :=
  (2 <=? n)%nat && forallb (fun d => negb (n mod d =? 0)%nat) (seq 2 (n - 2)).
Definition primes : list N :=
  Eval vm_compute in map N.of_nat (firstn 64 (filter is_prime (seq 0 320))).

Fixpoint icbrt_aux (bits : nat) (n r : N) : N :=
  match bits with
  | O => r
  | S k =>
      let c := N.lor r (N.shiftl 1 (N.of_nat k)) in
      icbrt_aux k n (if c * c * c <=? n then c else r)
  end.
Definition icbrt (n : N) : N := icbrt_aux 48 n 0.

Definition _K : list N :=
  Eval vm_compute in map (fun p => N.land (icbrt (N.shiftl p 96)) mask32) primes.
Definition init : list N :=
  Eval vm_compute in map (fun p => N.land (N.sqrt (N.shiftl p 64)) mask32) (firstn 8 primes).

Definition be32 (a b c d : byte) : N :=
  N.lor (N.lor (N.lor (N.shiftl (N_of_byte a) 24) (N.shiftl (N_of_byte b) 16))
               (N.shiftl (N_of_byte c) 8)) (N_of_byte d).

Fixpoint be_words (p : bytes) : list N :=
  match p with
  | a :: b :: c :: d :: rest => be32 a b c d :: be_words rest
  | _ => []
  end.

(** The message schedule: [w[i] = sigma1(w[i-2]) + w[i-7] + sigma0(w[i-15]) + w[i-16]]. *)
Fixpoint schedule (steps : nat) (w : list N) : list N :=
  match steps with
  | O => w
  | S k =>
      let i := length w in
      let v := add32 (add32 (sigma1 (nth (i - 2) w 0)) (nth (i - 7) w 0))
                     (add32 (sigma0 (nth (i - 15) w 0)) (nth (i - 16) w 0)) in
      schedule k (w ++ [v])
  end.

Definition round (h : list N) (kw : N * N) : list N :=
  match h with
  | [a; b; c; d; e; f; g; hh] =>
      let t1 := add32 (add32 (add32 hh (Sigma1 e)) (add32 (Ch e f g) (fst kw))) (snd kw) in
      let t2 := add32 (Sigma0 a) (Maj a b c) in
      [add32 t1 t2; a; b; c; add32 d t1; e; f; g]
  | _ => h
  end.

(** [block]: one 64-byte chunk folded into the chaining value. *)
Definition block (h : list N) (p : bytes) : list N :=
  let w := schedule 48 (be_words (firstn 64 p)) in
  zipWith add32 h (fold_left round (combine _K w) h).

Fixpoint blocks (n : nat) (h : list N) (p : bytes) : list N :=
  match n with
  | O => h
  | S k => blocks k (block h p) (skipn 64 p)
  end.

Definition be_bytes (n : nat) (x : N) : bytes :=
  map (fun i => byte_of_N (N.shiftr x (8 * N.of_nat (n - 1 - i)))) (seq 0 n).

(** The padding of [checkSum]: 0x80, zeros up to 56 mod 64, and the length
    in bits as a big-endian [uint64]. *)
Definition padding (len : nat) : bytes :=
  let r := (len mod 64)%nat in
  let z := if (r <? 56)%nat then (55 - r)%nat else (119 - r)%nat in
  byte_of_N 0x80 :: repeat zero z ++ be_bytes 8 (N.land (8 * N.of_nat len) 0xFFFFFFFFFFFFFFFF).

Definition Size : nat := 32.
Definition BlockSize : nat := 64.

(** [sha256.Sum256]. *)
Definition Sum256 (data : bytes) : bytes :=
  let p := data ++ padding (length data) in
  concat (map (be_bytes 4) (blocks (length p / 64) init p)).

End SHA256.

Module HMAC.

(** [hmac.New(sha256.New, key)] followed by [Write] and [Sum]: a key longer
    than one block is hashed first, then the key is zero-padded to the
    block size. *)
Definition pad_key (key : bytes) : bytes :=
  let k := if (SHA256.BlockSize <? length key)%nat then SHA256.Sum256 key else key in
  k ++ repeat zero (SHA256.BlockSize - length k).

Definition ipad (key : bytes) : bytes := map (xor_byte (byte_of_N 0x36)) (pad_key key).
Definition opad (key : bytes) : bytes := map (xor_byte (byte_of_N 0x5c)) (pad_key key).

Definition Sum (key msg : bytes) : bytes :=
  SHA256.Sum256 (opad key ++ SHA256.Sum256 (ipad key ++ msg)).

End HMAC.


(* ================================================================== *)
(** ** microservices/shared/utils/encryption.go *)
(* ================================================================== *)

(** A Go [error] is its message; [None] is [nil]. *)
Definition error := string.

(** [crypto/rand.Reader]: the bytes the source delivers before it fails. *)
Definition Reader := bytes.

(** [io.ReadFull(r, buf)] for a buffer of [n] bytes. *)
Definition ReadFull (r : Reader) (n : nat) : option bytes :=
  if (n <=? length r)%nat then Some (firstn n r) else None.

Module utils.
Local Open Scope string_scope.

Definition errKeyLength : error := "encryption key must be 32 bytes".
Definition errKeySize : error := "crypto/aes: invalid key size".
Definition errUnexpectedEOF : error := "unexpected EOF".
Definition errCorruptInput : error := "illegal base64 data".
Definition errTooShort : error := "ciphertext too short".
Definition errIVLength : error := "cipher.newCFB: IV length must equal block size".

(** [Encrypt]: AES in CFB mode under a 32-byte key, a fresh IV read from
    [rand] in front of the ciphertext, the whole in standard base64. *)
Definition Encrypt (rand : Reader) (plainText key : string) : string * option error :=
  if negb (String.length key =? 32)%nat then ("", Some errKeyLength) else
  match AES.NewCipher (of_string key) with
  | None => ("", Some errKeySize)
  | Some block =>
      match ReadFull rand AES.BlockSize with
      | None => ("", Some errUnexpectedEOF)
      | Some iv =>
          match CFB.NewCFBEncrypter block iv with
          | None => ("", Some errIVLength)
          | Some stream =>
              let ciphertext := (iv ++ fst (CFB.XORKeyStream stream (of_string plainText)))%list in
              (Base64.EncodeToString Base64.StdEncoding ciphertext, None)
          end
      end
  end.

(** [Decrypt]: the inverse steps; the first block of the decoded token is
    the IV. *)
Definition Decrypt (encryptedText key : string) : string * option error :=
  if negb (String.length key =? 32)%nat then ("", Some errKeyLength) else
  match Base64.DecodeString Base64.StdEncoding encryptedText with
  | None => ("", Some errCorruptInput)
  | Some ciphertext =>
      match AES.NewCipher (of_string key) with
      | None => ("", Some errKeySize)
      | Some block =>
          if (length ciphertext <? AES.BlockSize)%nat then ("", Some errTooShort) else
          let iv := firstn AES.BlockSize ciphertext in
          let ciphertext := skipn AES.BlockSize ciphertext in
          match CFB.NewCFBDecrypter block iv with
          | None => ("", Some errIVLength)
          | Some stream => (to_string (fst (CFB.XORKeyStream stream ciphertext)), None)
          end
      end
  end.

(** [HashEmail]: the SHA-256 digest of the address in standard base64. *)
Definition HashEmail (email : string) : string :=
  Base64.EncodeToString Base64.StdEncoding (SHA256.Sum256 (of_string email)).

End utils.

(* ================================================================== *)
(** ** Values, time, configuration *)
(* ================================================================== *)

(** The dynamic values ([interface{}]) that travel in token claims and in
    the request context.  A number decoded from JSON is a [float64]; the
    model keeps the ones that are whole, which is what the issuer writes
    ([Unix] seconds).  [VOther] stands for arrays and nested objects. *)
Inductive Value :=
| VNil
| VString (s : string)
| VInt64 (n : Z)
| VFloat64 (n : Z)
| VBool (b : bool)
| VOther.

(** A Go [map[string]interface{}], and its lookup [m[k]] with the [ok] flag. *)
Definition Map := list (string * Value).

Fixpoint lookup (k : string) (m : Map) : option Value :=
  match m with
  | [] => None
  | (k', v) :: rest => if String.eqb k' k then Some v else lookup k rest
  end.

(** [m[k]] without the flag: a missing key reads as [nil]. *)
Definition index (m : Map) (k : string) : Value :=
  match lookup k m with
  | Some v => v
  | None => VNil
  end.

Module time.
Local Open Scope Z_scope.

(** An instant, in nanoseconds since the Unix epoch; a [Duration] is a
    number of nanoseconds. *)
Definition Time := Z.
Definition Duration := Z.

Definition Second : Duration := 1000000000.
Definition Hour : Duration := 3600 * Second.

Definition Add (t : Time) (d : Duration) : Time := t + d.
Definition Unix (t : Time) : Z := t / Second.
End time.

Module config.
(** [Config] of [microservices/shared/config]; the one of the
    single-binary server has the first three fields. *)
Record Config := {
  MongoURI : string;
  JWTSecret : string;
  EncryptionKey : string;
  ServiceName : string;
  ServicePort : string
}.
End config.
Import config.

(* ================================================================== *)
(** ** The libraries behind the handlers *)
(* ================================================================== *)

(** What the model takes from [golang.org/x/crypto/bcrypt],
    [encoding/json] and the SHA-2 variants no handler selects: the
    functions themselves are parameters, the control flow around them is
    written out below. *)
Class External := {
  (* the bcrypt digest of a password under a 16-byte salt and a cost *)
  bcrypt_hash : bytes -> bytes -> nat -> bytes;
  (* whether a password matches a stored digest *)
  bcrypt_matches : bytes -> bytes -> bool;
  (* json.Marshal of a map; None is an error *)
  json_Marshal : Map -> option bytes;
  (* json.Unmarshal into a map *)
  json_Unmarshal : bytes -> option Map;
  (* json.NewDecoder(...).Decode into a map: the first JSON value of the input *)
  json_Decode : bytes -> option Map;
  (* HMAC with SHA-384 and with SHA-512 *)
  hmac_sha384 : bytes -> bytes -> bytes;
  hmac_sha512 : bytes -> bytes -> bytes
}.

(** How a map reads back from its JSON text: an integer comes back as a
    [float64], everything else as it was written. *)
Definition read_value (v : Value) : Value :=
  match v with
  | VInt64 n => VFloat64 n
  | _ => v
  end.

Definition reads_back (m m' : Map) : Prop :=
  forall k, lookup k m' = option_map read_value (lookup k m).

(** The JSON text of [m], when there is one, decodes to a map that reads
    back [m], by [Unmarshal] and by a [Decoder]. *)
Definition json_round_trips `{External} (m : Map) : Prop :=
  forall b, json_Marshal m = Some b ->
    (exists m', json_Unmarshal b = Some m' /\ reads_back m m') /\
    (exists m', json_Decode b = Some m' /\ reads_back m m').

Module bcrypt.
Definition DefaultCost : nat := 10.
Definition MaxCost : nat := 31.
Definition maxSaltSize : nat := 16.

Definition ErrPasswordTooLong : error :=
  "bcrypt: password length exceeds 72 bytes"%string.
Definition ErrMismatchedHashAndPassword : error :=
  "crypto/bcrypt: hashedPassword is not the hash of the given password"%string.
Definition ErrInvalidCost : error := "crypto/bcrypt: invalid cost"%string.

(** [GenerateFromPassword]: the length and cost checks, then a salt from
    [rand]. *)
Definition GenerateFromPassword `{External} (rand : Reader) (password : bytes) (cost : nat)
  : bytes * option error :=
  if (72 <? length password)%nat then ([], Some ErrPasswordTooLong)
  else if (MaxCost <? cost)%nat then ([], Some ErrInvalidCost)
  else match ReadFull rand maxSaltSize with
       | None => ([], Some utils.errUnexpectedEOF)
       | Some salt => (bcrypt_hash salt password cost, None)
       end.

Definition CompareHashAndPassword `{External} (hashedPassword password : bytes) : option error :=
  if bcrypt_matches hashedPassword password then None
  else Some ErrMismatchedHashAndPassword.
End bcrypt.

(* ================================================================== *)
(** ** strings, and github.com/golang-jwt/jwt/v4 *)
(* ================================================================== *)

Module strings.
Local Open Scope string_scope.

Fixpoint HasPrefix (s p : string) {struct p} : bool :=
  match p, s with
  | EmptyString, _ => true
  | String c p', String d s' => Ascii.eqb c d && HasPrefix s' p'
  | String _ _, EmptyString => false
  end.

(** [s[n:]]. *)
Fixpoint drop (n : nat) (s : string) : string :=
  match n, s with
  | S n', String _ s' => drop n' s'
  | _, _ => s
  end.

(** [TrimPrefix]: [s] without the leading [p], or [s] itself. *)
Definition TrimPrefix (s p : string) : string :=
  if HasPrefix s p then drop (String.length p) s else s.

(** [Split] on a one-byte separator. *)
Fixpoint Split (s : string) (sep : ascii) : list string :=
  match s with
  | EmptyString => [EmptyString]
  | String c rest =>
      if Ascii.eqb c sep then EmptyString :: Split rest sep
      else match Split rest sep with
           | h :: t => String c h :: t
           | [] => [String c EmptyString]
           end
  end.

(** No separator of token segments inside. *)
Definition no_dot (s : string) : bool :=
  forallb (fun c => negb (Ascii.eqb c ".")) (list_ascii_of_string s).
End strings.

Module jwt.
Local Open Scope string_scope.

Definition MapClaims := Map.

Inductive SigningMethod := SigningMethodHS256 | SigningMethodHS384 | SigningMethodHS512.

Definition Alg (m : SigningMethod) : string :=
  match m with
  | SigningMethodHS256 => "HS256"
  | SigningMethodHS384 => "HS384"
  | SigningMethodHS512 => "HS512"
  end.

(** The registered methods a [[]byte] key can verify; the asymmetric
    methods and [none] reject such a key and unknown names are
    unavailable, so all of those end in an error. *)
Definition GetSigningMethod (alg : string) : option SigningMethod :=
  if String.eqb alg "HS256" then Some SigningMethodHS256
  else if String.eqb alg "HS384" then Some SigningMethodHS384
  else if String.eqb alg "HS512" then Some SigningMethodHS512
  else None.

Record Token := {
  Raw : string;
  Method : SigningMethod;
  Header : Map;
  Claims : MapClaims;
  Signature : string;
  Valid : bool
}.

Definition EncodeSegment (seg : bytes) : string :=
  Base64.EncodeToString Base64.RawURLEncoding seg.
Definition DecodeSegment (seg : string) : option bytes :=
  Base64.DecodeString Base64.RawURLEncoding seg.

Definition mac `{External} (m : SigningMethod) (key msg : bytes) : bytes :=
  match m with
  | SigningMethodHS256 => HMAC.Sum key msg
  | SigningMethodHS384 => hmac_sha384 key msg
  | SigningMethodHS512 => hmac_sha512 key msg
  end.

(** [SigningMethodHMAC.Sign] and [Verify]. *)
Definition Sign `{External} (m : SigningMethod) (signingString : string) (key : bytes) : string :=
  EncodeSegment (mac m key (of_string signingString)).

Definition Verify `{External} (m : SigningMethod) (signingString signature : string) (key : bytes)
  : bool :=
  match DecodeSegment signature with
  | None => false
  | Some sig => bytes_eqb sig (mac m key (of_string signingString))
  end.

(** [NewWithClaims]. *)
Definition NewWithClaims (m : SigningMethod) (claims : MapClaims) : Token :=
  {| Raw := ""; Method := m;
     Header := [("typ", VString "JWT"); ("alg", VString (Alg m))];
     Claims := claims; Signature := ""; Valid := false |}.

Definition SigningString `{External} (t : Token) : option string :=
  match json_Marshal (Header t), json_Marshal (Claims t) with
  | Some h, Some c => Some (EncodeSegment h ++ "." ++ EncodeSegment c)
  | _, _ => None
  end.

(** [Token.SignedString]. *)
Definition SignedString `{External} (t : Token) (key : bytes) : string * option error :=
  match SigningString t with
  | None => ("", Some "json: unsupported value")
  | Some sstr => (sstr ++ "." ++ Sign (Method t) sstr key, None)
  end.

(** The time claims of [MapClaims.Valid], at [now] in Unix seconds.  A
    missing claim and a zero pass; a claim that is not a number fails. *)
Definition VerifyExpiresAt (m : MapClaims) (now : Z) : bool :=
  match lookup "exp" m with
  | None => true
  | Some (VFloat64 exp) => if (exp =? 0)%Z then true else (now <? exp)%Z
  | Some _ => false
  end.

Definition VerifyIssuedAt (m : MapClaims) (now : Z) : bool :=
  match lookup "iat" m with
  | None => true
  | Some (VFloat64 iat) => if (iat =? 0)%Z then true else (iat <=? now)%Z
  | Some _ => false
  end.

Definition VerifyNotBefore (m : MapClaims) (now : Z) : bool :=
  match lookup "nbf" m with
  | None => true
  | Some (VFloat64 nbf) => if (nbf =? 0)%Z then true else (nbf <=? now)%Z
  | Some _ => false
  end.

Definition ErrTokenMalformed : error := "token contains an invalid number of segments".
Definition ErrTokenUnverifiable : error := "signing method (alg) is unavailable.".
Definition ErrSignatureInvalid : error := "signature is invalid".
Definition ErrTokenExpired : error := "Token is expired".
Definition ErrTokenUsedBeforeIssued : error := "Token used before issued".
Definition ErrTokenNotValidYet : error := "Token is not valid yet".

(** [MapClaims.Valid]: the last failing check names the error. *)
Definition ClaimsValid (m : MapClaims) (now : Z) : option error :=
  let e := if VerifyExpiresAt m now then None else Some ErrTokenExpired in
  let e := if VerifyIssuedAt m now then e else Some ErrTokenUsedBeforeIssued in
  if VerifyNotBefore m now then e else Some ErrTokenNotValidYet.

(** [Parse] with a key function that returns the [[]byte] [key] for every
    token and with the default parser options, at the instant [now]. *)
Definition Parse `{External} (tokenString : string) (key : bytes) (now : time.Time)
  : option Token * option error :=
  match strings.Split tokenString "." with
  | [p0; p1; p2] =>
      match DecodeSegment p0 with
      | None => (None, Some ErrTokenMalformed)
      | Some headerBytes =>
      match json_Unmarshal headerBytes with
      | None => (None, Some ErrTokenMalformed)
      | Some header =>
      match DecodeSegment p1 with
      | None => (None, Some ErrTokenMalformed)
      | Some claimBytes =>
      match json_Decode claimBytes with
      | None => (None, Some ErrTokenMalformed)
      | Some claims =>
      match index header "alg" with
      | VString headerAlg =>
          match GetSigningMethod headerAlg with
          | None => (None, Some ErrTokenUnverifiable)
          | Some method =>
              let token := {| Raw := tokenString; Method := method; Header := header;
                              Claims := claims; Signature := p2; Valid := false |} in
              if negb (Verify method (p0 ++ "." ++ p1) p2 key)
              then (Some token, Some ErrSignatureInvalid)
              else match ClaimsValid claims (time.Unix now) with
                   | Some e => (Some token, Some e)
                   | None =>
                       (Some {| Raw := tokenString; Method := method; Header := header;
                                Claims := claims; Signature := p2; Valid := true |}, None)
                   end
          end
      | _ => (None, Some ErrTokenUnverifiable)
      end end end end end
  | _ => (None, Some ErrTokenMalformed)
  end.

End jwt.

(* ================================================================== *)
(** ** net/http, context, and the document store *)
(* ================================================================== *)

Module http.
Local Open Scope string_scope.

Definition StatusOK : nat := 200.
Definition StatusBadRequest : nat := 400.
Definition StatusUnauthorized : nat := 401.
Definition StatusForbidden : nat := 403.
Definition StatusNotFound : nat := 404.
Definition StatusConflict : nat := 409.
Definition StatusInternalServerError : nat := 500.

(** What a handler writes: the status line, the content type and the
    body, a plain text line or a JSON object of strings. *)
Inductive Body :=
| Text (line : string)
| JSON (fields : list (string * string)).

Record Response := { StatusCode : nat; ContentType : string; body : Body }.

(** [http.Error]. *)
Definition Error (msg : string) (code : nat) : Response :=
  {| StatusCode := code; ContentType := "text/plain; charset=utf-8"; body := Text msg |}.

(** A JSON object written with [json.NewEncoder(w).Encode] after the
    content type was set; the status is the implicit 200. *)
Definition WriteJSON (fields : list (string * string)) : Response :=
  {| StatusCode := StatusOK; ContentType := "application/json"; body := JSON fields |}.

(** What reaches the next stage through [context.WithValue]. *)
Inductive Any :=
| AValue (v : Value)
| AClaims (m : jwt.MapClaims).

(** A context is the chain of [WithValue] calls, the latest first. *)
Definition Context := list (string * Any).

Definition WithValue (ctx : Context) (k : string) (v : Any) : Context := (k, v) :: ctx.

(** [ctx.Value(k)]: [nil] when no [WithValue] set the key. *)
Fixpoint CtxValue (ctx : Context) (k : string) : Any :=
  match ctx with
  | [] => AValue VNil
  | (k', v) :: rest => if String.eqb k' k then v else CtxValue rest k
  end.

(** A request: its headers, its context, and its body as
    [json.NewDecoder(r.Body).Decode] reads it into the request type of the
    handler, [None] when that fails. *)
Record Request (B : Type) := {
  Header : list (string * string);
  Ctx : Context;
  ReqBody : option B
}.

(** [r.Header.Get]: the first value of the key, or the empty string. *)
Fixpoint Get (h : list (string * string)) (k : string) : string :=
  match h with
  | [] => ""
  | (k', v) :: rest => if String.eqb k' k then v else Get rest k
  end.

Definition WithContext {B} (r : Request B) (ctx : Context) : Request B :=
  {| Header := Header r; Ctx := ctx; ReqBody := ReqBody r |}.

(** The outcome of serving a request: a response, or a run-time panic,
    which the server recovers by dropping the connection. *)
Inductive Result :=
| Reply (resp : Response)
| Panic (msg : string).

Definition Handler (B : Type) := Request B -> Result.

End http.

Module primitive.
(** An [ObjectID] is 12 bytes. *)
Definition ObjectID := bytes.
Definition Hex (id : ObjectID) : string := hex id.

Definition is_hex (c : ascii) : bool :=
  let n := N_of_ascii c in
  ((48 <=? n) && (n <=? 57) || (97 <=? n) && (n <=? 102) || (65 <=? n) && (n <=? 70))%N.

(** [ObjectIDFromHex]: 24 hexadecimal digits. *)
Definition ObjectIDFromHex (s : string) : option ObjectID :=
  if (String.length s =? 24)%nat && forallb is_hex (list_ascii_of_string s)
  then Some (unhex s) else None.
End primitive.

Module models.
(** Modelled from the spec: [models.User] is declared in the shared
    [models] package, which is not among the files at hand.  Its fields are
    the ones the handlers read and write (section 3 of the specification:
    identity, email-lookup-key, email-ciphertext, password-hash, role and the
    two timestamps); the lookup key is stored under [email_hash]. *)
Record User := {
  ID : primitive.ObjectID;
  EmailHash : string;
  Email : string;
  Password : string;
  Role : string;
  CreatedAt : time.Time;
  UpdatedAt : time.Time
}.
End models.
Import models.

Module mongo.
(** The [users] collection: its documents in insertion order. *)
Definition Collection := list User.

Inductive FindResult :=
| Found (u : User)
| ErrNoDocuments
| FindError (e : error).

(** [FindOne(ctx, filter).Decode(&u)]: the first document that matches,
    unless the driver fails with [fault]. *)
Definition FindOne (fault : option error) (c : Collection) (filter : User -> bool)
  : FindResult :=
  match fault with
  | Some e => FindError e
  | None =>
      match find filter c with
      | Some u => Found u
      | None => ErrNoDocuments
      end
  end.

(** [InsertOne]: the document is appended, unless the driver fails. *)
Definition InsertOne (fault : option error) (c : Collection) (u : User)
  : Collection * option error :=
  match fault with
  | Some e => (c, Some e)
  | None => ((c ++ [u])%list, None)
  end.

(** [CountDocuments]. *)
Definition CountDocuments (fault : option error) (c : Collection) (filter : User -> bool)
  : nat * option error :=
  match fault with
  | Some e => (0, Some e)
  | None => (length (List.filter filter c), None)
  end.

(** [UpdateOne]: the patch applied to the first match; the count of
    matched documents is 0 or 1. *)
Fixpoint update_first (filter : User -> bool) (patch : User -> User) (c : Collection)
  : Collection * nat :=
  match c with
  | [] => ([], 0)
  | u :: rest =>
      if filter u then (patch u :: rest, 1)
      else let (rest', n) := update_first filter patch rest in (u :: rest', n)
  end.

Definition UpdateOne (fault : option error) (c : Collection) (filter : User -> bool)
           (patch : User -> User) : Collection * nat * option error :=
  match fault with
  | Some e => (c, 0, Some e)
  | None => let (c', n) := update_first filter patch c in (c', n, None)
  end.

(** The filters the handlers build. *)
Definition by_email_hash (h : string) (u : User) : bool := String.eqb (EmailHash u) h.
Definition by_id (id : primitive.ObjectID) (u : User) : bool :=
  bytes_eqb (ID u) id.

End mongo.

(** What a request meets outside the handler: the clock, the identifier
    and random sources, and whether the store fails at a call. *)
Record World := {
  Now : time.Time;
  NewObjectID : primitive.ObjectID;
  Rand : Reader;
  findFault : option error;
  insertFault : option error;
  countFault : option error;
  updateFault : option error
}.

(* ================================================================== *)
(** ** microservices/auth-service/handlers: registration and login *)
(* ================================================================== *)

Module auth_service.
Local Open Scope string_scope.
Import http mongo.

Record RegisterRequest := {
  Email : string;
  Password : string;
  Role : string
}.

Record LoginRequest := { LoginEmail : string; LoginPassword : string }.

(** [AdminRegisterRequest] and [AdminLoginRequest] have the two fields of
    [LoginRequest]. *)
Definition AdminRegisterRequest := LoginRequest.
Definition AdminLoginRequest := LoginRequest.

Section Handlers.
Context `{External}.
Variable cfg : Config.
Variable world : World.

(** [Register]. *)
Definition Register (db : Collection) (r : Request RegisterRequest)
  : Response * Collection :=
  match ReqBody r with
  | None => (Error "Invalid request payload" StatusBadRequest, db)
  | Some req =>
      (* Check if user already exists *)
      match FindOne (findFault world) db (by_email_hash (Email req)) with
      | Found _ => (Error "User already exists" StatusConflict, db)
      | FindError _ => (Error "Database error" StatusInternalServerError, db)
      | ErrNoDocuments =>
          (* Hash the password *)
          match bcrypt.GenerateFromPassword (Rand world) (of_string (Password req))
                                            bcrypt.DefaultCost with
          | (_, Some _) => (Error "Failed to hash password" StatusInternalServerError, db)
          | (hashedPassword, None) =>
              (* Encrypt email *)
              match utils.Encrypt (skipn bcrypt.maxSaltSize (Rand world))
                                  (Email req) (EncryptionKey cfg) with
              | (_, Some _) => (Error "Failed to encrypt data" StatusInternalServerError, db)
              | (encryptedEmail, None) =>
                  (* Create email hash for lookup *)
                  let emailHash := Email req in
                  (* Determine role *)
                  let role := if String.eqb (Role req) "admin" then "admin" else "user" in
                  let user := {| models.ID := NewObjectID world;
                                 models.EmailHash := emailHash;
                                 models.Email := encryptedEmail;
                                 models.Password := to_string hashedPassword;
                                 models.Role := role;
                                 models.CreatedAt := Now world;
                                 models.UpdatedAt := Now world |} in
                  match InsertOne (insertFault world) db user with
                  | (db', Some _) =>
                      (Error "Failed to create user" StatusInternalServerError, db')
                  | (db', None) =>
                      (WriteJSON [("message", "User registered successfully")], db')
                  end
              end
          end
      end
  end.

(** [AdminRegister]. *)
Definition AdminRegister (db : Collection) (r : Request AdminRegisterRequest)
  : Response * Collection :=
  match ReqBody r with
  | None => (Error "Invalid request payload" StatusBadRequest, db)
  | Some req =>
      match FindOne (findFault world) db (by_email_hash (LoginEmail req)) with
      | Found _ => (Error "Admin already exists" StatusConflict, db)
      | FindError _ => (Error "Database error" StatusInternalServerError, db)
      | ErrNoDocuments =>
          match bcrypt.GenerateFromPassword (Rand world) (of_string (LoginPassword req))
                                            bcrypt.DefaultCost with
          | (_, Some _) => (Error "Failed to hash password" StatusInternalServerError, db)
          | (hashedPassword, None) =>
              match utils.Encrypt (skipn bcrypt.maxSaltSize (Rand world))
                                  (LoginEmail req) (EncryptionKey cfg) with
              | (_, Some _) => (Error "Failed to encrypt data" StatusInternalServerError, db)
              | (encryptedEmail, None) =>
                  let emailHash := LoginEmail req in
                  let user := {| models.ID := NewObjectID world;
                                 models.EmailHash := emailHash;
                                 models.Email := encryptedEmail;
                                 models.Password := to_string hashedPassword;
                                 models.Role := "admin";
                                 models.CreatedAt := Now world;
                                 models.UpdatedAt := Now world |} in
                  match InsertOne (insertFault world) db user with
                  | (db', Some _) =>
                      (Error "Failed to create admin" StatusInternalServerError, db')
                  | (db', None) =>
                      (WriteJSON [("message", "Admin registered successfully")], db')
                  end
              end
          end
      end
  end.

(** The claims both login handlers sign: identity, decrypted address,
    role, and the expiration 24 hours from now. *)
Definition loginClaims (user : User) (decryptedEmail : string) : jwt.MapClaims :=
  [ ("userID", VString (primitive.Hex (models.ID user)));
    ("email", VString decryptedEmail);
    ("role", VString (models.Role user));
    ("exp", VInt64 (time.Unix (time.Add (Now world) (time.Hour * 24)%Z))) ].

(** The common end of [Login] and [AdminLogin]: decrypt the address,
    sign the token, answer with the token and the role. *)
Definition issue (user : User) : Response :=
  (* Decrypt email for JWT *)
  match utils.Decrypt (models.Email user) (EncryptionKey cfg) with
  | (_, Some _) => Error "Failed to decrypt data" StatusInternalServerError
  | (decryptedEmail, None) =>
      (* Generate JWT token *)
      let token := jwt.NewWithClaims jwt.SigningMethodHS256
                                     (loginClaims user decryptedEmail) in
      match jwt.SignedString token (of_string (JWTSecret cfg)) with
      | (_, Some _) => Error "Failed to generate token" StatusInternalServerError
      | (tokenString, None) =>
          WriteJSON [("token", tokenString); ("role", models.Role user)]
      end
  end.

(** [Login]. *)
Definition Login (db : Collection) (r : Request LoginRequest) : Response :=
  match ReqBody r with
  | None => Error "Invalid request payload" StatusBadRequest
  | Some req =>
      (* Find user by email hash *)
      match FindOne (findFault world) db (by_email_hash (LoginEmail req)) with
      | ErrNoDocuments => Error "Invalid credentials" StatusUnauthorized
      | FindError _ => Error "Database error" StatusInternalServerError
      | Found user =>
          (* Check password *)
          match bcrypt.CompareHashAndPassword (of_string (models.Password user))
                                              (of_string (LoginPassword req)) with
          | Some _ => Error "Invalid credentials" StatusUnauthorized
          | None => issue user
          end
      end
  end.

(** [AdminLogin]. *)
Definition AdminLogin (db : Collection) (r : Request AdminLoginRequest) : Response :=
  match ReqBody r with
  | None => Error "Invalid request payload" StatusBadRequest
  | Some req =>
      (* Find user by email hash *)
      match FindOne (findFault world) db (by_email_hash (LoginEmail req)) with
      | ErrNoDocuments => Error "Invalid credentials" StatusUnauthorized
      | FindError _ => Error "Database error" StatusInternalServerError
      | Found user =>
          (* Check if user is admin *)
          if negb (String.eqb (models.Role user) "admin")
          then Error "Access denied: Admin only" StatusForbidden
          else
            (* Check password *)
            match bcrypt.CompareHashAndPassword (of_string (models.Password user))
                                                (of_string (LoginPassword req)) with
            | Some _ => Error "Invalid credentials" StatusUnauthorized
            | None => issue user
            end
      end
  end.

End Handlers.
End auth_service.

(* ================================================================== *)
(** ** The access-control gate *)
(* ================================================================== *)

(** [middleware/auth.go]: the gate of the single-binary server. *)
Module middleware.
Local Open Scope string_scope.
Import http.

Definition JWTAuthMiddleware `{External} (cfg : Config) (now : time.Time) {B}
           (next : Handler B) : Handler B :=
  fun r =>
    let authHeader := Get (Header r) "Authorization" in
    if String.eqb authHeader "" then
      Reply (Error "Authorization header required" StatusUnauthorized)
    else
      let tokenString := strings.TrimPrefix authHeader "Bearer " in
      match jwt.Parse tokenString (of_string (JWTSecret cfg)) now with
      | (Some token, None) =>
          if negb (jwt.Valid token) then Reply (Error "Invalid token" StatusUnauthorized)
          else
            (* Extract claims and add to context *)
            let ctx := WithValue (Ctx r) "claims" (AClaims (jwt.Claims token)) in
            next (WithContext r ctx)
      | _ => Reply (Error "Invalid token" StatusUnauthorized)
      end.
End middleware.

(** [microservices/user-service/middleware/auth.go], and the role check of
    the admin service. *)
Module microservices.
Local Open Scope string_scope.
Import http.

Definition JWTAuthMiddleware `{External} (cfg : Config) (now : time.Time) {B}
           (next : Handler B) : Handler B :=
  fun r =>
    let authHeader := Get (Header r) "Authorization" in
    if String.eqb authHeader "" then
      Reply (Error "Authorization header required" StatusUnauthorized)
    else
      let tokenString := strings.TrimPrefix authHeader "Bearer " in
      match jwt.Parse tokenString (of_string (JWTSecret cfg)) now with
      | (Some token, None) =>
          if negb (jwt.Valid token) then Reply (Error "Invalid token" StatusUnauthorized)
          else
            (* Extract claims and add to context *)
            let claims := jwt.Claims token in
            let ctx := WithValue (Ctx r) "userID" (AValue (index claims "userID")) in
            let ctx := WithValue ctx "email" (AValue (index claims "email")) in
            let ctx := WithValue ctx "role" (AValue (index claims "role")) in
            let ctx := WithValue ctx "encryptionKey" (AValue (VString (EncryptionKey cfg))) in
            next (WithContext r ctx)
      | _ => Reply (Error "Invalid token" StatusUnauthorized)
      end.

(** [AdminOnlyMiddleware]: [role == nil || role.(string) != "admin"]; the
    type assertion panics on a role that is not a string. *)
Definition AdminOnlyMiddleware {B} (next : Handler B) : Handler B :=
  fun r =>
    match CtxValue (Ctx r) "role" with
    | AValue VNil => Reply (Error "Admin access required" StatusForbidden)
    | AValue (VString role) =>
        if negb (String.eqb role "admin")
        then Reply (Error "Admin access required" StatusForbidden)
        else next r
    | _ => Panic "interface conversion: interface {} is not string"
    end.

(** Modelled from the spec: the admin service's own [JWTAuthMiddleware]
    (the [auth.go] of its middleware package) is not among the sources; its
    [main] and its [AdminOnlyMiddleware] are.  [main] installs the two on
    every route, in this order:
    [r.Use(middleware.JWTAuthMiddleware(cfg)); r.Use(middleware.AdminOnlyMiddleware)].
    The spec (4.4) has the gate take the bearer token from the
    Authorization header, answer 401 when the header is missing or empty or
    the token fails verification, and on success attach the claims
    (identity, email, role) to the request context for the next stage.  The
    gate of the user service above does this, and stores the role under the
    key [role], the key that [AdminOnlyMiddleware] reads; it stands here
    for the missing one. *)
Definition adminRoute `{External} (cfg : Config) (now : time.Time) {B}
           (handler : Handler B) : Handler B :=
  JWTAuthMiddleware cfg now (AdminOnlyMiddleware handler).

End microservices.

(** The request the gates hand to the next stage: the claims of the token
    under [claims], or the principal under [userID], [email], [role] and
    [encryptionKey]. *)
Definition with_claims {B} (r : http.Request B) (tok : jwt.Token) : http.Request B :=
  http.WithContext r (http.WithValue (http.Ctx r) "claims" (http.AClaims (jwt.Claims tok))).

Definition with_principal (cfg : Config) {B} (r : http.Request B) (tok : jwt.Token)
  : http.Request B :=
  let claims := jwt.Claims tok in
  http.WithContext r
    (http.WithValue (http.WithValue (http.WithValue (http.WithValue (http.Ctx r)
       "userID" (http.AValue (index claims "userID")))
       "email" (http.AValue (index claims "email")))
       "role" (http.AValue (index claims "role")))
       "encryptionKey" (http.AValue (VString (EncryptionKey cfg)))).

(* ================================================================== *)
(** ** handlers of the single-binary server: the profile update *)
(* ================================================================== *)

Module handlers.
Local Open Scope string_scope.
Import http mongo.

Record UpdateProfileRequest := { Email : string; Password : string }.

(** The text [{"error": "msg"}] the handlers pass to [http.Error]. *)
Definition errorJSON (msg : string) : string :=
  let q := String (ascii_of_nat 34) "" in
  "{" ++ q ++ "error" ++ q ++ ": " ++ q ++ msg ++ q ++ "}".

Definition panicConversion : string := "interface conversion: interface {} is not string".
Definition panicClaims : string := "interface conversion: interface {} is not jwt.MapClaims".

Section Handlers.
Context `{External}.
(** [config.Load()], read where the handlers call it. *)
Variable cfg : Config.
Variable world : World.

(** The fields of a profile update, applied in the order they are set. *)
Definition set_updated_at (t : time.Time) (u : User) : User :=
  {| models.ID := models.ID u; models.EmailHash := models.EmailHash u;
     models.Email := models.Email u; models.Password := models.Password u;
     models.Role := models.Role u; models.CreatedAt := models.CreatedAt u;
     models.UpdatedAt := t |}.
Definition set_email (encryptedEmail emailHash : string) (u : User) : User :=
  {| models.ID := models.ID u; models.EmailHash := emailHash;
     models.Email := encryptedEmail; models.Password := models.Password u;
     models.Role := models.Role u; models.CreatedAt := models.CreatedAt u;
     models.UpdatedAt := models.UpdatedAt u |}.
Definition set_password (hashed : string) (u : User) : User :=
  {| models.ID := models.ID u; models.EmailHash := models.EmailHash u;
     models.Email := models.Email u; models.Password := hashed;
     models.Role := models.Role u; models.CreatedAt := models.CreatedAt u;
     models.UpdatedAt := models.UpdatedAt u |}.

(** The end of [UpdateUserProfile]: the password, then [UpdateOne]. *)
Definition updatePassword (db : Collection) (userID : primitive.ObjectID)
           (req : UpdateProfileRequest) (rand : Reader) (update : User -> User)
  : Result * Collection :=
  let finish (update : User -> User) :=
    match UpdateOne (updateFault world) db (by_id userID) update with
    | (db', _, Some _) =>
        (Reply (Error (errorJSON "Failed to update profile") StatusInternalServerError), db')
    | (db', matched, None) =>
        if (matched =? 0)%nat
        then (Reply (Error (errorJSON "User not found") StatusNotFound), db')
        else (Reply (WriteJSON [("message", "Profile updated successfully")]), db')
    end in
  if negb (String.eqb (Password req) "") then
    match bcrypt.GenerateFromPassword rand (of_string (Password req)) bcrypt.DefaultCost with
    | (_, Some _) =>
        (Reply (Error (errorJSON "Failed to hash password") StatusInternalServerError), db)
    | (hashedPassword, None) =>
        finish (fun u => set_password (to_string hashedPassword) (update u))
    end
  else finish update.

(** [UpdateUserProfile]. *)
Definition UpdateUserProfile (db : Collection) (r : Request UpdateProfileRequest)
  : Result * Collection :=
  (* Get user claims from context *)
  match CtxValue (Ctx r) "claims" with
  | AClaims claims =>
      match index claims "userID" with
      | VString userIDStr =>
          match primitive.ObjectIDFromHex userIDStr with
          | None => (Reply (Error (errorJSON "Invalid user ID") StatusBadRequest), db)
          | Some userID =>
              match ReqBody r with
              | None =>
                  (Reply (Error (errorJSON "Invalid request body") StatusBadRequest), db)
              | Some req =>
                  let update := set_updated_at (Now world) in
                  (* Update email if provided *)
                  if negb (String.eqb (Email req) "") then
                    (* Check if email is already taken by another user *)
                    let emailHash := utils.HashEmail (Email req) in
                    match utils.Encrypt (Rand world) (Email req) (EncryptionKey cfg) with
                    | (_, Some _) =>
                        (Reply (Error (errorJSON "Failed to encrypt email")
                                      StatusInternalServerError), db)
                    | (encryptedEmail, None) =>
                        match CountDocuments (countFault world) db
                                (fun u => by_email_hash emailHash u && negb (by_id userID u)) with
                        | (_, Some _) =>
                            (Reply (Error (errorJSON "Failed to check email availability")
                                          StatusInternalServerError), db)
                        | (count, None) =>
                            if (0 <? count)%nat then
                              (Reply (Error (errorJSON "Email already in use")
                                            StatusConflict), db)
                            else
                              updatePassword db userID req
                                (skipn AES.BlockSize (Rand world))
                                (fun u => set_email encryptedEmail emailHash (update u))
                        end
                    end
                  else updatePassword db userID req (Rand world) update
              end
          end
      | _ => (Panic panicConversion, db)
      end
  | _ => (Panic panicClaims, db)
  end.

End Handlers.
End handlers.

(* ================================================================== *)
(** ** Recorded library results for the examples *)
(* ================================================================== *)

(** The examples below run the handlers on concrete requests, so they need
    an instance of [External].  This one holds what the libraries return at
    the inputs of the examples and nothing else: bcrypt digests of two
    passwords under one salt, and the JSON texts of one token header and of
    a few claim sets (given by their base64url form).  The theorems hold for
    every instance. *)
Module Recorded.
Local Open Scope string_scope.

Definition Value_eqb (a b : Value) : bool :=
  match a, b with
  | VNil, VNil => true
  | VString s, VString t => String.eqb s t
  | VInt64 n, VInt64 m => Z.eqb n m
  | VFloat64 n, VFloat64 m => Z.eqb n m
  | VBool x, VBool y => Bool.eqb x y
  | VOther, VOther => true
  | _, _ => false
  end.

Fixpoint Map_eqb (a b : Map) : bool :=
  match a, b with
  | [], [] => true
  | (k, v) :: a', (k', v') :: b' => String.eqb k k' && Value_eqb v v' && Map_eqb a' b'
  | _, _ => false
  end.

Definition text (segment : string) : bytes :=
  match jwt.DecodeSegment segment with
  | Some b => b
  | None => []
  end.

Definition userID : string := "0102030405060708090a0b0c".
Definition exp : Z := 1700086400.

(** The header [NewWithClaims] builds, and as it reads back. *)
Definition header : Map := [("typ", VString "JWT"); ("alg", VString "HS256")].
Definition header_read : Map := [("alg", VString "HS256"); ("typ", VString "JWT")].
Definition header_text : bytes := text "eyJhbGciOiJIUzI1NiIsInR5cCI6IkpXVCJ9".

(** The claims [Login] signs for a role, and as they read back. *)
Definition claims (role : string) : Map :=
  [("userID", VString userID); ("email", VString "a@x.com");
   ("role", VString role); ("exp", VInt64 exp)].
Definition claims_read (role : Value) : Map :=
  [("email", VString "a@x.com"); ("exp", VFloat64 exp);
   ("role", role); ("userID", VString userID)].

Definition user_text : bytes :=
  text ("eyJlbWFpbCI6ImFAeC5jb20iLCJleHAiOjE3MDAwODY0MDAsInJvbGUiOiJ1c2VyIiwidXNlcklEIjoi"
        ++ "MDEwMjAzMDQwNTA2MDcwODA5MGEwYjBjIn0").
Definition admin_text : bytes :=
  text ("eyJlbWFpbCI6ImFAeC5jb20iLCJleHAiOjE3MDAwODY0MDAsInJvbGUiOiJhZG1pbiIsInVzZXJJRCI6"
        ++ "IjAxMDIwMzA0MDUwNjA3MDgwOTBhMGIwYyJ9").
(** A claim set with the number 5 as its role. *)
Definition role5_read : Map :=
  [("exp", VFloat64 exp); ("role", VFloat64 5); ("userID", VString userID)].
Definition role5_text : bytes :=
  text ("eyJleHAiOjE3MDAwODY0MDAsInJvbGUiOjUsInVzZXJJRCI6IjAxMDIwMzA0MDUwNjA3MDgwOTBhMGIw"
        ++ "YyJ9").

Definition Marshal (m : Map) : option bytes :=
  if Map_eqb m header then Some header_text
  else if Map_eqb m (claims "user") then Some user_text
  else if Map_eqb m (claims "admin") then Some admin_text
  else None.

Definition Unmarshal (b : bytes) : option Map :=
  if bytes_eqb b header_text then Some header_read
  else if bytes_eqb b user_text then Some (claims_read (VString "user"))
  else if bytes_eqb b admin_text then Some (claims_read (VString "admin"))
  else if bytes_eqb b role5_text then Some role5_read
  else None.

Definition salt : bytes := unhex "101112131415161718191a1b1c1d1e1f".
Definition digest_user : string :=
  "$2a$10$C/CQCvOTDfaWEPmZF/ycFuqMl1k5gcTPzNIUcH4GVzc7glRJ6CjWC".
Definition digest_admin : string :=
  "$2a$10$C/CQCvOTDfaWEPmZF/ycFuc41KmgjnJ.DsBoeOjCHg3hN3ZN4oKea".

Definition hash (s password : bytes) (cost : nat) : bytes :=
  if bytes_eqb s salt && (cost =? 10)%nat then
    if String.eqb (to_string password) "pw123456" then of_string digest_user
    else if String.eqb (to_string password) "admin123" then of_string digest_admin
    else []
  else [].

Definition matches (hashed password : bytes) : bool :=
  String.eqb (to_string hashed) digest_user && String.eqb (to_string password) "pw123456"
  || String.eqb (to_string hashed) digest_admin && String.eqb (to_string password) "admin123".

#[export] Instance external : External := {|
  bcrypt_hash := hash;
  bcrypt_matches := matches;
  json_Marshal := Marshal;
  json_Unmarshal := Unmarshal;
  json_Decode := Unmarshal;
  hmac_sha384 := fun _ _ => [];
  hmac_sha512 := fun _ _ => []
|}.

Definition cfg : Config := {|
  MongoURI := "mongodb://localhost:27017";
  JWTSecret := "your-secret-key";
  EncryptionKey := "your-32-byte-encryption-key-here";
  ServiceName := "unknown-service";
  ServicePort := "8080"
|}.

(** 14 November 2023, 22:13:20 UTC. *)
Definition t0 : time.Time := (1700000000 * time.Second)%Z.

Definition world : World := {|
  Now := t0;
  NewObjectID := unhex userID;
  Rand := (salt ++ unhex "000102030405060708090a0b0c0d0e0f")%list;
  findFault := None; insertFault := None; countFault := None;
  updateFault := None
|}.

Definition with_secret (secret : string) : Config := {|
  MongoURI := MongoURI cfg; JWTSecret := secret; EncryptionKey := EncryptionKey cfg;
  ServiceName := ServiceName cfg; ServicePort := ServicePort cfg
|}.

(** A signing secret longer than one hash block, and its SHA-256 digest
    read as a secret of 32 bytes. *)
Definition long_secret : string :=
  "operator-configured-signing-secret-that-is-longer-than-one-hash-block-0".
Definition digest_secret : string := to_string (SHA256.Sum256 (of_string long_secret)).

Definition post {B} (b : B) : http.Request B :=
  {| http.Header := []; http.Ctx := []; http.ReqBody := Some b |}.

Definition get (authorization : string) : http.Request unit :=
  {| http.Header := [("Authorization", authorization)]; http.Ctx := []; http.ReqBody := None |}.

(** A downstream handler that answers with the role it finds in its
    context, under [role] or in the claims. *)
Definition whoami : http.Handler unit :=
  fun r =>
    match http.CtxValue (http.Ctx r) "role", http.CtxValue (http.Ctx r) "claims" with
    | http.AValue (VString role), _ => http.Reply (http.WriteJSON [("role", role)])
    | _, http.AClaims claims =>
        match index claims "role" with
        | VString role => http.Reply (http.WriteJSON [("role", role)])
        | _ => http.Reply (http.WriteJSON [])
        end
    | _, _ => http.Reply (http.WriteJSON [])
    end.

Definition register (email password role : string) : http.Request auth_service.RegisterRequest :=
  post {| auth_service.Email := email; auth_service.Password := password;
          auth_service.Role := role |}.

Definition login (email password : string) : http.Request auth_service.LoginRequest :=
  post {| auth_service.LoginEmail := email; auth_service.LoginPassword := password |}.

(** The store after [a@x.com] registered with the password [pw123456]. *)
Definition alice : User := {|
  models.ID := unhex userID;
  models.EmailHash := "a@x.com";
  models.Email := "AAECAwQFBgcICQoLDA0OD35SicTOtYo=";
  models.Password := digest_user;
  models.Role := "user";
  models.CreatedAt := t0;
  models.UpdatedAt := t0
|}.

Definition user_token : string :=
  "eyJhbGciOiJIUzI1NiIsInR5cCI6IkpXVCJ9."
  ++ "eyJlbWFpbCI6ImFAeC5jb20iLCJleHAiOjE3MDAwODY0MDAsInJvbGUiOiJ1c2VyIiwidXNlcklEIjoi"
  ++ "MDEwMjAzMDQwNTA2MDcwODA5MGEwYjBjIn0."
  ++ "2EbzTgutpmCfj3bFAd4IlxtSMQvD6qEsWsQUwh6o518".
Definition admin_token : string :=
  "eyJhbGciOiJIUzI1NiIsInR5cCI6IkpXVCJ9."
  ++ "eyJlbWFpbCI6ImFAeC5jb20iLCJleHAiOjE3MDAwODY0MDAsInJvbGUiOiJhZG1pbiIsInVzZXJJRCI6"
  ++ "IjAxMDIwMzA0MDUwNjA3MDgwOTBhMGIwYyJ9."
  ++ "U_RUMDcCbUEzbrnyvxnKADeNo-TzIO6cUUo17KRb8mk".
Definition role5_token : string :=
  "eyJhbGciOiJIUzI1NiIsInR5cCI6IkpXVCJ9."
  ++ "eyJleHAiOjE3MDAwODY0MDAsInJvbGUiOjUsInVzZXJJRCI6IjAxMDIwMzA0MDUwNjA3MDgwOTBhMGIw"
  ++ "YyJ9."
  ++ "t3Qbw9VmNIKD2zcX1BJeEYFQPRAZjRGidGvNz-2pQ6A".


(** [b@x.com], registered with the password [admin123]; and the same
    record with the role [admin]. *)
Definition bobID : string := "0d0e0f101112131415161718".
Definition bob : User := {|
  models.ID := unhex bobID;
  models.EmailHash := "b@x.com";
  models.Email := "AAECAwQFBgcICQoLDA0OD31SicTOtYo=";
  models.Password := digest_admin;
  models.Role := "user";
  models.CreatedAt := t0;
  models.UpdatedAt := t0
|}.
Definition root : User := {|
  models.ID := unhex bobID;
  models.EmailHash := "b@x.com";
  models.Email := "AAECAwQFBgcICQoLDA0OD31SicTOtYo=";
  models.Password := digest_admin;
  models.Role := "admin";
  models.CreatedAt := t0;
  models.UpdatedAt := t0
|}.

(** A profile update that sets the address, from a request that passed
    the gate with the claims of [id]. *)
Definition profile_update (id email : string) : http.Request handlers.UpdateProfileRequest :=
  {| http.Header := [];
     http.Ctx := [("claims", http.AClaims [("userID", VString id)])];
     http.ReqBody := Some {| handlers.Email := email; handlers.Password := "" |} |}.

End Recorded.

(* ================================================================== *)
(** ** os and the configuration loaders *)
(* ================================================================== *)

Module os.
Local Open Scope string_scope.

(** The environment of the process: its [NAME=value] entries. *)
Definition Environ := list (string * string).

(** [os.Getenv]: the value of the first entry of the name, the empty
    string when there is none. *)
Fixpoint Getenv (env : Environ) (key : string) : string :=
  match env with
  | [] => ""
  | (k, v) :: rest => if String.eqb k key then v else Getenv rest key
  end.
End os.

(** [microservices/shared/config]: [getEnv] and [Load]. *)
Module shared_config.
Local Open Scope string_scope.

Definition getEnv (env : os.Environ) (key defaultValue : string) : string :=
  let value := os.Getenv env key in
  if negb (String.eqb value "") then value else defaultValue.

Definition Load (env : os.Environ) : Config := {|
  MongoURI := getEnv env "MONGO_URI" "mongodb://localhost:27017";
  JWTSecret := getEnv env "JWT_SECRET" "your-secret-key";
  EncryptionKey := getEnv env "ENCRYPTION_KEY" "your-32-byte-encryption-key-here";
  ServiceName := getEnv env "SERVICE_NAME" "unknown-service";
  ServicePort := getEnv env "SERVICE_PORT" "8080"
|}.
End shared_config.

(** [config] of the single-binary server: three fields, and other
    defaults. *)
Module server_config.
Local Open Scope string_scope.

Record Config := {
  MongoURI : string;
  JWTSecret : string;
  EncryptionKey : string
}.

Definition getEnv (env : os.Environ) (key defaultValue : string) : string :=
  let value := os.Getenv env key in
  if negb (String.eqb value "") then value else defaultValue.

(** [Load], on the environment as [godotenv.Load] left it. *)
Definition Load (env : os.Environ) : Config := {|
  MongoURI := getEnv env "MONGO_URI" "mongodb://localhost:27017/golang_backend";
  JWTSecret := getEnv env "JWT_SECRET" "your-secret-key";
  EncryptionKey := getEnv env "ENCRYPTION_KEY" "12345678901234567890123456789012"
|}.
End server_config.

(* ================================================================== *)
(** ** strconv *)
(* ================================================================== *)

Module strconv.
Local Open Scope Z_scope.

Definition is_digit (c : ascii) : bool :=
  let n := N_of_ascii c in ((48 <=? n) && (n <=? 57))%N.

(** The value of a run of decimal digits after [acc]; [None] at any other
    character. *)
Fixpoint digits (s : string) (acc : Z) : option Z :=
  match s with
  | EmptyString => Some acc
  | String c rest =>
      if is_digit c then digits rest (acc * 10 + (Z.of_N (N_of_ascii c) - 48)) else None
  end.

(** [Atoi] where [int] has 64 bits: an optional sign, then at least one
    digit and nothing else; [None] is a syntax or a range error. *)
Definition Atoi (s : string) : option Z :=
  let (neg, body) :=
    match s with
    | String "-" rest => (true, rest)
    | String "+" rest => (false, rest)
    | _ => (false, s)
    end in
  match body with
  | EmptyString => None
  | _ =>
      match digits body 0 with
      | None => None
      | Some n =>
          let v := if neg then - n else n in
          if (- 2 ^ 63 <=? v) && (v <=? 2 ^ 63 - 1) then Some v else None
      end
  end.
End strconv.

(** Arithmetic on [int], which has 64 bits here: a result is wrapped into
    the signed range. *)
Definition wrap_int (x : Z) : Z := ((x + 2 ^ 63) mod 2 ^ 64 - 2 ^ 63)%Z.

(* ================================================================== *)
(** ** The document store: deleting and listing *)
(* ================================================================== *)

Module driver.
Import mongo.

(** Whether the store fails at the calls of the handlers below. *)
Record Faults := {
  deleteFault : option error;
  listFault : option error;
  cursorFault : option error
}.

(** [DeleteOne]: the first match is removed; the count of deleted
    documents is 0 or 1. *)
Fixpoint delete_first (filter : User -> bool) (c : Collection) : Collection * nat :=
  match c with
  | [] => ([], 0%nat)
  | u :: rest =>
      if filter u then (rest, 1%nat)
      else let (rest', n) := delete_first filter rest in (u :: rest', n)
  end.

Definition DeleteOne (fault : option error) (c : Collection) (filter : User -> bool)
  : Collection * nat * option error :=
  match fault with
  | Some e => (c, 0%nat, Some e)
  | None => let (c', n) := delete_first filter c in (c', n, None)
  end.

(** Sorting by [created_at], newest first.  The server leaves the order of
    documents of the same instant open; here they keep the order of the
    collection. *)
Fixpoint insert_desc (u : User) (sorted : list User) : list User :=
  match sorted with
  | [] => [u]
  | v :: rest =>
      if (CreatedAt v <=? CreatedAt u)%Z then u :: v :: rest
      else v :: insert_desc u rest
  end.

Definition sort_desc (c : Collection) : list User := fold_right insert_desc [] c.

(** The order of a sorted listing: the first is not older than the second. *)
Definition newer_first (a b : User) : Prop := (CreatedAt b <= CreatedAt a)%Z.

Inductive Order := natural | created_at_desc.

(** [Find(ctx, bson.M{}, opts)]: every document, in the order asked for,
    after [skip] documents and at most [limit] of them ([None] and 0 are no
    limit, a negative limit counts as its absolute value).  The server
    refuses a negative [skip]. *)
Definition Find (fault : option error) (c : Collection) (order : Order)
           (skip : Z) (limit : option Z) : option (list User) :=
  match fault with
  | Some _ => None
  | None =>
      if (skip <? 0)%Z then None
      else
        let ordered := match order with natural => c | created_at_desc => sort_desc c end in
        let rest := skipn (Z.to_nat skip) ordered in
        Some (match limit with
              | Some n => if (n =? 0)%Z then rest else firstn (Z.abs_nat n) rest
              | None => rest
              end)
  end.

(** [cursor.All]. *)
Definition All (fault : option error) (cursor : list User) : option (list User) :=
  match fault with
  | Some _ => None
  | None => Some cursor
  end.

End driver.

(* ================================================================== *)
(** ** What the profile and listing handlers write *)
(* ================================================================== *)

Module responses.

(** [UserResponse]: the fields the handlers fill in. *)
Record UserResponse := {
  ID : string;
  Email : string;
  Role : string;
  CreatedAt : time.Time;
  UpdatedAt : time.Time
}.

(** What a handler with a typed answer does: it encodes [payload] as JSON
    with status 200, or it ends as [res]. *)
Inductive Written (A : Type) :=
| Wrote (payload : A)
| Ended (res : http.Result).
Arguments Wrote {A} payload.
Arguments Ended {A} res.

(** The loop over the users of a listing: each address is decrypted, the
    first failure ends the loop. *)
Fixpoint userResponses (key : string) (users : list User) : option (list UserResponse) :=
  match users with
  | [] => Some []
  | user :: rest =>
      match utils.Decrypt (models.Email user) key with
      | (_, Some _) => None
      | (decryptedEmail, None) =>
          match userResponses key rest with
          | None => None
          | Some tl =>
              Some ({| ID := primitive.Hex (models.ID user);
                       Email := decryptedEmail;
                       Role := models.Role user;
                       CreatedAt := models.CreatedAt user;
                       UpdatedAt := models.UpdatedAt user |} :: tl)
          end
      end
  end.

(** An entry of a listing shows a record: its identifier in hexadecimal,
    its address as [Decrypt] returns it under [key], its role and its
    times. *)
Definition shows (key : string) (u : User) (x : UserResponse) : Prop :=
  ID x = primitive.Hex (models.ID u) /\
  utils.Decrypt (models.Email u) key = (Email x, None) /\
  Role x = models.Role u /\
  CreatedAt x = models.CreatedAt u /\
  UpdatedAt x = models.UpdatedAt u.

End responses.

(* ================================================================== *)
(** ** handlers of the single-binary server: administration and profile *)
(* ================================================================== *)

Module server_handlers.
Local Open Scope string_scope.
Import http mongo driver responses handlers.

Record DeleteUserRequest := { UserID : string }.
Record UpdateUserRoleRequest := { RoleUserID : string; Role : string }.

Record ListUsersResponse := {
  Users : list UserResponse;
  Total : Z;
  Page : Z;
  Limit : Z;
  TotalPages : Z
}.

Definition set_role (role : string) (t : time.Time) (u : User) : User :=
  {| models.ID := models.ID u; models.EmailHash := models.EmailHash u;
     models.Email := models.Email u; models.Password := models.Password u;
     models.Role := role; models.CreatedAt := models.CreatedAt u;
     models.UpdatedAt := t |}.

(** [http.Error] with the JSON text of a message. *)
Definition failed (msg : string) (code : nat) : Result := Reply (Error (errorJSON msg) code).

Section Handlers.
(** [config.Load()], read where the handlers call it. *)
Variable cfg : Config.
Variable world : World.
Variable faults : Faults.


(** [ListUsers]; [p] and [l] are [r.URL.Query().Get] of [page] and [limit]. *)
Definition ListUsers (db : Collection) (p l : string) (r : Request unit)
  : Written ListUsersResponse :=
  (* Get user claims from context *)
  match CtxValue (Ctx r) "claims" with
  | AClaims claims =>
      match index claims "role" with
      | VString userRole =>
          if negb (String.eqb userRole "admin")
          then Ended (failed "Forbidden: Admin access required" StatusForbidden)
          else
            (* Parse query parameters *)
            let page :=
              if negb (String.eqb p "") then
                match strconv.Atoi p with
                | Some parsed => if (0 <? parsed)%Z then parsed else 1%Z
                | None => 1%Z
                end
              else 1%Z in
            let limit :=
              if negb (String.eqb l "") then
                match strconv.Atoi l with
                | Some parsed =>
                    if (0 <? parsed)%Z && (parsed <=? 100)%Z then parsed else 10%Z
                | None => 10%Z
                end
              else 10%Z in
            let skip := wrap_int ((page - 1) * limit) in
            (* Count total users *)
            match CountDocuments (countFault world) db (fun _ => true) with
            | (_, Some _) => Ended (failed "Failed to count users" StatusInternalServerError)
            | (total, None) =>
                (* Find users with pagination *)
                match Find (listFault faults) db created_at_desc skip (Some limit) with
                | None => Ended (failed "Failed to fetch users" StatusInternalServerError)
                | Some cursor =>
                    match All (cursorFault faults) cursor with
                    | None =>
                        Ended (failed "Failed to decode users" StatusInternalServerError)
                    | Some users =>
                        (* Decrypt emails and prepare response *)
                        match userResponses (EncryptionKey cfg) users with
                        | None =>
                            Ended (failed "Failed to decrypt user data"
                                          StatusInternalServerError)
                        | Some responses =>
                            let totalPages :=
                              ((Z.of_nat total + limit - 1) / limit)%Z in
                            Wrote {| Users := responses;
                                     Total := Z.of_nat total;
                                     Page := page;
                                     Limit := limit;
                                     TotalPages := totalPages |}
                        end
                    end
                end
            end
      | _ => Ended (Panic panicConversion)
      end
  | _ => Ended (Panic panicClaims)
  end.

(** [DeleteUser]. *)
Definition DeleteUser (db : Collection) (r : Request DeleteUserRequest)
  : Result * Collection :=
  match CtxValue (Ctx r) "claims" with
  | AClaims claims =>
      match index claims "role" with
      | VString userRole =>
          if negb (String.eqb userRole "admin")
          then (failed "Forbidden: Admin access required" StatusForbidden, db)
          else
            match ReqBody r with
            | None => (failed "Invalid request body" StatusBadRequest, db)
            | Some req =>
                if String.eqb (UserID req) ""
                then (failed "User ID is required" StatusBadRequest, db)
                else
                  match primitive.ObjectIDFromHex (UserID req) with
                  | None => (failed "Invalid user ID format" StatusBadRequest, db)
                  | Some userID =>
                      match DeleteOne (deleteFault faults) db (by_id userID) with
                      | (db', _, Some _) =>
                          (failed "Failed to delete user" StatusInternalServerError, db')
                      | (db', deleted, None) =>
                          if (deleted =? 0)%nat
                          then (failed "User not found" StatusNotFound, db')
                          else (Reply (WriteJSON [("message", "User deleted successfully")]),
                                db')
                      end
                  end
            end
      | _ => (Panic panicConversion, db)
      end
  | _ => (Panic panicClaims, db)
  end.

(** [UpdateUserRole]. *)
Definition UpdateUserRole (db : Collection) (r : Request UpdateUserRoleRequest)
  : Result * Collection :=
  match CtxValue (Ctx r) "claims" with
  | AClaims claims =>
      match index claims "role" with
      | VString userRole =>
          if negb (String.eqb userRole "admin")
          then (failed "Forbidden: Admin access required" StatusForbidden, db)
          else
            match ReqBody r with
            | None => (failed "Invalid request body" StatusBadRequest, db)
            | Some req =>
                if String.eqb (RoleUserID req) "" || String.eqb (Role req) ""
                then (failed "User ID and role are required" StatusBadRequest, db)
                else if negb (String.eqb (Role req) "user")
                        && negb (String.eqb (Role req) "admin")
                then (failed "Invalid role. Must be 'user' or 'admin'" StatusBadRequest, db)
                else
                  match primitive.ObjectIDFromHex (RoleUserID req) with
                  | None => (failed "Invalid user ID format" StatusBadRequest, db)
                  | Some userID =>
                      match UpdateOne (updateFault world) db (by_id userID)
                                      (set_role (Role req) (Now world)) with
                      | (db', _, Some _) =>
                          (failed "Failed to update user role" StatusInternalServerError, db')
                      | (db', matched, None) =>
                          if (matched =? 0)%nat
                          then (failed "User not found" StatusNotFound, db')
                          else (Reply (WriteJSON
                                         [("message", "User role updated successfully")]),
                                db')
                      end
                  end
            end
      | _ => (Panic panicConversion, db)
      end
  | _ => (Panic panicClaims, db)
  end.

(** [GetUserProfile]. *)
Definition GetUserProfile (db : Collection) (r : Request unit) : Written UserResponse :=
  match CtxValue (Ctx r) "claims" with
  | AClaims claims =>
      match index claims "userID" with
      | VString userIDStr =>
          match primitive.ObjectIDFromHex userIDStr with
          | None => Ended (failed "Invalid user ID" StatusBadRequest)
          | Some userID =>
              match FindOne (findFault world) db (by_id userID) with
              | ErrNoDocuments => Ended (failed "User not found" StatusNotFound)
              | FindError _ => Ended (failed "Failed to fetch user" StatusInternalServerError)
              | Found user =>
                  (* Decrypt email *)
                  match utils.Decrypt (models.Email user) (EncryptionKey cfg) with
                  | (_, Some _) =>
                      Ended (failed "Failed to decrypt user data" StatusInternalServerError)
                  | (decryptedEmail, None) =>
                      Wrote {| responses.ID := primitive.Hex (models.ID user);
                               responses.Email := decryptedEmail;
                               responses.Role := models.Role user;
                               responses.CreatedAt := models.CreatedAt user;
                               responses.UpdatedAt := models.UpdatedAt user |}
                  end
              end
          end
      | _ => Ended (Panic panicConversion)
      end
  | _ => Ended (Panic panicClaims)
  end.

End Handlers.
End server_handlers.

(* ================================================================== *)
(** ** microservices/admin-service/handlers *)
(* ================================================================== *)

Module admin_service.
Local Open Scope string_scope.
Import http mongo driver responses.

Record UpdateRoleRequest := { Role : string }.

Section Handlers.
Variable world : World.
Variable faults : Faults.

(** [ListUsers]: every user, the addresses decrypted under the key the
    gate put into the context.  The key is read inside the loop, so with no
    user it is not read; the empty list is then the [nil] slice, which is
    written as the JSON [null]. *)
Definition ListUsers (db : Collection) (r : Request unit) : Written (list UserResponse) :=
  (* Find all users *)
  match Find (listFault faults) db natural 0 None with
  | None => Ended (Reply (Error "Database error" StatusInternalServerError))
  | Some cursor =>
      match All (cursorFault faults) cursor with
      | None => Ended (Reply (Error "Failed to decode users" StatusInternalServerError))
      | Some [] => Wrote []
      | Some users =>
          (* Convert to response format with decrypted emails *)
          match CtxValue (Ctx r) "encryptionKey" with
          | AValue (VString key) =>
              match userResponses key users with
              | None => Ended (Reply (Error "Failed to decrypt data" StatusInternalServerError))
              | Some responses => Wrote responses
              end
          | _ => Ended (Panic handlers.panicConversion)
          end
      end
  end.

(** [DeleteUser]; [userIDStr] is the route variable [id]. *)
Definition DeleteUser (db : Collection) (userIDStr : string) (r : Request unit)
  : Result * Collection :=
  match primitive.ObjectIDFromHex userIDStr with
  | None => (Reply (Error "Invalid user ID" StatusBadRequest), db)
  | Some userID =>
      match DeleteOne (deleteFault faults) db (by_id userID) with
      | (db', _, Some _) =>
          (Reply (Error "Failed to delete user" StatusInternalServerError), db')
      | (db', deleted, None) =>
          if (deleted =? 0)%nat
          then (Reply (Error "User not found" StatusNotFound), db')
          else (Reply (WriteJSON [("message", "User deleted successfully")]), db')
      end
  end.

(** [UpdateUserRole]. *)
Definition UpdateUserRole (db : Collection) (userIDStr : string)
           (r : Request UpdateRoleRequest) : Result * Collection :=
  match primitive.ObjectIDFromHex userIDStr with
  | None => (Reply (Error "Invalid user ID" StatusBadRequest), db)
  | Some userID =>
      match ReqBody r with
      | None => (Reply (Error "Invalid request payload" StatusBadRequest), db)
      | Some req =>
          (* Validate role *)
          if negb (String.eqb (Role req) "user") && negb (String.eqb (Role req) "admin")
          then (Reply (Error "Invalid role. Must be 'user' or 'admin'" StatusBadRequest), db)
          else
            match UpdateOne (updateFault world) db (by_id userID)
                            (server_handlers.set_role (Role req) (Now world)) with
            | (db', _, Some _) =>
                (Reply (Error "Failed to update user role" StatusInternalServerError), db')
            | (db', matched, None) =>
                if (matched =? 0)%nat
                then (Reply (Error "User not found" StatusNotFound), db')
                else (Reply (WriteJSON [("message", "User role updated successfully")]), db')
            end
      end
  end.

End Handlers.
End admin_service.

(* ================================================================== *)
(** ** microservices/user-service/handlers *)
(* ================================================================== *)

Module user_service.
Local Open Scope string_scope.
Import http mongo driver responses.

Record UpdateProfileRequest := { Email : string }.

Definition errNoDocuments : error := "mongo: no documents in result".

Section Handlers.
Variable world : World.

(** [GetUserProfile]. *)
Definition GetUserProfile (db : Collection) (r : Request unit) : Written UserResponse :=
  (* Get user ID from context (set by middleware) *)
  match CtxValue (Ctx r) "userID" with
  | AValue (VString userIDStr) =>
      match primitive.ObjectIDFromHex userIDStr with
      | None => Ended (Reply (Error "Invalid user ID" StatusBadRequest))
      | Some userID =>
          let notFound := Ended (Reply (Error "User not found" StatusNotFound)) in
          match FindOne (findFault world) db (by_id userID) with
          | ErrNoDocuments => notFound
          | FindError e =>
              if String.eqb e errNoDocuments then notFound
              else Ended (Reply (Error "Database error" StatusInternalServerError))
          | Found user =>
              (* Decrypt email *)
              match CtxValue (Ctx r) "encryptionKey" with
              | AValue (VString key) =>
                  match utils.Decrypt (models.Email user) key with
                  | (_, Some _) =>
                      Ended (Reply (Error "Failed to decrypt data" StatusInternalServerError))
                  | (decryptedEmail, None) =>
                      Wrote {| responses.ID := primitive.Hex (models.ID user);
                               responses.Email := decryptedEmail;
                               responses.Role := models.Role user;
                               responses.CreatedAt := models.CreatedAt user;
                               responses.UpdatedAt := models.UpdatedAt user |}
                  end
              | _ => Ended (Panic handlers.panicConversion)
              end
          end
      end
  | _ => Ended (Panic handlers.panicConversion)
  end.

Definition set_profile (encryptedEmail emailHash : string) (t : time.Time) (u : User) : User :=
  {| models.ID := models.ID u; models.EmailHash := emailHash;
     models.Email := encryptedEmail; models.Password := models.Password u;
     models.Role := models.Role u; models.CreatedAt := models.CreatedAt u;
     models.UpdatedAt := t |}.

(** [UpdateUserProfile]. *)
Definition UpdateUserProfile (db : Collection) (r : Request UpdateProfileRequest)
  : Result * Collection :=
  match ReqBody r with
  | None => (Reply (Error "Invalid request payload" StatusBadRequest), db)
  | Some req =>
      (* Get user ID from context (set by middleware) *)
      match CtxValue (Ctx r) "userID" with
      | AValue (VString userIDStr) =>
          match primitive.ObjectIDFromHex userIDStr with
          | None => (Reply (Error "Invalid user ID" StatusBadRequest), db)
          | Some userID =>
              (* Encrypt new email *)
              match CtxValue (Ctx r) "encryptionKey" with
              | AValue (VString key) =>
                  match utils.Encrypt (Rand world) (Email req) key with
                  | (_, Some _) =>
                      (Reply (Error "Failed to encrypt data" StatusInternalServerError), db)
                  | (encryptedEmail, None) =>
                      (* Update user *)
                      match UpdateOne (updateFault world) db (by_id userID)
                              (set_profile encryptedEmail (Email req) (Now world)) with
                      | (db', _, Some _) =>
                          (Reply (Error "Failed to update user" StatusInternalServerError), db')
                      | (db', matched, None) =>
                          if (matched =? 0)%nat
                          then (Reply (Error "User not found" StatusNotFound), db')
                          else (Reply (WriteJSON [("message", "Profile updated successfully")]),
                                db')
                      end
                  end
              | _ => (Panic handlers.panicConversion, db)
              end
          end
      | _ => (Panic handlers.panicConversion, db)
      end
  end.

End Handlers.
End user_service.

(* ================================================================== *)
(** ** Recorded library results: a token signed with HS512 *)
(* ================================================================== *)

(** A second instance of [External], for a token that carries an identity
    and a role and no time claim, signed with HMAC-SHA512 under the secret
    of [Recorded.cfg]: the JSON texts of its header and claims, and the
    HMAC-SHA512 of its signing input. *)
Module Recorded_HS512.
Local Open Scope string_scope.
Import Recorded.

Definition header : Map := [("typ", VString "JWT"); ("alg", VString "HS512")].
Definition header_read : Map := [("alg", VString "HS512"); ("typ", VString "JWT")].
Definition header_segment : string := "eyJhbGciOiJIUzUxMiIsInR5cCI6IkpXVCJ9".

Definition claims : Map := [("userID", VString userID); ("role", VString "admin")].
Definition claims_read : Map := [("role", VString "admin"); ("userID", VString userID)].
Definition claims_segment : string :=
  "eyJyb2xlIjoiYWRtaW4iLCJ1c2VySUQiOiIwMTAyMDMwNDA1MDYwNzA4MDkwYTBiMGMifQ".

Definition Marshal (m : Map) : option bytes :=
  if Map_eqb m header then Some (text header_segment)
  else if Map_eqb m claims then Some (text claims_segment)
  else None.

Definition Unmarshal (b : bytes) : option Map :=
  if bytes_eqb b (text header_segment) then Some header_read
  else if bytes_eqb b (text claims_segment) then Some claims_read
  else None.

Definition signing_input : string := header_segment ++ "." ++ claims_segment.

Definition mac : bytes :=
  unhex ("0383d373bfe8054ec32bfe5b5336401f638e39d413c8c519577784e52515c535"
         ++ "30772fd3da5698f6c5bc01a9198e42e82b1864299366a868a4d122576678cb80").

Definition hmac512 (key msg : bytes) : bytes :=
  if bytes_eqb key (of_string (JWTSecret cfg)) && bytes_eqb msg (of_string signing_input)
  then mac else [].

Definition external : External := {|
  bcrypt_hash := Recorded.hash;
  bcrypt_matches := Recorded.matches;
  json_Marshal := Marshal;
  json_Unmarshal := Unmarshal;
  json_Decode := Unmarshal;
  hmac_sha384 := fun _ _ => [];
  hmac_sha512 := hmac512
|}.

Definition token : string :=
  signing_input ++ "."
  ++ "A4PTc7_oBU7DK_5bUzZAH2OOOdQTyMUZV3eE5SUVxTUwdy_T2laY9sW8AakZjkLoKxhkKZNmqGik0SJXZnjLgA".

End Recorded_HS512.
(* ================================================================== *)
(** ** Requests and stores for the examples *)
(* ================================================================== *)

Module Scenes.
Local Open Scope string_scope.
Import Recorded.

(** A store that answers every call. *)
Definition quiet : driver.Faults :=
  {| driver.deleteFault := None; driver.listFault := None; driver.cursorFault := None |}.

(** A token as the gate hands it on, with the given claims. *)
Definition passed (claims : jwt.MapClaims) : jwt.Token :=
  {| jwt.Raw := ""; jwt.Method := jwt.SigningMethodHS256; jwt.Header := header_read;
     jwt.Claims := claims; jwt.Signature := ""; jwt.Valid := true |}.

(** A request of the single-binary server behind its gate, with the
    claims of a token under [claims]. *)
Definition with_token {B} (claims : jwt.MapClaims) (b : option B) : http.Request B :=
  {| http.Header := []; http.Ctx := [("claims", http.AClaims claims)]; http.ReqBody := b |}.

(** A request of a service behind its gate: the identity and the role of
    the token and the configured key in the context. *)
Definition with_identity {B} (id role : string) (b : option B) : http.Request B :=
  {| http.Header := [];
     http.Ctx := [("encryptionKey", http.AValue (VString (EncryptionKey cfg)));
                  ("role", http.AValue (VString role));
                  ("email", http.AValue (VString "a@x.com"));
                  ("userID", http.AValue (VString id))];
     http.ReqBody := b |}.

(** The claims of an administrator, [bobID]. *)
Definition admin_claims : jwt.MapClaims :=
  [("email", VString "b@x.com"); ("exp", VFloat64 exp);
   ("role", VString "admin"); ("userID", VString bobID)].

(** [c@x.com], registered one hour after the others under another IV. *)
Definition carolID : string := "191a1b1c1d1e1f2021222324".
Definition carol : User := {|
  models.ID := unhex carolID;
  models.EmailHash := "c@x.com";
  models.Email := fst (utils.Encrypt (unhex "0f0e0d0c0b0a09080706050403020100") "c@x.com"
                                     (EncryptionKey cfg));
  models.Password := digest_user;
  models.Role := "user";
  models.CreatedAt := (t0 + time.Hour)%Z;
  models.UpdatedAt := (t0 + time.Hour)%Z
|}.

(** A record whose address field is not a ciphertext. *)
Definition broken : User := {|
  models.ID := unhex carolID;
  models.EmailHash := "c@x.com";
  models.Email := "c@x.com";
  models.Password := digest_user;
  models.Role := "user";
  models.CreatedAt := t0;
  models.UpdatedAt := t0
|}.

(** A password of 73 bytes. *)
Definition long_password : string :=
  "0123456789012345678901234567890123456789012345678901234567890123456789012".

(** The second page of two entries of a store of three users. *)
Definition second_page : server_handlers.ListUsersResponse :=
  match server_handlers.ListUsers cfg world quiet [alice; bob; carol] "2" "2"
          (with_token admin_claims None) with
  | responses.Wrote resp => resp
  | responses.Ended _ =>
      {| server_handlers.Users := []; server_handlers.Total := 0;
         server_handlers.Page := 0; server_handlers.Limit := 0;
         server_handlers.TotalPages := 0 |}
  end.

End Scenes.

(* ================================================================== *)
(** * Properties *)
(* ================================================================== *)

(** [lia] reads division and remainder by a constant. *)
Ltac Zify.zify_post_hook ::= Z.to_euclidean_division_equations.

(** ** Published test vectors *)

Section AES_vectors.
Let enc_hex (key pt : string) : option string :=
  option_map (fun b => hex (AES.Encrypt b (unhex pt))) (AES.NewCipher (unhex key)).

(** FIPS-197, appendix C.1 and C.3. *)
Example aes128_fips197 :
  enc_hex "000102030405060708090a0b0c0d0e0f" "00112233445566778899aabbccddeeff"
  = Some "69c4e0d86a7b0430d8cdb78070b4c55a"%string.
Proof. vm_compute. reflexivity. Qed.

Example aes256_fips197 :
  enc_hex "000102030405060708090a0b0c0d0e0f101112131415161718191a1b1c1d1e1f"
          "00112233445566778899aabbccddeeff"
  = Some "8ea2b7ca516745bfeafc49904b496089"%string.
Proof. vm_compute. reflexivity. Qed.
End AES_vectors.

Section CFB_Base64_vectors.
(** NIST SP 800-38A, F.3.17 (CFB128-AES256.Encrypt), first two blocks. *)
Example cfb128_aes256_sp800_38a :
  match AES.NewCipher (unhex "603deb1015ca71be2b73aef0857d77811f352c073b6108d72d9810a30914dff4") with
  | Some blk =>
      match CFB.NewCFBEncrypter blk (unhex "000102030405060708090a0b0c0d0e0f") with
      | Some x =>
          hex (fst (CFB.XORKeyStream x
            (unhex "6bc1bee22e409f96e93d7e117393172aae2d8a571e03ac9c9eb76fac45af8e51")))
      | None => ""%string
      end
  | None => ""%string
  end = "dc7e84bfda79164b7ecd8486985d386039ffed143b28b1c832113c6331e5407b"%string.
Proof. vm_compute. reflexivity. Qed.

(** RFC 4648, section 10. *)
Example base64_rfc4648 :
  map (fun s => Base64.EncodeToString Base64.StdEncoding (of_string s))
      ["f"; "fo"; "foo"; "foob"; "fooba"; "foobar"]%string
  = ["Zg=="; "Zm8="; "Zm9v"; "Zm9vYg=="; "Zm9vYmE="; "Zm9vYmFy"]%string.
Proof. vm_compute. reflexivity. Qed.

Example base64_decode_examples :
  map (Base64.DecodeString Base64.StdEncoding)
      ["Zg=="; "Zm9v"; "Zm9vYmE="; "Zm9v" ++ String "010" "YmE="; "Zg="; "Zg"; "Z===";
       "Zm9v="; "Zm 9v"; "Zg==Zg=="]%string
  = [Some (of_string "f"); Some (of_string "foo"); Some (of_string "fooba");
     Some (of_string "fooba"); None; None; None; None; None; None].
Proof. vm_compute. reflexivity. Qed.

Example base64url_decode_examples :
  map (Base64.DecodeString Base64.RawURLEncoding)
      ["Zg"; "Zm8"; "Zm9v"; "Zg=="; "Z"; "Bearer e30"; "-_-_"]%string
  = [Some (of_string "f"); Some (of_string "fo"); Some (of_string "foo"); None; None; None;
     Some (unhex "fbffbf")].
Proof. vm_compute. reflexivity. Qed.
End CFB_Base64_vectors.

Section SHA256_vectors.
(** FIPS 180-4 examples and RFC 4231 test case 2. *)
Example sha256_abc :
  hex (SHA256.Sum256 (of_string "abc"))
  = "ba7816bf8f01cfea414140de5dae2223b00361a396177a9cb410ff61f20015ad"%string.
Proof. vm_compute. reflexivity. Qed.

Example sha256_empty :
  hex (SHA256.Sum256 [])
  = "e3b0c44298fc1c149afbf4c8996fb92427ae41e4649b934ca495991b7852b855"%string.
Proof. vm_compute. reflexivity. Qed.

Example sha256_two_blocks :
  hex (SHA256.Sum256 (of_string "abcdbcdecdefdefgefghfghighijhijkijkljklmklmnlmnomnopnopq"))
  = "248d6a61d20638b8e5c026930c3e6039a33ce45964ff2167f6ecedd419db06c1"%string.
Proof. vm_compute. reflexivity. Qed.

Example hmac_sha256_rfc4231_2 :
  hex (HMAC.Sum (of_string "Jefe") (of_string "what do ya want for nothing?"))
  = "5bdcc146bf60754e6a042426089575c75a003f089d2739839dec58b964ec3843"%string.
Proof. vm_compute. reflexivity. Qed.

(** The MAC depends on the key only through its padded form: two keys
    that pad to the same block give the same MAC on every message. *)
Lemma Sum_pad_key (k1 k2 msg : bytes) :
  HMAC.pad_key k1 = HMAC.pad_key k2 -> HMAC.Sum k1 msg = HMAC.Sum k2 msg.
Proof. intros E. unfold HMAC.Sum, HMAC.ipad, HMAC.opad. rewrite E. reflexivity. Qed.

(** A key longer than one block pads to the same block as its digest. *)
Lemma pad_key_digest (k : bytes) :
  (SHA256.BlockSize < length k)%nat ->
  length (SHA256.Sum256 k) = 32%nat ->
  HMAC.pad_key (SHA256.Sum256 k) = HMAC.pad_key k.
Proof.
  intros Hk Hd. unfold HMAC.pad_key. rewrite Hd.
  apply Nat.ltb_lt in Hk. rewrite Hk.
  replace (SHA256.BlockSize <? 32)%nat with false by reflexivity.
  rewrite Hd. reflexivity.
Qed.
End SHA256_vectors.

Section Encryption_examples.
Let key : string := "12345678901234567890123456789012".
Let iv : bytes := unhex "000102030405060708090a0b0c0d0e0f".

Example Encrypt_example :
  utils.Encrypt iv "a@x.com" key = ("AAECAwQFBgcICQoLDA0OD4+htLmHnZc="%string, None).
Proof. vm_compute. reflexivity. Qed.

Example Decrypt_example :
  utils.Decrypt "AAECAwQFBgcICQoLDA0OD4+htLmHnZc=" key = ("a@x.com"%string, None).
Proof. vm_compute. reflexivity. Qed.

Example HashEmail_example :
  utils.HashEmail "a@x.com" = "R4q+x0MFaRYxYd/qhRO4zonQX1WUVqJulFxm4f5Vop0="%string.
Proof. vm_compute. reflexivity. Qed.
End Encryption_examples.

(** ** Base64: decoding inverts encoding *)

Section Base64_facts.
Import Base64.
Local Open Scope N_scope.

Lemma land_disjoint x y k : y < 2 ^ k -> N.land (x * 2 ^ k) y = 0.
Proof.
  intros Hy. apply N.bits_inj. intro n. rewrite N.land_spec, N.bits_0.
  destruct (N.lt_ge_cases n k) as [H|H].
  - rewrite N.mul_pow2_bits_low by exact H. reflexivity.
  - rewrite <- (N.mod_small y (2 ^ k)) by exact Hy.
    rewrite N.mod_pow2_bits_high by exact H. apply andb_false_r.
Qed.

Lemma lor_add x y k : y < 2 ^ k -> N.lor (x * 2 ^ k) y = x * 2 ^ k + y.
Proof.
  intros Hy. rewrite <- N.lxor_lor by (apply land_disjoint; exact Hy).
  symmetry. apply N.add_nocarry_lxor. apply land_disjoint; exact Hy.
Qed.

Lemma lor_add_low x y k : x mod 2 ^ k = 0 -> y < 2 ^ k -> N.lor x y = x + y.
Proof.
  intros Hx Hy.
  assert (E : x = x / 2 ^ k * 2 ^ k).
  { rewrite (N.div_mod x (2 ^ k)) at 1 by (apply N.pow_nonzero; discriminate).
    rewrite Hx. lia. }
  rewrite E. apply lor_add. exact Hy.
Qed.

Lemma land_63 x : N.land x 63 = x mod 64.
Proof. change 63 with (N.ones 6). rewrite N.land_ones. reflexivity. Qed.
Lemma land_255 x : N.land x 255 = x mod 256.
Proof. change 255 with (N.ones 8). rewrite N.land_ones. reflexivity. Qed.

Ltac arith_bits :=
  rewrite ?N.shiftl_mul_pow2, ?N.shiftr_div_pow2, ?land_63, ?land_255;
  change (2 ^ 6) with 64; change (2 ^ 8) with 256; change (2 ^ 12) with 4096;
  change (2 ^ 16) with 65536; change (2 ^ 18) with 262144.

Lemma val' (s0 s1 s2 s3 : N) : s0 < 64 -> s1 < 64 -> s2 < 64 -> s3 < 64 ->
  N.lor (N.lor (N.lor (N.shiftl s0 18) (N.shiftl s1 12)) (N.shiftl s2 6)) s3
  = s0 * 262144 + s1 * 4096 + s2 * 64 + s3.
Proof.
  intros. arith_bits.
  rewrite (@lor_add_low (s0 * 262144) (s1 * 4096) 18) by (change (2 ^ 18) with 262144; lia).
  rewrite (@lor_add_low _ (s2 * 64) 12) by (change (2 ^ 12) with 4096; lia).
  rewrite (@lor_add_low _ s3 6) by (change (2 ^ 6) with 64; lia).
  reflexivity.
Qed.

Lemma val3 a b c : a < 256 -> b < 256 -> c < 256 ->
  N.lor (N.lor (N.shiftl a 16) (N.shiftl b 8)) c = a * 65536 + b * 256 + c.
Proof.
  intros. arith_bits.
  rewrite (@lor_add_low (a * 65536) (b * 256) 16) by (change (2^16) with 65536; lia).
  rewrite (@lor_add_low _ c 8) by (change (2^8) with 256; lia).
  reflexivity.
Qed.

Lemma byte_of_N_of_byte (a : byte) x : x mod 256 = N_of_byte a -> byte_of_N x = a.
Proof.
  intros H. unfold byte_of_N. rewrite land_255, H. apply ascii_N_embedding.
Qed.

Lemma N_of_byte_lt a : N_of_byte a < 256.
Proof. apply N_ascii_bounded. Qed.

Lemma quantum4 (a b c : byte) :
  let val := N.lor (N.lor (N.shiftl (N_of_byte a) 16) (N.shiftl (N_of_byte b) 8)) (N_of_byte c) in
  quantum (N.land (N.shiftr val 18) 0x3F) (N.land (N.shiftr val 12) 0x3F)
          (N.land (N.shiftr val 6) 0x3F) (N.land val 0x3F) 4 = [a; b; c].
Proof.
  pose proof (N_of_byte_lt a). pose proof (N_of_byte_lt b). pose proof (N_of_byte_lt c).
  intros val. unfold val. rewrite val3 by assumption.
  unfold quantum. rewrite val' by (rewrite land_63; apply N.mod_lt; discriminate).
  arith_bits. simpl firstn.
  repeat f_equal; apply byte_of_N_of_byte; lia.
Qed.

Lemma quantum3 (a b : byte) :
  let val := N.lor (N.shiftl (N_of_byte a) 16) (N.shiftl (N_of_byte b) 8) in
  quantum (N.land (N.shiftr val 18) 0x3F) (N.land (N.shiftr val 12) 0x3F)
          (N.land (N.shiftr val 6) 0x3F) 0 3 = [a; b].
Proof.
  pose proof (N_of_byte_lt a). pose proof (N_of_byte_lt b).
  intros val. unfold val. rewrite <- (N.lor_0_r (N.lor _ _)). rewrite val3 by (assumption || lia).
  unfold quantum. rewrite val' by (try (rewrite land_63; apply N.mod_lt; discriminate); lia).
  arith_bits. simpl firstn.
  repeat f_equal; apply byte_of_N_of_byte; lia.
Qed.

Lemma quantum2 (a : byte) :
  let val := N.shiftl (N_of_byte a) 16 in
  quantum (N.land (N.shiftr val 18) 0x3F) (N.land (N.shiftr val 12) 0x3F) 0 0 2 = [a].
Proof.
  pose proof (N_of_byte_lt a).
  intros val. unfold val.
  unfold quantum. rewrite val' by (try (rewrite land_63; apply N.mod_lt; discriminate); lia).
  arith_bits. simpl firstn.
  repeat f_equal; apply byte_of_N_of_byte; lia.
Qed.

Lemma sextet_lt x : N.land x 0x3F < 64.
Proof. rewrite land_63. apply N.mod_lt. discriminate. Qed.

Lemma list_ind3 {A} (P : list A -> Prop) :
  P [] -> (forall a, P [a]) -> (forall a b, P [a; b]) ->
  (forall a b c l, P l -> P (a :: b :: c :: l)) -> forall l, P l.
Proof.
  intros H0 H1 H2 H3.
  fix IH 1. intros [|a [|b [|c l]]];
    [exact H0 | apply H1 | apply H2 | apply H3; apply IH].
Qed.

Section Roundtrip.
Variable e : Encoding.
Hypothesis dec_enc : forall v, v < 64 -> dec_char e (enc_char e v) = Some v.
Hypothesis enc_nl : forall v, v < 64 -> is_newline (enc_char e v) = false.
Hypothesis pad_ok : forall p, padChar e = Some p -> dec_char e p = None /\ is_newline p = false.

Lemma decodeQuanta_Encode src : decodeQuanta e (Encode e src) = Some src.
Proof.
  induction src as [|a|a b|a b c l IH] using list_ind3.
  - reflexivity.
  - cbn [Encode app]. unfold pad, Base64.pad. destruct (padChar e) as [p|] eqn:Hp.
    + destruct (@pad_ok p eq_refl) as [Hd _]. cbn [repeat decodeQuanta].
      rewrite !dec_enc by apply sextet_lt. rewrite Hd.
      unfold is_pad. rewrite Hp, Ascii.eqb_refl. cbn [andb]. f_equal. apply quantum2.
    + cbn [decodeQuanta]. rewrite Hp, !dec_enc by apply sextet_lt. f_equal. apply quantum2.
  - cbn [Encode app]. unfold Base64.pad. destruct (padChar e) as [p|] eqn:Hp.
    + destruct (@pad_ok p eq_refl) as [Hd _]. cbn [repeat decodeQuanta].
      rewrite !dec_enc by apply sextet_lt. rewrite Hd.
      unfold is_pad. rewrite Hp, Ascii.eqb_refl. f_equal. apply quantum3.
    + cbn [decodeQuanta]. rewrite Hp, !dec_enc by apply sextet_lt. f_equal. apply quantum3.
  - cbn [Encode decodeQuanta]. rewrite !dec_enc by apply sextet_lt. rewrite IH.
    f_equal. rewrite quantum4. reflexivity.
Qed.

Lemma Encode_no_newline src :
  filter (fun c => negb (is_newline c)) (Encode e src) = Encode e src.
Proof.
  induction src as [|a|a b|a b c l IH] using list_ind3.
  - reflexivity.
  - cbn [Encode app filter]. rewrite !enc_nl by apply sextet_lt. cbn [negb]. do 2 f_equal.
    unfold Base64.pad. destruct (padChar e) as [p|] eqn:Hp; [|reflexivity].
    destruct (@pad_ok p eq_refl) as [_ Hn]. cbn. rewrite Hn. reflexivity.
  - cbn [Encode app filter]. rewrite !enc_nl by apply sextet_lt. cbn [negb]. do 3 f_equal.
    unfold Base64.pad. destruct (padChar e) as [p|] eqn:Hp; [|reflexivity].
    destruct (@pad_ok p eq_refl) as [_ Hn]. cbn. rewrite Hn. reflexivity.
  - cbn [Encode filter]. rewrite !enc_nl by apply sextet_lt. cbn [negb]. rewrite IH. reflexivity.
Qed.

Lemma DecodeString_EncodeToString src :
  DecodeString e (EncodeToString e src) = Some src.
Proof.
  unfold DecodeString, EncodeToString.
  rewrite list_ascii_of_string_of_list_ascii, Encode_no_newline.
  apply decodeQuanta_Encode.
Qed.
End Roundtrip.

Lemma good_alphabet_roundtrip e :
  good_alphabet e = true -> forall src, DecodeString e (EncodeToString e src) = Some src.
Proof.
  unfold good_alphabet. intros H. apply andb_prop in H. destruct H as [Hall Hpad].
  rewrite forallb_forall in Hall.
  assert (Hv : forall v, v < 64 ->
            dec_char e (enc_char e v) = Some v /\ is_newline (enc_char e v) = false).
  { intros v Hlt. specialize (Hall (N.to_nat v)).
    rewrite N2Nat.id in Hall.
    assert (Hin : In (N.to_nat v) (seq 0 64)) by (apply in_seq; lia).
    apply Hall in Hin. apply andb_prop in Hin. destruct Hin as [H1 H2].
    destruct (dec_char e (enc_char e v)) as [w|]; [|discriminate].
    apply N.eqb_eq in H1. subst w. split; [reflexivity|].
    apply negb_true_iff in H2. exact H2. }
  apply DecodeString_EncodeToString.
  - intros v Hlt. apply Hv. exact Hlt.
  - intros v Hlt. apply Hv. exact Hlt.
  - intros p Hp. rewrite Hp in Hpad. destruct (dec_char e p); [discriminate|].
    apply negb_true_iff in Hpad. auto.
Qed.

Lemma StdEncoding_roundtrip src :
  DecodeString StdEncoding (EncodeToString StdEncoding src) = Some src.
Proof. apply good_alphabet_roundtrip. vm_compute. reflexivity. Qed.

Lemma RawURLEncoding_roundtrip src :
  DecodeString RawURLEncoding (EncodeToString RawURLEncoding src) = Some src.
Proof. apply good_alphabet_roundtrip. vm_compute. reflexivity. Qed.

End Base64_facts.

(** ** The field cipher *)

Section Cipher_facts.
Import CFB utils.

Lemma xor_byte_involutive s k : xor_byte (xor_byte s k) k = s.
Proof.
  destruct s, k. cbn. repeat rewrite xorb_assoc, xorb_nilpotent, xorb_false_r. reflexivity.
Qed.


Lemma xorByte_mirror x s :
  decrypt x = false ->
  let (d, x') := xorByte x s in
  xorByte (mirror x) d = (s, mirror x').
Proof.
  intros Hx. unfold xorByte. destruct x as [blk nx o u dec]. cbn in *. subst dec.
  destruct (u =? length o)%nat; cbn; rewrite xor_byte_involutive; reflexivity.
Qed.

Lemma xorByte_decrypt x s : decrypt (snd (xorByte x s)) = decrypt x.
Proof. unfold xorByte. destruct (outUsed x =? length (out x))%nat; reflexivity. Qed.

Lemma XORKeyStream_mirror src : forall x,
  decrypt x = false ->
  fst (XORKeyStream (mirror x) (fst (XORKeyStream x src))) = src.
Proof.
  induction src as [|s rest IH]; intros x Hx.
  - reflexivity.
  - cbn [XORKeyStream].
    pose proof (xorByte_mirror x s Hx) as Hm.
    pose proof (xorByte_decrypt x s) as Hd.
    destruct (xorByte x s) as [d x'].
    specialize (IH x'). cbn [snd] in Hd. rewrite Hx in Hd. specialize (IH Hd).
    destruct (XORKeyStream x' rest) as [ds x''].
    cbn [fst XORKeyStream] in *. rewrite Hm.
    destruct (XORKeyStream (mirror x') ds) as [ps y]. cbn [fst] in *. rewrite IH. reflexivity.
Qed.

Lemma XORKeyStream_length src : forall x, length (fst (XORKeyStream x src)) = length src.
Proof.
  induction src as [|s rest IH]; intros x; [reflexivity|].
  cbn [XORKeyStream]. destruct (xorByte x s) as [d x'].
  specialize (IH x'). destruct (XORKeyStream x' rest) as [ds x''].
  cbn in *. rewrite IH. reflexivity.
Qed.

Lemma length_of_string s : length (of_string s) = String.length s.
Proof. unfold of_string. induction s; cbn; congruence. Qed.

Lemma to_string_of_string s : to_string (of_string s) = s.
Proof. apply string_of_list_ascii_of_string. Qed.

Lemma NewCipher_32 key : length key = 32%nat -> exists blk, AES.NewCipher key = Some blk.
Proof. intros H. unfold AES.NewCipher. rewrite H. cbn. eauto. Qed.

Lemma ReadFull_length r n iv : ReadFull r n = Some iv -> length iv = n.
Proof.
  unfold ReadFull. destruct (n <=? length r)%nat eqn:E; [|discriminate].
  intros H. injection H as <-. apply Nat.leb_le in E. apply firstn_length_le. exact E.
Qed.


Lemma Encrypt_Decrypt rand s key :
  String.length key = 32%nat ->
  (AES.BlockSize <= length rand)%nat ->
  exists token,
    Encrypt rand s key = (token, None) /\ Decrypt token key = (s, None).
Proof.
  intros Hk Hr. unfold Encrypt, Decrypt. rewrite Hk. cbn [Nat.eqb negb].
  destruct (@NewCipher_32 (of_string key)) as [blk Hblk].
  { rewrite length_of_string. exact Hk. }
  rewrite Hblk.
  destruct (ReadFull rand AES.BlockSize) as [iv|] eqn:Hiv.
  2:{ unfold ReadFull in Hiv. apply Nat.leb_le in Hr. rewrite Hr in Hiv. discriminate. }
  pose proof Hiv as Hlen. apply ReadFull_length in Hlen.
  unfold NewCFBEncrypter, NewCFBDecrypter, newCFB. rewrite <- Hlen, Nat.eqb_refl.
  eexists. split; [reflexivity|].
  rewrite StdEncoding_roundtrip, length_app.
  replace (length iv + _ <? length iv)%nat with false
    by (symmetry; apply Nat.ltb_ge; lia).
  rewrite firstn_app, Nat.sub_diag, firstn_all, firstn_O, app_nil_r, Nat.eqb_refl.
  rewrite skipn_app, Nat.sub_diag, skipn_all. cbn [app skipn].
  match goal with |- context [XORKeyStream ?y (fst (XORKeyStream ?x _))] =>
    change y with (mirror x) end.
  rewrite XORKeyStream_mirror by reflexivity.
  rewrite to_string_of_string. reflexivity.
Qed.

(** Whatever 32-byte key a token is decrypted under, [Decrypt] reports no
    error and returns as many bytes as were encrypted. *)
Lemma Decrypt_any_key rand s key1 key2 token :
  String.length key2 = 32%nat ->
  Encrypt rand s key1 = (token, None) ->
  exists s', Decrypt token key2 = (s', None) /\ String.length s' = String.length s.
Proof.
  intros Hk2. unfold Encrypt.
  destruct (negb (String.length key1 =? 32)%nat); [discriminate|].
  destruct (AES.NewCipher (of_string key1)) as [blk1|]; [|discriminate].
  destruct (ReadFull rand AES.BlockSize) as [iv|] eqn:Hiv; [|discriminate].
  pose proof Hiv as Hlen. apply ReadFull_length in Hlen.
  unfold NewCFBEncrypter, NewCFBDecrypter, newCFB. rewrite <- Hlen, Nat.eqb_refl.
  intros E. injection E as <-.
  unfold Decrypt, NewCFBDecrypter, newCFB. rewrite Hk2, <- Hlen. cbn [Nat.eqb negb].
  rewrite StdEncoding_roundtrip.
  destruct (@NewCipher_32 (of_string key2)) as [blk2 Hblk2].
  { rewrite length_of_string. exact Hk2. }
  rewrite Hblk2, length_app.
  replace (length iv + _ <? length iv)%nat with false
    by (symmetry; apply Nat.ltb_ge; lia).
  rewrite firstn_app, Nat.sub_diag, firstn_all, firstn_O, app_nil_r, Nat.eqb_refl.
  rewrite skipn_app, Nat.sub_diag, skipn_all. cbn [app skipn].
  eexists. split; [reflexivity|].
  unfold to_string. rewrite <- (length_of_string s).
  rewrite <- (XORKeyStream_length (of_string s)
                {| b := blk1; next := iv; out := repeat zero (length iv);
                   outUsed := length iv; decrypt := false |}).
  set (ct := fst (XORKeyStream _ (of_string s))).
  rewrite <- (XORKeyStream_length ct
                {| b := blk2; next := iv; out := repeat zero (length iv);
                   outUsed := length iv; decrypt := true |}).
  generalize (fst (XORKeyStream {| b := blk2; next := iv; out := repeat zero (length iv);
                   outUsed := length iv; decrypt := true |} ct)).
  intros l. induction l; cbn; congruence.
Qed.

(** C5.  For every key of exactly 32 bytes and every plaintext [s], with
    the IV read from [rand] (at least one block of random bytes), [Encrypt]
    returns a token without error and [Decrypt] of that token under the
    same key returns [s] without error. *)
Theorem Decrypt_Encrypt_roundtrip (rand : Reader) (s key : string) :
  String.length key = 32%nat ->
  (AES.BlockSize <= length rand)%nat ->
  exists token,
    Encrypt rand s key = (token, None) /\ Decrypt token key = (s, None).
Proof. intros Hk Hr. apply Encrypt_Decrypt; assumption. Qed.

Lemma Decrypt_Encrypt_roundtrip_witness :
  let key := "12345678901234567890123456789012"%string in
  let rand := unhex "000102030405060708090a0b0c0d0e0f" in
  String.length key = 32%nat /\
  (AES.BlockSize <= length rand)%nat /\
  exists token,
    Encrypt rand "a@x.com" key = (token, None) /\
    Decrypt token key = ("a@x.com"%string, None).
Proof.
  cbv zeta. split; [reflexivity|]. split; [vm_compute; lia|].
  apply Decrypt_Encrypt_roundtrip; [reflexivity | vm_compute; lia].
Defined.

(** C7.  For every key whose length is not exactly 32 bytes and every
    input, [Encrypt] and [Decrypt] both return the empty string together
    with an error. *)
Theorem invalid_key_rejected (rand : Reader) (input key : string) :
  String.length key <> 32%nat ->
  (fst (Encrypt rand input key) = ""%string /\ snd (Encrypt rand input key) <> None) /\
  (fst (Decrypt input key) = ""%string /\ snd (Decrypt input key) <> None).
Proof.
  intros Hk. apply Nat.eqb_neq in Hk. unfold Encrypt, Decrypt. rewrite Hk. cbn.
  repeat split; discriminate.
Qed.

Lemma invalid_key_rejected_witness :
  let key := "your-secret-key"%string in
  String.length key <> 32%nat /\
  (fst (Encrypt [] "a@x.com" key) = ""%string /\ snd (Encrypt [] "a@x.com" key) <> None) /\
  (fst (Decrypt "a@x.com" key) = ""%string /\ snd (Decrypt "a@x.com" key) <> None).
Proof.
  cbv zeta. split; [vm_compute; lia|]. apply invalid_key_rejected. vm_compute. lia.
Defined.

(** C2, at the keys the two programs fall back to.  A token made under the
    default key of the services decrypts, under the default key of the
    single-binary server, to a string that is not the plaintext, and
    [Decrypt] reports no error. *)
Theorem Decrypt_under_other_key_is_silent :
  let key1 := "your-32-byte-encryption-key-here"%string in
  let key2 := "12345678901234567890123456789012"%string in
  let rand := unhex "000102030405060708090a0b0c0d0e0f" in
  let token := "AAECAwQFBgcICQoLDA0OD35SicTOtYo="%string in
  let garbled := to_string (unhex "90b345532a4770") in
  Encrypt rand "a@x.com" key1 = (token, None) /\
  Decrypt token key1 = ("a@x.com"%string, None) /\
  Decrypt token key2 = (garbled, None) /\
  garbled <> "a@x.com"%string.
Proof.
  cbv zeta. split; [vm_compute; reflexivity|].
  split; [vm_compute; reflexivity|]. split; [vm_compute; reflexivity|].
  vm_compute. discriminate.
Qed.

End Cipher_facts.

(** ** The lookup key *)

Section HashEmail_facts.

Lemma round_length h kw : length h = 8%nat -> length (SHA256.round h kw) = 8%nat.
Proof.
  intros Hh. do 9 (destruct h as [|? h]; try discriminate). destruct kw. reflexivity.
Qed.

Lemma fold_round_length kws : forall h, length h = 8%nat ->
  length (fold_left SHA256.round kws h) = 8%nat.
Proof.
  induction kws as [|kw kws IH]; intros h Hh; cbn; [exact Hh|].
  apply IH. apply round_length. exact Hh.
Qed.

Lemma zipWith_length {A B C} (f : A -> B -> C) xs : forall ys,
  length xs = length ys -> length (zipWith f xs ys) = length xs.
Proof.
  induction xs as [|x xs IH]; intros [|y ys] Hl; cbn in *; try discriminate; [reflexivity|].
  f_equal. apply IH. congruence.
Qed.

Lemma block_length h p : length h = 8%nat -> length (SHA256.block h p) = 8%nat.
Proof.
  intros Hh. unfold SHA256.block. rewrite zipWith_length; [exact Hh|].
  rewrite fold_round_length; congruence.
Qed.

Lemma blocks_length n : forall h p, length h = 8%nat -> length (SHA256.blocks n h p) = 8%nat.
Proof.
  induction n as [|n IH]; intros h p Hh; cbn; [exact Hh|].
  apply IH. apply block_length. exact Hh.
Qed.

Lemma Sum256_length data : length (SHA256.Sum256 data) = SHA256.Size.
Proof.
  unfold SHA256.Sum256.
  pose proof (@blocks_length (length (data ++ SHA256.padding (length data)) / 64)
                SHA256.init (data ++ SHA256.padding (length data))%list eq_refl) as Hl.
  destruct (SHA256.blocks _ _ _) as [|a l]; try discriminate.
  do 8 (destruct l as [|? l]; try discriminate).
  reflexivity.
Qed.

Lemma EncodeToString_32 l :
  length l = 32%nat -> String.length (Base64.EncodeToString Base64.StdEncoding l) = 44%nat.
Proof.
  intros Hl. do 33 (destruct l as [|? l]; try discriminate). reflexivity.
Qed.

Lemma HashEmail_length e : String.length (utils.HashEmail e) = 44%nat.
Proof. unfold utils.HashEmail. apply EncodeToString_32. apply Sum256_length. Qed.

(** The hashed key of an address is 44 characters long, so it differs from
    every address of another length. *)
Lemma HashEmail_differs e : String.length e <> 44%nat -> utils.HashEmail e <> e.
Proof.
  intros Hl Heq. apply Hl. rewrite <- Heq. apply HashEmail_length.
Qed.

End HashEmail_facts.

(** ** Registration and login *)

Section Credential_service.
Import http mongo auth_service.
Local Open Scope string_scope.

Section Registration.
Context `{External}.
Variables (cfg : Config) (world : World) (db : Collection).

(** Either a 200 with exactly one appended record, or another status and the same store. *)
Lemma Register_outcome (r : Request RegisterRequest) req :
  ReqBody r = Some req ->
  (StatusCode (fst (Register cfg world db r)) = StatusOK /\
   exists u, snd (Register cfg world db r) = (db ++ [u])%list /\
             models.Role u = (if String.eqb (Role req) "admin" then "admin" else "user") /\
             models.EmailHash u = Email req)
  \/ (StatusCode (fst (Register cfg world db r)) <> StatusOK /\
      snd (Register cfg world db r) = db).
Proof.
  intros Hreq. unfold Register. rewrite Hreq.
  destruct (FindOne _ _ _); try (right; split; [discriminate|reflexivity]).
  destruct (bcrypt.GenerateFromPassword _ _ _) as [hp [e|]];
    try (right; split; [discriminate|reflexivity]).
  destruct (utils.Encrypt _ _ _) as [ct [e|]];
    try (right; split; [discriminate|reflexivity]).
  unfold InsertOne. destruct (insertFault world);
    try (right; split; [discriminate|reflexivity]).
  left. split; [reflexivity|]. eexists. split; [reflexivity|]. split; reflexivity.
Qed.

Lemma AdminRegister_outcome (r : Request AdminRegisterRequest) req :
  ReqBody r = Some req ->
  (StatusCode (fst (AdminRegister cfg world db r)) = StatusOK /\
   exists u, snd (AdminRegister cfg world db r) = (db ++ [u])%list /\
             models.Role u = "admin" /\ models.EmailHash u = LoginEmail req)
  \/ (StatusCode (fst (AdminRegister cfg world db r)) <> StatusOK /\
      snd (AdminRegister cfg world db r) = db).
Proof.
  intros Hreq. unfold AdminRegister. rewrite Hreq.
  destruct (FindOne _ _ _); try (right; split; [discriminate|reflexivity]).
  destruct (bcrypt.GenerateFromPassword _ _ _) as [hp [e|]];
    try (right; split; [discriminate|reflexivity]).
  destruct (utils.Encrypt _ _ _) as [ct [e|]];
    try (right; split; [discriminate|reflexivity]).
  unfold InsertOne. destruct (insertFault world);
    try (right; split; [discriminate|reflexivity]).
  left. split; [reflexivity|]. eexists. split; [reflexivity|]. split; reflexivity.
Qed.

(** Success is not vacuous. *)
Lemma Register_succeeds (r : Request RegisterRequest) req :
  ReqBody r = Some req ->
  findFault world = None -> insertFault world = None ->
  (forall u, In u db -> models.EmailHash u <> Email req) ->
  (String.length (Password req) <= 72)%nat ->
  (32 <= length (Rand world))%nat ->
  String.length (EncryptionKey cfg) = 32%nat ->
  StatusCode (fst (Register cfg world db r)) = StatusOK.
Proof.
  intros Hreq Hf Hi Hnew Hpw Hrand Hkey. unfold Register. rewrite Hreq.
  unfold FindOne. rewrite Hf.
  destruct (find _ db) as [u|] eqn:Hfind.
  { apply find_some in Hfind. destruct Hfind as [Hin Hb].
    apply String.eqb_eq in Hb. exfalso. exact (Hnew u Hin Hb). }
  unfold bcrypt.GenerateFromPassword. rewrite length_of_string.
  replace (72 <? String.length (Password req))%nat with false
    by (symmetry; apply Nat.ltb_ge; exact Hpw).
  cbn [Nat.ltb Nat.leb bcrypt.MaxCost bcrypt.DefaultCost].
  unfold ReadFull at 1.
  replace (bcrypt.maxSaltSize <=? length (Rand world))%nat with true
    by (symmetry; apply Nat.leb_le; unfold bcrypt.maxSaltSize; lia).
  destruct (@Encrypt_Decrypt (skipn bcrypt.maxSaltSize (Rand world)) (Email req)
              (EncryptionKey cfg) Hkey) as [tok [HE _]].
  { rewrite length_skipn. unfold bcrypt.maxSaltSize, AES.BlockSize. lia. }
  rewrite HE. unfold InsertOne. rewrite Hi. reflexivity.
Qed.

Lemma find_matching (f : User -> bool) u :
  In u db -> f u = true -> exists v, find f db = Some v.
Proof.
  intros Hin Hf. destruct (find f db) as [v|] eqn:E; [exists v; reflexivity|].
  rewrite (find_none _ _ E u Hin) in Hf. discriminate.
Qed.

End Registration.

Section Registration_claims.
Context `{External}.
Variables (cfg : Config) (world : World) (db : Collection).

(** C1 (amended).  The regular entry point persists the role [admin]
    exactly when the role field of the request is [admin], and [user]
    otherwise; the admin entry point always persists [admin].  Either a
    registration answers 200 and appends exactly one record with that role,
    or it answers another status and leaves the store as it was. *)
Theorem registration_role :
  (forall (r : Request RegisterRequest) req,
     ReqBody r = Some req ->
     let out := Register cfg world db r in
     (StatusCode (fst out) = StatusOK /\
      exists u, snd out = (db ++ [u])%list /\
                models.Role u = (if String.eqb (Role req) "admin" then "admin" else "user"))
     \/ (StatusCode (fst out) <> StatusOK /\ snd out = db))
  /\
  (forall (r : Request AdminRegisterRequest) req,
     ReqBody r = Some req ->
     let out := AdminRegister cfg world db r in
     (StatusCode (fst out) = StatusOK /\
      exists u, snd out = (db ++ [u])%list /\ models.Role u = "admin")
     \/ (StatusCode (fst out) <> StatusOK /\ snd out = db)).
Proof.
  split; intros r req Hreq; cbv zeta.
  - destruct (@Register_outcome _ cfg world db r req Hreq) as [[H200 [u [Hdb [Hrole _]]]]|Hno].
    + left. split; [exact H200|]. exists u. split; assumption.
    + right. exact Hno.
  - destruct (@AdminRegister_outcome _ cfg world db r req Hreq) as [[H200 [u [Hdb [Hrole _]]]]|Hno].
    + left. split; [exact H200|]. exists u. split; assumption.
    + right. exact Hno.
Qed.

(** C8.  A registration whose lookup key matches a stored record, the
    lookup itself not failing, answers 409 and leaves the store as it was;
    so does a second registration of a request that was just accepted. *)
Theorem Register_conflict (r : Request RegisterRequest) req :
  ReqBody r = Some req ->
  findFault world = None ->
  ((exists u, In u db /\ models.EmailHash u = Email req) ->
   Register cfg world db r = (Error "User already exists" StatusConflict, db))
  /\
  (forall world0 db0,
     StatusCode (fst (Register cfg world0 db0 r)) = StatusOK ->
     db = snd (Register cfg world0 db0 r) ->
     Register cfg world db r = (Error "User already exists" StatusConflict, db)).
Proof.
  intros Hreq Hfault.
  assert (Hconflict : (exists u, In u db /\ models.EmailHash u = Email req) ->
            Register cfg world db r = (Error "User already exists" StatusConflict, db)).
  { intros [u [Hin Hu]]. unfold Register. rewrite Hreq. unfold FindOne. rewrite Hfault.
    destruct (@find_matching db (by_email_hash (Email req)) u Hin) as [v Hv].
    { unfold by_email_hash. apply String.eqb_eq. exact Hu. }
    rewrite Hv. reflexivity. }
  split; [exact Hconflict|].
  intros world0 db0 H200 Hdb. apply Hconflict.
  destruct (@Register_outcome _ cfg world0 db0 r req Hreq)
    as [[_ [u [Hu [_ Hkey]]]]|[Hno _]]; [|contradiction].
  exists u. split; [|exact Hkey]. rewrite Hdb, Hu. apply in_or_app. right. left. reflexivity.
Qed.

(** C3 (amended).  The admin login checks the stored role before the
    password: for a request whose email matches a stored record, a role
    other than [admin] is answered 403 whatever the password, and a
    password mismatch is answered 401 when the role is [admin].  The
    regular login answers 401 on a mismatch whatever the role. *)
Theorem AdminLogin_role_first (r : Request LoginRequest) req user :
  ReqBody r = Some req ->
  FindOne (findFault world) db (by_email_hash (LoginEmail req)) = Found user ->
  (models.Role user <> "admin" ->
   AdminLogin cfg world db r = Error "Access denied: Admin only" StatusForbidden)
  /\
  (bcrypt.CompareHashAndPassword (of_string (models.Password user))
                                 (of_string (LoginPassword req)) <> None ->
   (models.Role user = "admin" ->
    AdminLogin cfg world db r = Error "Invalid credentials" StatusUnauthorized) /\
   Login cfg world db r = Error "Invalid credentials" StatusUnauthorized).
Proof.
  intros Hreq Hfind. unfold AdminLogin, Login, AdminLoginRequest. rewrite Hreq, Hfind.
  split.
  - intros Hrole. apply String.eqb_neq in Hrole. rewrite Hrole. reflexivity.
  - intros Hpw.
    destruct (bcrypt.CompareHashAndPassword _ _); [|contradiction].
    split; [|reflexivity].
    intros Hrole. rewrite Hrole. reflexivity.
Qed.

End Registration_claims.
End Credential_service.

(** ** The access-control gate and the token lifecycle *)

Section Access_control.
Import http mongo auth_service.
Local Open Scope string_scope.

Lemma HasPrefix_app p s : strings.HasPrefix (p ++ s) p = true.
Proof. induction p as [|c p IH]; cbn; [reflexivity|]. rewrite Ascii.eqb_refl. exact IH. Qed.

Lemma drop_app p s : strings.drop (String.length p) (p ++ s) = s.
Proof. induction p as [|c p IH]; cbn; [destruct s; reflexivity|exact IH]. Qed.

Lemma TrimPrefix_app p s : strings.TrimPrefix (p ++ s) p = s.
Proof. unfold strings.TrimPrefix. rewrite HasPrefix_app. apply drop_app. Qed.

Lemma HasPrefix_true p : forall s, strings.HasPrefix s p = true -> exists s', s = p ++ s'.
Proof.
  induction p as [|c p IH]; intros s Hs.
  - exists s. reflexivity.
  - destruct s as [|d s]; cbn in Hs; [discriminate|].
    apply andb_prop in Hs. destruct Hs as [Hc Hs]. apply Ascii.eqb_eq in Hc. subst d.
    destruct (IH s Hs) as [s' ->]. exists s'. reflexivity.
Qed.

Lemma TrimPrefix_no_prefix s p : strings.HasPrefix s p = false -> strings.TrimPrefix s p = s.
Proof. unfold strings.TrimPrefix. intros ->. reflexivity. Qed.

Lemma Split_nonempty s sep : strings.Split s sep <> [].
Proof.
  destruct s as [|c s]; cbn; [discriminate|].
  destruct (Ascii.eqb c sep); [discriminate|].
  destruct (strings.Split s sep); discriminate.
Qed.

Lemma Split_prefix p : forall s,
  forallb (fun c => negb (Ascii.eqb c ".")) (list_ascii_of_string p) = true ->
  exists h t, strings.Split s "." = h :: t /\ strings.Split (p ++ s) "." = (p ++ h) :: t.
Proof.
  induction p as [|c p IH]; intros s Hp.
  - destruct (strings.Split s ".") as [|h t] eqn:E; [exfalso; exact (Split_nonempty _ _ E)|].
    exists h, t. split; [reflexivity|exact E].
  - cbn in Hp. apply andb_prop in Hp. destruct Hp as [Hc Hp].
    apply negb_true_iff in Hc.
    destruct (IH s Hp) as [h [t [E1 E2]]]. exists h, t. split; [exact E1|].
    cbn [append strings.Split]. rewrite Hc, E2. reflexivity.
Qed.

Lemma DecodeSegment_Bearer s : jwt.DecodeSegment ("Bearer " ++ s) = None.
Proof.
  unfold jwt.DecodeSegment, Base64.DecodeString. cbn [append list_ascii_of_string].
  cbn [filter Base64.is_newline Ascii.eqb Bool.eqb orb negb andb].
  set (l := filter _ (list_ascii_of_string s)). clearbody l.
  destruct l as [|c [|d l]]; reflexivity.
Qed.

Section Parse_facts.
Context `{External}.

Lemma Parse_empty key now : jwt.Parse "" key now = (None, Some jwt.ErrTokenMalformed).
Proof. reflexivity. Qed.

Lemma Parse_Bearer s key now : exists e, jwt.Parse ("Bearer " ++ s) key now = (None, Some e).
Proof.
  unfold jwt.Parse.
  destruct (@Split_prefix "Bearer " s eq_refl) as [h [t [_ E]]]. rewrite E.
  destruct t as [|p1 [|p2 [|p3 t]]]; try (eexists; reflexivity).
  rewrite DecodeSegment_Bearer. eexists; reflexivity.
Qed.

Lemma Parse_valid s key now tok :
  jwt.Parse s key now = (Some tok, None) -> jwt.Valid tok = true.
Proof.
  unfold jwt.Parse.
  destruct (strings.Split s ".") as [|p0 [|p1 [|p2 [|p3 t]]]]; try discriminate.
  destruct (jwt.DecodeSegment p0); [|discriminate].
  destruct (json_Unmarshal _); [|discriminate].
  destruct (jwt.DecodeSegment p1); [|discriminate].
  destruct (json_Decode _); [|discriminate].
  destruct (index _ _); try discriminate.
  destruct (jwt.GetSigningMethod _); [|discriminate].
  destruct (negb _); [discriminate|].
  destruct (jwt.ClaimsValid _ _); [discriminate|].
  intros E. injection E as <-. reflexivity.
Qed.

Lemma Parse_ok_no_Bearer s key now tok :
  jwt.Parse s key now = (Some tok, None) ->
  s <> "" /\ strings.HasPrefix s "Bearer " = false.
Proof.
  intros HP. split.
  - intros ->. rewrite Parse_empty in HP. discriminate.
  - destruct (strings.HasPrefix s "Bearer ") eqn:E; [|reflexivity].
    apply HasPrefix_true in E. destruct E as [s' ->].
    destruct (Parse_Bearer s' key now) as [e He]. rewrite He in HP. discriminate.
Qed.
End Parse_facts.

Section Gate.
Context `{External}.
Variables (cfg : Config) (now : time.Time).
Variable B : Type.
Variable next : Handler B.

Let secret := of_string (JWTSecret cfg).
Let unauthorized (msg : string) := Reply (Error msg StatusUnauthorized).
Let forbidden := Reply (Error "Admin access required" StatusForbidden).

Lemma gate_accepts (r : Request B) tok :
  Get (Header r) "Authorization" <> "" ->
  jwt.Parse (strings.TrimPrefix (Get (Header r) "Authorization") "Bearer ") secret now
    = (Some tok, None) ->
  middleware.JWTAuthMiddleware cfg now next r = next (with_claims r tok) /\
  microservices.JWTAuthMiddleware cfg now next r = next (with_principal cfg r tok).
Proof.
  intros Hh HP. apply String.eqb_neq in Hh.
  unfold middleware.JWTAuthMiddleware, microservices.JWTAuthMiddleware.
  rewrite Hh. fold secret. rewrite HP, (Parse_valid _ _ _ HP). split; reflexivity.
Qed.

Lemma gate_rejects (r : Request B) :
  Get (Header r) "Authorization" <> "" ->
  snd (jwt.Parse (strings.TrimPrefix (Get (Header r) "Authorization") "Bearer ") secret now)
    <> None ->
  middleware.JWTAuthMiddleware cfg now next r = unauthorized "Invalid token" /\
  microservices.JWTAuthMiddleware cfg now next r = unauthorized "Invalid token".
Proof.
  intros Hh HP. apply String.eqb_neq in Hh.
  unfold middleware.JWTAuthMiddleware, microservices.JWTAuthMiddleware.
  rewrite Hh. fold secret.
  destruct (jwt.Parse _ secret now) as [[tok|] [e|]]; cbn in HP; try congruence;
    split; reflexivity.
Qed.

(** C10.  For every token [t] that verifies, a request whose
    Authorization header is exactly [t] and one whose header is [Bearer]
    followed by [t] are both handed to the next stage, with the same claims
    attached: a token that verifies never starts with the prefix, so
    trimming it is the identity. *)
Theorem Bearer_prefix_optional (r1 r2 : Request B) t tok :
  jwt.Parse t secret now = (Some tok, None) ->
  Get (Header r1) "Authorization" = t ->
  Get (Header r2) "Authorization" = "Bearer " ++ t ->
  (middleware.JWTAuthMiddleware cfg now next r1 = next (with_claims r1 tok) /\
   middleware.JWTAuthMiddleware cfg now next r2 = next (with_claims r2 tok)) /\
  (microservices.JWTAuthMiddleware cfg now next r1 = next (with_principal cfg r1 tok) /\
   microservices.JWTAuthMiddleware cfg now next r2 = next (with_principal cfg r2 tok)).
Proof.
  intros HP H1 H2.
  destruct (Parse_ok_no_Bearer _ _ _ HP) as [Hne Hnp].
  assert (G1 : middleware.JWTAuthMiddleware cfg now next r1 = next (with_claims r1 tok) /\
               microservices.JWTAuthMiddleware cfg now next r1 = next (with_principal cfg r1 tok)).
  { apply gate_accepts; rewrite H1; [exact Hne|].
    rewrite (TrimPrefix_no_prefix _ _ Hnp). exact HP. }
  assert (G2 : middleware.JWTAuthMiddleware cfg now next r2 = next (with_claims r2 tok) /\
               microservices.JWTAuthMiddleware cfg now next r2 = next (with_principal cfg r2 tok)).
  { apply gate_accepts; rewrite H2; [discriminate|].
    rewrite TrimPrefix_app. exact HP. }
  tauto.
Qed.

(** The order of the gate.  A missing or empty Authorization header is
    answered 401 by both gates and by the admin route, whatever the next
    stage; so is a token that fails verification, and on the admin route
    this holds whatever role the request context already carries, so the
    role check is not reached.  After a successful verification the admin
    route answers 403 when the role claim is absent, null or a string other
    than [admin], and hands the request on when it is [admin]; on every
    other role, a number or a boolean say, the type assertion of the role
    check panics. *)
Theorem gate_order (r : Request B) :
  let header := Get (Header r) "Authorization" in
  let parsed := jwt.Parse (strings.TrimPrefix header "Bearer ") secret now in
  (header = "" ->
     middleware.JWTAuthMiddleware cfg now next r = unauthorized "Authorization header required" /\
     microservices.JWTAuthMiddleware cfg now next r = unauthorized "Authorization header required" /\
     microservices.adminRoute cfg now next r = unauthorized "Authorization header required")
  /\
  (header <> "" -> snd parsed <> None ->
     middleware.JWTAuthMiddleware cfg now next r = unauthorized "Invalid token" /\
     microservices.JWTAuthMiddleware cfg now next r = unauthorized "Invalid token" /\
     microservices.adminRoute cfg now next r = unauthorized "Invalid token")
  /\
  (forall tok, header <> "" -> parsed = (Some tok, None) ->
     (index (jwt.Claims tok) "role" = VNil -> microservices.adminRoute cfg now next r = forbidden) /\
     (forall role, index (jwt.Claims tok) "role" = VString role -> role <> "admin" ->
        microservices.adminRoute cfg now next r = forbidden) /\
     (index (jwt.Claims tok) "role" = VString "admin" ->
        microservices.adminRoute cfg now next r = next (with_principal cfg r tok)) /\
     (index (jwt.Claims tok) "role" <> VNil ->
      (forall role, index (jwt.Claims tok) "role" <> VString role) ->
        microservices.adminRoute cfg now next r
          = Panic "interface conversion: interface {} is not string")).
Proof.
  cbv zeta. unfold microservices.adminRoute. split; [|split].
  - intros Hh. unfold middleware.JWTAuthMiddleware, microservices.JWTAuthMiddleware.
    rewrite Hh. repeat split; reflexivity.
  - intros Hh HP. apply String.eqb_neq in Hh.
    unfold middleware.JWTAuthMiddleware, microservices.JWTAuthMiddleware.
    rewrite Hh. fold secret.
    destruct (jwt.Parse _ secret now) as [[tok|] [e|]]; cbn in HP; try congruence;
      repeat split; reflexivity.
  - intros tok Hh HP. apply String.eqb_neq in Hh.
    unfold microservices.JWTAuthMiddleware.
    rewrite Hh. fold secret. rewrite HP, (Parse_valid _ _ _ HP). cbn [negb].
    unfold microservices.AdminOnlyMiddleware. cbn [Ctx WithContext WithValue CtxValue String.eqb Ascii.eqb Bool.eqb].
    split; [|split; [|split]].
    + intros ->. reflexivity.
    + intros role -> Hr. apply String.eqb_neq in Hr. rewrite Hr. reflexivity.
    + unfold with_principal. intros ->. reflexivity.
    + intros Hnil Hstr.
      destruct (index (jwt.Claims tok) "role") as [|s| | | |];
        try reflexivity; [congruence|exfalso; exact (Hstr s eq_refl)].
Qed.

(** The role check of the single-binary server: [ListUsers], [DeleteUser]
    and [UpdateUserRole] assert [claims["role"].(string)] before they
    compare it, so a verified token whose role is absent, null or not a
    string makes them panic, and the store is left as it was. *)
Lemma server_role_assertion (world : World) (faults : driver.Faults) (db : mongo.Collection)
      (tok : jwt.Token) (p l : string) (rl : Request unit)
      (rd : Request server_handlers.DeleteUserRequest)
      (ru : Request server_handlers.UpdateUserRoleRequest) :
  (forall role, index (jwt.Claims tok) "role" <> VString role) ->
  server_handlers.ListUsers cfg world faults db p l (with_claims rl tok)
    = responses.Ended (Panic handlers.panicConversion) /\
  server_handlers.DeleteUser faults db (with_claims rd tok)
    = (Panic handlers.panicConversion, db) /\
  server_handlers.UpdateUserRole world db (with_claims ru tok)
    = (Panic handlers.panicConversion, db).
Proof.
  intros Hstr.
  unfold server_handlers.ListUsers, server_handlers.DeleteUser,
    server_handlers.UpdateUserRole, with_claims.
  cbn [Ctx WithContext WithValue CtxValue String.eqb Ascii.eqb Bool.eqb].
  destruct (index (jwt.Claims tok) "role") as [|s| | | |];
    try (repeat split; reflexivity).
  exfalso. exact (Hstr s eq_refl).
Qed.
End Gate.

Lemma append_assoc (a b c : string) : (a ++ b) ++ c = a ++ (b ++ c).
Proof. induction a as [|x a IH]; cbn; [reflexivity|]. rewrite IH. reflexivity. Qed.

Lemma Split_no_dot s : strings.no_dot s = true -> strings.Split s "." = [s].
Proof.
  unfold strings.no_dot. induction s as [|c s IH]; cbn; [reflexivity|].
  intros Hs. apply andb_prop in Hs. destruct Hs as [Hc Hs]. apply negb_true_iff in Hc.
  rewrite Hc, (IH Hs). reflexivity.
Qed.

Lemma Split_segment a rest :
  strings.no_dot a = true -> strings.Split (a ++ String "." rest) "." = a :: strings.Split rest ".".
Proof.
  unfold strings.no_dot. induction a as [|c a IH]; cbn [append list_ascii_of_string forallb].
  - intros _. reflexivity.
  - intros Hs. apply andb_prop in Hs. destruct Hs as [Hc Hs]. apply negb_true_iff in Hc.
    cbn [strings.Split]. rewrite Hc, (IH Hs). reflexivity.
Qed.

Lemma Split_three a b c :
  strings.no_dot a = true -> strings.no_dot b = true -> strings.no_dot c = true ->
  strings.Split ((a ++ String "." b) ++ String "." c) "." = [a; b; c].
Proof.
  intros Ha Hb Hc. rewrite append_assoc. cbn [append].
  rewrite Split_segment by exact Ha. rewrite Split_segment by exact Hb.
  rewrite Split_no_dot by exact Hc. reflexivity.
Qed.

Lemma enc_char_no_dot v :
  (v < 64)%N -> Ascii.eqb (Base64.enc_char Base64.RawURLEncoding v) "." = false.
Proof.
  intros Hv.
  assert (Hall : forallb (fun i => negb (Ascii.eqb
                   (Base64.enc_char Base64.RawURLEncoding (N.of_nat i)) ".")) (seq 0 64) = true)
    by (vm_compute; reflexivity).
  rewrite forallb_forall in Hall. specialize (Hall (N.to_nat v)).
  rewrite N2Nat.id in Hall. apply negb_true_iff. apply Hall. apply in_seq. lia.
Qed.

Lemma EncodeSegment_no_dot b : strings.no_dot (jwt.EncodeSegment b) = true.
Proof.
  unfold strings.no_dot, jwt.EncodeSegment, Base64.EncodeToString.
  rewrite list_ascii_of_string_of_list_ascii.
  induction b as [|x|x y|x y z l IH] using list_ind3;
    cbn [Base64.Encode Base64.pad Base64.padChar Base64.RawURLEncoding app forallb];
    rewrite ?enc_char_no_dot by apply sextet_lt; cbn [negb andb]; auto.
Qed.

Lemma DecodeSegment_EncodeSegment b : jwt.DecodeSegment (jwt.EncodeSegment b) = Some b.
Proof. apply RawURLEncoding_roundtrip. Qed.

Lemma bytes_eqb_eq a b : bytes_eqb a b = true <-> a = b.
Proof.
  unfold bytes_eqb, to_string. rewrite String.eqb_eq. split; [|congruence].
  intros E. rewrite <- (list_ascii_of_string_of_list_ascii a),
                    <- (list_ascii_of_string_of_list_ascii b), E. reflexivity.
Qed.

Lemma Unix_Add_24h t : time.Unix (time.Add t (time.Hour * 24)%Z) = (time.Unix t + 86400)%Z.
Proof.
  unfold time.Unix, time.Add, time.Hour.
  replace (3600 * time.Second * 24)%Z with (86400 * time.Second)%Z by ring.
  apply Z.div_add. discriminate.
Qed.

Section Codec.
Context `{External}.

Lemma Verify_Sign m ss keyA keyB :
  jwt.Verify m ss (jwt.Sign m ss keyA) keyB
  = bytes_eqb (jwt.mac m keyA (of_string ss)) (jwt.mac m keyB (of_string ss)).
Proof. unfold jwt.Verify, jwt.Sign. rewrite DecodeSegment_EncodeSegment. reflexivity. Qed.

(** What [Parse] does with a token that [SignedString] made, in terms of
    what the JSON decoder returns for the two encoded segments. *)
Lemma Parse_SignedString claims keyA keyB now ts hb cb header' claims' :
  jwt.SignedString (jwt.NewWithClaims jwt.SigningMethodHS256 claims) keyA = (ts, None) ->
  json_Marshal (jwt.Header (jwt.NewWithClaims jwt.SigningMethodHS256 claims)) = Some hb ->
  json_Marshal claims = Some cb ->
  json_Unmarshal hb = Some header' ->
  index header' "alg" = VString "HS256" ->
  json_Decode cb = Some claims' ->
  let ss := jwt.EncodeSegment hb ++ "." ++ jwt.EncodeSegment cb in
  exists tok,
    jwt.Claims tok = claims' /\
    jwt.Parse ts keyB now =
      if negb (bytes_eqb (HMAC.Sum keyA (of_string ss)) (HMAC.Sum keyB (of_string ss)))
      then (Some tok, Some jwt.ErrSignatureInvalid)
      else match jwt.ClaimsValid claims' (time.Unix now) with
           | Some e => (Some tok, Some e)
           | None => (Some {| jwt.Raw := jwt.Raw tok; jwt.Method := jwt.Method tok;
                              jwt.Header := jwt.Header tok; jwt.Claims := claims';
                              jwt.Signature := jwt.Signature tok; jwt.Valid := true |}, None)
           end.
Proof.
  intros HS Hh Hc Hu Halg Hd ss.
  unfold jwt.SignedString, jwt.SigningString in HS. cbn [jwt.Claims jwt.NewWithClaims jwt.Method] in HS.
  rewrite Hh, Hc in HS. injection HS as <-.
  unfold jwt.Parse.
  match goal with |- context [strings.Split ?raw "."] => set (ts := raw) end.
  assert (Hsplit : strings.Split ts "."
                   = [jwt.EncodeSegment hb; jwt.EncodeSegment cb;
                      jwt.Sign jwt.SigningMethodHS256 ss keyA]).
  { apply Split_three; apply EncodeSegment_no_dot. }
  rewrite Hsplit.
  rewrite !DecodeSegment_EncodeSegment, Hu, Hd, Halg.
  cbn [jwt.GetSigningMethod String.eqb Ascii.eqb Bool.eqb].
  fold ss. rewrite Verify_Sign. cbn [jwt.mac].
  eexists {| jwt.Raw := _; jwt.Method := _; jwt.Header := _; jwt.Claims := claims';
             jwt.Signature := _; jwt.Valid := false |}.
  split; [reflexivity|]. cbn [jwt.Raw jwt.Method jwt.Header jwt.Signature]. reflexivity.
Qed.
End Codec.

Section Lifecycle.
Context `{External}.
Variables (cfg : Config) (world : World).

Lemma issue_ok user resp :
  issue cfg world user = resp -> StatusCode resp = StatusOK ->
  exists email hb cb,
    let claims := loginClaims world user email in
    let ss := jwt.EncodeSegment hb ++ "." ++ jwt.EncodeSegment cb in
    let ts := ss ++ "." ++ jwt.Sign jwt.SigningMethodHS256 ss (of_string (JWTSecret cfg)) in
    utils.Decrypt (models.Email user) (EncryptionKey cfg) = (email, None) /\
    json_Marshal (jwt.Header (jwt.NewWithClaims jwt.SigningMethodHS256 claims)) = Some hb /\
    json_Marshal claims = Some cb /\
    jwt.SignedString (jwt.NewWithClaims jwt.SigningMethodHS256 claims)
                     (of_string (JWTSecret cfg)) = (ts, None) /\
    resp = WriteJSON [("token", ts); ("role", models.Role user)].
Proof.
  unfold issue. intros <-.
  destruct (utils.Decrypt _ _) as [email [e|]]; [discriminate|].
  unfold jwt.SignedString, jwt.SigningString.
  cbn [jwt.Claims jwt.NewWithClaims jwt.Method jwt.Header].
  destruct (json_Marshal [("typ", VString "JWT"); ("alg", VString (jwt.Alg jwt.SigningMethodHS256))])
    as [hb|] eqn:Hh; [|discriminate].
  destruct (json_Marshal (loginClaims world user email)) as [cb|] eqn:Hc; [|discriminate].
  intros _. exists email, hb, cb. cbv zeta. rewrite Hc. repeat split; reflexivity.
Qed.

Lemma Login_ok db (r : Request LoginRequest) resp :
  Login cfg world db r = resp -> StatusCode resp = StatusOK ->
  exists req user,
    ReqBody r = Some req /\
    FindOne (findFault world) db (by_email_hash (LoginEmail req)) = Found user /\
    bcrypt.CompareHashAndPassword (of_string (models.Password user))
                                  (of_string (LoginPassword req)) = None /\
    issue cfg world user = resp.
Proof.
  unfold Login. intros <-.
  destruct (ReqBody r) as [req|]; [|discriminate].
  destruct (FindOne _ _ _) as [user| |e] eqn:Hf; try discriminate.
  destruct (bcrypt.CompareHashAndPassword _ _) eqn:Hc; [discriminate|].
  intros _. exists req, user. repeat split; assumption || reflexivity.
Qed.

Lemma AdminLogin_ok db (r : Request AdminLoginRequest) resp :
  AdminLogin cfg world db r = resp -> StatusCode resp = StatusOK ->
  exists req user,
    ReqBody r = Some req /\
    FindOne (findFault world) db (by_email_hash (LoginEmail req)) = Found user /\
    models.Role user = "admin" /\
    issue cfg world user = resp.
Proof.
  unfold AdminLogin. intros <-.
  destruct (ReqBody r) as [req|]; [|discriminate].
  destruct (FindOne _ _ _) as [user| |e] eqn:Hf; try discriminate.
  destruct (String.eqb (models.Role user) "admin") eqn:Hr; [|discriminate].
  destruct (bcrypt.CompareHashAndPassword _ _) eqn:Hc; [discriminate|].
  intros _. exists req, user. apply String.eqb_eq in Hr.
  repeat split; assumption || reflexivity.
Qed.

Lemma ClaimsValid_exp_only c' exp now :
  lookup "exp" c' = Some (VFloat64 exp) -> lookup "iat" c' = None ->
  lookup "nbf" c' = None -> exp <> 0%Z ->
  jwt.ClaimsValid c' now = if (now <? exp)%Z then None else Some jwt.ErrTokenExpired.
Proof.
  intros He Hi Hn H0. unfold jwt.ClaimsValid, jwt.VerifyExpiresAt, jwt.VerifyIssuedAt,
    jwt.VerifyNotBefore. rewrite He, Hi, Hn.
  apply Z.eqb_neq in H0. rewrite H0. destruct (now <? exp)%Z; reflexivity.
Qed.

Let secret := of_string (JWTSecret cfg).

(** C9 (amended).  A login, regular or admin, that answers 200 returns a token signed with
    HMAC-SHA256 under the configured secret whose claims are the identity,
    the decrypted address, the role, and an expiration of the issuing
    instant in Unix seconds plus 86400.  When the JSON texts of its header and
    claims read back and it was issued at or after the epoch, both gates
    answer 401 once the expiration is reached, and whenever the HMAC of the
    signing input under the verifying secret differs from the signature;
    before the expiration, under a verifying secret that yields the same
    HMAC (the issuing secret in particular), the request is handed on with
    the issued identity, address and role. *)
Theorem token_lifecycle db (r : Request LoginRequest) resp :
  Login cfg world db r = resp \/ AdminLogin cfg world db r = resp ->
  StatusCode resp = StatusOK ->
  exists user email ss,
    let claims := loginClaims world user email in
    let exp := (time.Unix (Now world) + 86400)%Z in
    let ts := ss ++ "." ++ jwt.Sign jwt.SigningMethodHS256 ss secret in
    resp = WriteJSON [("token", ts); ("role", models.Role user)] /\
    jwt.SignedString (jwt.NewWithClaims jwt.SigningMethodHS256 claims) secret = (ts, None) /\
    claims = [("userID", VString (primitive.Hex (models.ID user))); ("email", VString email);
              ("role", VString (models.Role user)); ("exp", VInt64 exp)] /\
    (json_round_trips (jwt.Header (jwt.NewWithClaims jwt.SigningMethodHS256 claims)) ->
     json_round_trips claims ->
     (0 <= Now world)%Z ->
     forall (cfg' : Config) (now : time.Time) B (next : Handler B) (req : Request B),
       Get (Header req) "Authorization" = "Bearer " ++ ts ->
       let mac := HMAC.Sum secret (of_string ss) in
       let mac' := HMAC.Sum (of_string (JWTSecret cfg')) (of_string ss) in
       let rejected :=
         middleware.JWTAuthMiddleware cfg' now next req
           = Reply (Error "Invalid token" StatusUnauthorized) /\
         microservices.JWTAuthMiddleware cfg' now next req
           = Reply (Error "Invalid token" StatusUnauthorized) in
       ((exp <= time.Unix now)%Z -> rejected) /\
       (mac' <> mac -> rejected) /\
       (mac' = mac -> (time.Unix now < exp)%Z ->
        exists tok,
          middleware.JWTAuthMiddleware cfg' now next req = next (with_claims req tok) /\
          microservices.JWTAuthMiddleware cfg' now next req
            = next (with_principal cfg' req tok) /\
          index (jwt.Claims tok) "userID" = VString (primitive.Hex (models.ID user)) /\
          index (jwt.Claims tok) "email" = VString email /\
          index (jwt.Claims tok) "role" = VString (models.Role user))).
Proof.
  intros HL H200.
  assert (Hissued : exists user, issue cfg world user = resp).
  { destruct HL as [HL|HL].
    - destruct (Login_ok _ _ HL H200) as [lreq [user [_ [_ [_ Hissue]]]]]. exists user. exact Hissue.
    - destruct (AdminLogin_ok _ _ HL H200) as [lreq [user [_ [_ [_ Hissue]]]]].
      exists user. exact Hissue. }
  destruct Hissued as [user Hissue].
  destruct (issue_ok _ Hissue H200) as [email [hb [cb Hi]]]. cbv zeta in Hi.
  destruct Hi as [_ [Hh [Hc [HS Hresp]]]].
  exists user, email, (jwt.EncodeSegment hb ++ "." ++ jwt.EncodeSegment cb). cbv zeta.
  fold secret in HS.
  split; [exact Hresp|]. split; [exact HS|].
  split; [unfold loginClaims; rewrite Unix_Add_24h; reflexivity|].
  intros Jh Jc Hnow cfg' now B next req Hreq.
  destruct (Jh hb Hh) as [[h' [Hu Rh]] _].
  destruct (Jc cb Hc) as [_ [c' [Hd Rc]]].
  assert (Halg : index h' "alg" = VString "HS256").
  { unfold index. rewrite (Rh "alg"). reflexivity. }
  destruct (Parse_SignedString _ secret (of_string (JWTSecret cfg')) now HS Hh Hc Hu Halg Hd)
    as [tok [Hclaims HP]]. cbv zeta in HP.
  assert (Hexp0 : (time.Unix (Now world) + 86400 <> 0)%Z).
  { assert (0 <= time.Unix (Now world))%Z by (apply Z.div_pos; [exact Hnow|reflexivity]). lia. }
  assert (HCV : jwt.ClaimsValid c' (time.Unix now)
                = if (time.Unix now <? time.Unix (Now world) + 86400)%Z
                  then None else Some jwt.ErrTokenExpired).
  { apply ClaimsValid_exp_only; [| | |exact Hexp0]; rewrite (Rc _);
      unfold loginClaims; rewrite ?Unix_Add_24h; reflexivity. }
  rewrite HCV in HP.
  assert (Hne : Get (Header req) "Authorization" <> "") by (rewrite Hreq; discriminate).
  assert (Htrim : strings.TrimPrefix (Get (Header req) "Authorization") "Bearer "
                  = (jwt.EncodeSegment hb ++ "." ++ jwt.EncodeSegment cb) ++ "." ++
                    jwt.Sign jwt.SigningMethodHS256
                      (jwt.EncodeSegment hb ++ "." ++ jwt.EncodeSegment cb) secret).
  { rewrite Hreq. apply TrimPrefix_app. }
  split; [|split].
  - intros Hexp. apply gate_rejects; [exact Hne|]. rewrite Htrim, HP.
    apply Z.ltb_ge in Hexp. rewrite Hexp.
    destruct (negb _); discriminate.
  - intros Hmac. apply gate_rejects; [exact Hne|]. rewrite Htrim, HP.
    replace (bytes_eqb _ _) with false; [discriminate|].
    symmetry. apply not_true_iff_false. rewrite bytes_eqb_eq. congruence.
  - intros Hmac Hlt. apply Z.ltb_lt in Hlt. rewrite Hlt in HP.
    replace (bytes_eqb _ _) with true in HP
      by (symmetry; apply bytes_eqb_eq; congruence).
    cbn [negb] in HP.
    eexists. rewrite <- Htrim in HP.
    destruct (@gate_accepts _ cfg' now B next req _ Hne HP) as [G1 G2].
    split; [exact G1|]. split; [exact G2|]. cbn [jwt.Claims].
    unfold index. rewrite (Rc "userID"), (Rc "email"), (Rc "role").
    repeat split; reflexivity.
Qed.
End Lifecycle.

End Access_control.

(** ** Runs on recorded inputs *)

Section Recorded_runs.
Import http mongo auth_service Recorded.
Local Open Scope string_scope.

(** Register, then log in: no token on registration, then a token and
    the role. *)
Example register_then_login :
  Register cfg world [] (register "a@x.com" "pw123456" "")
    = (WriteJSON [("message", "User registered successfully")], [alice]) /\
  Login cfg world [alice] (login "a@x.com" "pw123456")
    = WriteJSON [("token", user_token); ("role", "user")].
Proof. split; vm_compute; reflexivity. Qed.

Example wrong_password_and_unknown_user_look_alike :
  Login cfg world [alice] (login "a@x.com" "wrong")
  = Login cfg world [alice] (login "nobody@x.com" "pw123456").
Proof. vm_compute. reflexivity. Qed.

Example gate_runs :
  let now := (t0 + time.Hour)%Z in
  let late := (t0 + 24 * time.Hour)%Z in
  microservices.adminRoute cfg now whoami (get ("Bearer " ++ admin_token))
    = Reply (WriteJSON [("role", "admin")]) /\
  microservices.adminRoute cfg now whoami (get ("Bearer " ++ user_token))
    = Reply (Error "Admin access required" StatusForbidden) /\
  microservices.adminRoute cfg late whoami (get ("Bearer " ++ admin_token))
    = Reply (Error "Invalid token" StatusUnauthorized) /\
  middleware.JWTAuthMiddleware cfg now whoami (get ("Bearer " ++ user_token))
    = Reply (WriteJSON [("role", "user")]) /\
  middleware.JWTAuthMiddleware cfg now whoami (get "")
    = Reply (Error "Authorization header required" StatusUnauthorized) /\
  microservices.adminRoute cfg now whoami
      {| Header := [("Authorization", "Bearer not.a.token")];
         Ctx := [("role", AValue (VFloat64 7))]; ReqBody := None |}
    = Reply (Error "Invalid token" StatusUnauthorized).
Proof. cbv zeta. repeat split; vm_compute; reflexivity. Qed.

(** *** C1 *)

Lemma registration_role_witness :
  let r := register "a@x.com" "pw123456" "" in
  let out := Register cfg world [] r in
  ReqBody r = Some {| Email := "a@x.com"; Password := "pw123456"; Role := "" |} /\
  ((StatusCode (fst out) = StatusOK /\
    exists u, snd out = [u] /\ models.Role u = "user")
   \/ (StatusCode (fst out) <> StatusOK /\ snd out = [])).
Proof.
  cbv zeta. split; [reflexivity|].
  exact (proj1 (@registration_role external cfg world [])
               (register "a@x.com" "pw123456" "") _ eq_refl).
Defined.

(** A request through the regular entry point with the role field
    [admin] persists an administrator. *)
Lemma registration_self_elevation :
  exists u,
    Register cfg world [] (register "a@x.com" "pw123456" "admin")
      = (WriteJSON [("message", "User registered successfully")], [u]) /\
    models.Role u = "admin" /\ models.Role u <> "user".
Proof.
  eexists. split; [vm_compute; reflexivity|]. split; [reflexivity|discriminate].
Qed.

(** *** C8 *)

Lemma Register_conflict_witness :
  let r := register "a@x.com" "another-password" "" in
  ReqBody r = Some {| Email := "a@x.com"; Password := "another-password"; Role := "" |} /\
  findFault world = None /\
  (exists u, In u [alice] /\ models.EmailHash u = "a@x.com") /\
  Register cfg world [alice] r = (Error "User already exists" StatusConflict, [alice]).
Proof.
  cbv zeta. split; [reflexivity|]. split; [reflexivity|].
  assert (Hin : exists u, In u [alice] /\ models.EmailHash u = "a@x.com")
    by (exists alice; split; [left; reflexivity|reflexivity]).
  split; [exact Hin|].
  exact (proj1 (@Register_conflict external cfg world [alice]
                  (register "a@x.com" "another-password" "") _ eq_refl eq_refl) Hin).
Defined.

(** *** C3 *)

Lemma AdminLogin_role_first_witness :
  let r := login "b@x.com" "wrong" in
  ReqBody r = Some {| LoginEmail := "b@x.com"; LoginPassword := "wrong" |} /\
  FindOne (findFault world) [alice; root] (by_email_hash "b@x.com") = Found root /\
  models.Role root = "admin" /\
  bcrypt.CompareHashAndPassword (of_string (models.Password root)) (of_string "wrong") <> None /\
  AdminLogin cfg world [alice; root] r = Error "Invalid credentials" StatusUnauthorized.
Proof.
  cbv zeta. split; [reflexivity|]. split; [reflexivity|]. split; [reflexivity|].
  assert (Hpw : bcrypt.CompareHashAndPassword (of_string (models.Password root))
                                              (of_string "wrong") <> None)
    by (vm_compute; discriminate).
  split; [exact Hpw|].
  exact (proj1 (proj2 (@AdminLogin_role_first external cfg world [alice; root]
                         (login "b@x.com" "wrong") _ root eq_refl eq_refl) Hpw) eq_refl).
Defined.

(** A stored user who is no administrator and a wrong password: the
    admin login answers 403, not 401. *)
Lemma AdminLogin_wrong_password_forbidden :
  FindOne (findFault world) [alice] (by_email_hash "a@x.com") = Found alice /\
  bcrypt.CompareHashAndPassword (of_string (models.Password alice)) (of_string "wrong") <> None /\
  AdminLogin cfg world [alice] (login "a@x.com" "wrong")
    = Error "Access denied: Admin only" StatusForbidden /\
  StatusForbidden <> StatusUnauthorized.
Proof.
  split; [reflexivity|]. split; [vm_compute; discriminate|].
  split; [vm_compute; reflexivity|discriminate].
Qed.

(** *** C4 *)

(** C4, at the address [a@x.com].  Registration stores the address
    itself as the lookup key, the profile update of the single-binary server
    computes its hash, and the two differ: the update of another user to
    that address finds no conflict and succeeds, and that user is then found
    by a login under neither of their addresses. *)
Theorem lookup_key_mismatch :
  let e := "a@x.com" in
  let hashed := "R4q+x0MFaRYxYd/qhRO4zonQX1WUVqJulFxm4f5Vop0=" in
  let after := snd (handlers.UpdateUserProfile cfg world [alice; bob] (profile_update bobID e)) in
  map models.EmailHash (snd (Register cfg world [] (register e "pw123456" ""))) = [e] /\
  utils.HashEmail e = hashed /\
  hashed <> e /\
  fst (handlers.UpdateUserProfile cfg world [alice; bob] (profile_update bobID e))
    = Reply (WriteJSON [("message", "Profile updated successfully")]) /\
  map models.EmailHash after = [e; hashed] /\
  Login cfg world after (login e "admin123") = Error "Invalid credentials" StatusUnauthorized /\
  Login cfg world after (login "b@x.com" "admin123")
    = Error "Invalid credentials" StatusUnauthorized.
Proof.
  cbv zeta. split; [vm_compute; reflexivity|]. split; [vm_compute; reflexivity|].
  split; [discriminate|]. repeat split; vm_compute; reflexivity.
Qed.

(** *** C6 *)

Lemma gate_order_witness :
  let r := get ("Bearer " ++ user_token) in
  let now := (t0 + time.Hour)%Z in
  exists tok,
    Get (Header r) "Authorization" <> "" /\
    jwt.Parse (strings.TrimPrefix (Get (Header r) "Authorization") "Bearer ")
              (of_string (JWTSecret cfg)) now = (Some tok, None) /\
    index (jwt.Claims tok) "role" = VString "user" /\
    "user" <> "admin" /\
    microservices.adminRoute cfg now whoami r
      = Reply (Error "Admin access required" StatusForbidden).
Proof.
  cbv zeta. eexists.
  assert (Hh : Get (Header (get ("Bearer " ++ user_token))) "Authorization" <> "")
    by discriminate.
  split; [exact Hh|].
  assert (HP : jwt.Parse (strings.TrimPrefix
                 (Get (Header (get ("Bearer " ++ user_token))) "Authorization") "Bearer ")
                 (of_string (JWTSecret cfg)) (t0 + time.Hour)%Z
               = (Some {| jwt.Raw := user_token; jwt.Method := jwt.SigningMethodHS256;
                          jwt.Header := header_read;
                          jwt.Claims := claims_read (VString "user");
                          jwt.Signature := "2EbzTgutpmCfj3bFAd4IlxtSMQvD6qEsWsQUwh6o518";
                          jwt.Valid := true |}, None))
    by (vm_compute; reflexivity).
  split; [exact HP|]. split; [reflexivity|].
  assert (Hne : "user" <> "admin") by discriminate.
  split; [exact Hne|].
  exact (proj1 (proj2 (proj2 (proj2 (@gate_order external cfg (t0 + time.Hour)%Z unit whoami
                                       (get ("Bearer " ++ user_token)))) _ Hh HP))
               "user" eq_refl Hne).
Defined.

(** C6.  The claim at its failing input.  The token [role5_token] is
    signed under the configured secret and carries the number 5 as its
    role: it verifies, so both gates hand the request on, and its role is
    not [admin], so the claim has the admin-gated route answer 403.  No 403
    is written.  On the route of the admin service the type assertion of
    [AdminOnlyMiddleware] panics and the next stage is not run; behind the
    gate of the single-binary server the assertion [claims["role"].(string)]
    of [ListUsers] and [DeleteUser] panics, before anything is read or
    deleted. *)
Theorem role_check_panics_on_numeric_role :
  let r := get ("Bearer " ++ role5_token) in
  let d := {| Header := [("Authorization", "Bearer " ++ role5_token)]; Ctx := [];
              ReqBody := Some {| server_handlers.UserID := bobID |} |} in
  let now := (t0 + time.Hour)%Z in
  let panic := Panic "interface conversion: interface {} is not string" in
  exists tok,
    jwt.Parse (strings.TrimPrefix (Get (Header r) "Authorization") "Bearer ")
              (of_string (JWTSecret cfg)) now = (Some tok, None) /\
    index (jwt.Claims tok) "role" = VFloat64 5 /\
    index (jwt.Claims tok) "role" <> VString "admin" /\
    (forall next, microservices.JWTAuthMiddleware cfg now next r
                  = next (with_principal cfg r tok)) /\
    microservices.AdminOnlyMiddleware whoami (with_principal cfg r tok) = panic /\
    microservices.adminRoute cfg now whoami r = panic /\
    microservices.adminRoute cfg now whoami r
      <> Reply (Error "Admin access required" StatusForbidden) /\
    (forall next, middleware.JWTAuthMiddleware cfg now next r = next (with_claims r tok)) /\
    server_handlers.ListUsers cfg world Scenes.quiet [alice; bob] "" "" (with_claims r tok)
      = responses.Ended panic /\
    (forall next, middleware.JWTAuthMiddleware cfg now next d = next (with_claims d tok)) /\
    server_handlers.DeleteUser Scenes.quiet [alice; bob] (with_claims d tok)
      = (panic, [alice; bob]).
Proof.
  cbv zeta.
  set (tok := {| jwt.Raw := role5_token; jwt.Method := jwt.SigningMethodHS256;
                 jwt.Header := header_read; jwt.Claims := role5_read;
                 jwt.Signature := "t3Qbw9VmNIKD2zcX1BJeEYFQPRAZjRGidGvNz-2pQ6A";
                 jwt.Valid := true |}).
  set (r := get ("Bearer " ++ role5_token)).
  set (d := {| Header := [("Authorization", "Bearer " ++ role5_token)]; Ctx := [];
               ReqBody := Some {| server_handlers.UserID := bobID |} |}).
  assert (HPr : jwt.Parse (strings.TrimPrefix (Get (Header r) "Authorization") "Bearer ")
                          (of_string (JWTSecret cfg)) (t0 + time.Hour)%Z = (Some tok, None))
    by (vm_compute; reflexivity).
  assert (HPd : jwt.Parse (strings.TrimPrefix (Get (Header d) "Authorization") "Bearer ")
                          (of_string (JWTSecret cfg)) (t0 + time.Hour)%Z = (Some tok, None))
    by (vm_compute; reflexivity).
  assert (Hr : Get (Header r) "Authorization" <> "") by discriminate.
  assert (Hd : Get (Header d) "Authorization" <> "") by discriminate.
  exists tok.
  split; [exact HPr|].
  split; [reflexivity|]. split; [discriminate|].
  split; [intros next;
          exact (proj2 (@gate_accepts external cfg (t0 + time.Hour)%Z unit next r tok Hr HPr))|].
  split; [vm_compute; reflexivity|].
  split; [vm_compute; reflexivity|].
  split; [vm_compute; discriminate|].
  split; [intros next;
          exact (proj1 (@gate_accepts external cfg (t0 + time.Hour)%Z unit next r tok Hr HPr))|].
  split; [vm_compute; reflexivity|].
  split; [intros next;
          exact (proj1 (@gate_accepts external cfg (t0 + time.Hour)%Z _ next d tok Hd HPd))|].
  vm_compute. reflexivity.
Qed.

(** *** C10 *)

Lemma Bearer_prefix_optional_witness :
  let now := (t0 + time.Hour)%Z in
  let r1 := get user_token in
  let r2 := get ("Bearer " ++ user_token) in
  exists tok,
    jwt.Parse user_token (of_string (JWTSecret cfg)) now = (Some tok, None) /\
    (middleware.JWTAuthMiddleware cfg now whoami r1 = whoami (with_claims r1 tok) /\
     middleware.JWTAuthMiddleware cfg now whoami r2 = whoami (with_claims r2 tok)) /\
    (microservices.JWTAuthMiddleware cfg now whoami r1 = whoami (with_principal cfg r1 tok) /\
     microservices.JWTAuthMiddleware cfg now whoami r2 = whoami (with_principal cfg r2 tok)).
Proof.
  cbv zeta. eexists.
  assert (HP : jwt.Parse user_token (of_string (JWTSecret cfg)) (t0 + time.Hour)%Z
               = (Some {| jwt.Raw := user_token; jwt.Method := jwt.SigningMethodHS256;
                          jwt.Header := header_read;
                          jwt.Claims := claims_read (VString "user");
                          jwt.Signature := "2EbzTgutpmCfj3bFAd4IlxtSMQvD6qEsWsQUwh6o518";
                          jwt.Valid := true |}, None))
    by (vm_compute; reflexivity).
  split; [exact HP|].
  exact (@Bearer_prefix_optional external cfg (t0 + time.Hour)%Z unit whoami
           (get user_token) (get ("Bearer " ++ user_token)) user_token _ HP eq_refl eq_refl).
Defined.

(** *** C9 *)

(** The recorded JSON texts read back. *)
Lemma recorded_reads_back :
  reads_back header header_read /\
  reads_back (claims "user") (claims_read (VString "user")).
Proof.
  split; intros k; unfold header, header_read, claims, claims_read; cbn [lookup];
    repeat match goal with
           | |- context [String.eqb ?a k] => destruct (String.eqb_spec a k)
           end;
    subst; try discriminate; reflexivity.
Qed.

Lemma recorded_round_trips :
  json_round_trips header /\ json_round_trips (claims "user").
Proof.
  destruct recorded_reads_back as [Rh Rc].
  split; intros b Hb.
  - assert (Hb' : b = header_text) by (vm_compute in Hb; vm_compute; congruence).
    subst b. split; exists header_read; (split; [vm_compute; reflexivity|exact Rh]).
  - assert (Hb' : b = user_text) by (vm_compute in Hb; vm_compute; congruence).
    subst b.
    split; exists (claims_read (VString "user")); (split; [vm_compute; reflexivity|exact Rc]).
Qed.

Example token_lifecycle_runs :
  let hour := time.Hour in
  Login cfg world [alice] (login "a@x.com" "pw123456")
    = WriteJSON [("token", user_token); ("role", "user")] /\
  middleware.JWTAuthMiddleware cfg (t0 + 24 * hour - 1)%Z whoami (get ("Bearer " ++ user_token))
    = Reply (WriteJSON [("role", "user")]) /\
  middleware.JWTAuthMiddleware cfg (t0 + 24 * hour)%Z whoami (get ("Bearer " ++ user_token))
    = Reply (Error "Invalid token" StatusUnauthorized) /\
  middleware.JWTAuthMiddleware (with_secret "another-secret") (t0 + hour)%Z whoami
                               (get ("Bearer " ++ user_token))
    = Reply (Error "Invalid token" StatusUnauthorized).
Proof. cbv zeta. repeat split; vm_compute; reflexivity. Qed.

Lemma token_lifecycle_witness :
  let resp := Login cfg world [alice] (login "a@x.com" "pw123456") in
  let secret := of_string (JWTSecret cfg) in
  StatusCode resp = StatusOK /\
  exists user email ss,
    let claims := loginClaims world user email in
    let exp := (time.Unix (Now world) + 86400)%Z in
    let ts := ss ++ "." ++ jwt.Sign jwt.SigningMethodHS256 ss secret in
    resp = WriteJSON [("token", ts); ("role", models.Role user)] /\
    jwt.SignedString (jwt.NewWithClaims jwt.SigningMethodHS256 claims) secret = (ts, None) /\
    claims = [("userID", VString (primitive.Hex (models.ID user))); ("email", VString email);
              ("role", VString (models.Role user)); ("exp", VInt64 exp)] /\
    (json_round_trips (jwt.Header (jwt.NewWithClaims jwt.SigningMethodHS256 claims)) ->
     json_round_trips claims ->
     (0 <= Now world)%Z ->
     forall (cfg' : Config) (now : time.Time) B (next : Handler B) (req : Request B),
       Get (Header req) "Authorization" = "Bearer " ++ ts ->
       let mac := HMAC.Sum secret (of_string ss) in
       let mac' := HMAC.Sum (of_string (JWTSecret cfg')) (of_string ss) in
       let rejected :=
         middleware.JWTAuthMiddleware cfg' now next req
           = Reply (Error "Invalid token" StatusUnauthorized) /\
         microservices.JWTAuthMiddleware cfg' now next req
           = Reply (Error "Invalid token" StatusUnauthorized) in
       ((exp <= time.Unix now)%Z -> rejected) /\
       (mac' <> mac -> rejected) /\
       (mac' = mac -> (time.Unix now < exp)%Z ->
        exists tok,
          middleware.JWTAuthMiddleware cfg' now next req = next (with_claims req tok) /\
          microservices.JWTAuthMiddleware cfg' now next req
            = next (with_principal cfg' req tok) /\
          index (jwt.Claims tok) "userID" = VString (primitive.Hex (models.ID user)) /\
          index (jwt.Claims tok) "email" = VString email /\
          index (jwt.Claims tok) "role" = VString (models.Role user))).
Proof.
  cbv zeta.
  assert (H200 : StatusCode (Login cfg world [alice] (login "a@x.com" "pw123456")) = StatusOK)
    by (vm_compute; reflexivity).
  split; [exact H200|].
  exact (@token_lifecycle external cfg world [alice] (login "a@x.com" "pw123456") _
           (or_introl eq_refl) H200).
Defined.

(** Two different secrets, the second the SHA-256 digest of the first,
    which is longer than one hash block: the token a login signs under the
    first passes the gate that verifies under the second. *)
Lemma token_accepted_under_another_secret :
  let issuing := with_secret long_secret in
  let verifying := with_secret digest_secret in
  JWTSecret issuing <> JWTSecret verifying /\
  exists ts,
    Login issuing world [alice] (login "a@x.com" "pw123456")
      = WriteJSON [("token", ts); ("role", "user")] /\
    middleware.JWTAuthMiddleware verifying (t0 + time.Hour)%Z whoami (get ("Bearer " ++ ts))
      = Reply (WriteJSON [("role", "user")]) /\
    microservices.JWTAuthMiddleware verifying (t0 + time.Hour)%Z whoami (get ("Bearer " ++ ts))
      = Reply (WriteJSON [("role", "user")]).
Proof.
  cbv zeta. split; [vm_compute; discriminate|].
  eexists. split; [vm_compute; reflexivity|]. split; vm_compute; reflexivity.
Qed.

End Recorded_runs.

(* ================================================================== *)
(** * Further properties of the code *)
(* ================================================================== *)

(** ** The field cipher: what a token looks like, and what is refused *)

Section Cipher_edges.
Import Base64 CFB utils.
Local Open Scope string_scope.

Lemma list_ind4 {A} (P : list A -> Prop) :
  P [] -> (forall a, P [a]) -> (forall a b, P [a; b]) -> (forall a b c, P [a; b; c]) ->
  (forall a b c d l, P l -> P (a :: b :: c :: d :: l)) -> forall l, P l.
Proof.
  intros H0 H1 H2 H3 H4.
  fix IH 1. intros [|a [|b [|c [|d l]]]];
    [exact H0 | apply H1 | apply H2 | apply H3 | apply H4; apply IH].
Qed.

Lemma string_length_of_list l : String.length (string_of_list_ascii l) = length l.
Proof. induction l; cbn; congruence. Qed.

Lemma of_string_to_string l : of_string (to_string l) = l.
Proof. apply list_ascii_of_string_of_list_ascii. Qed.

(** The length of a padded base64 text. *)
Lemma Encode_Std_length src :
  length (Encode StdEncoding src) = (4 * ((length src + 2) / 3))%nat.
Proof.
  induction src as [| a | a b | a b c l IH] using list_ind3; try reflexivity.
  cbn [Encode length]. rewrite IH.
  replace (S (S (S (length l))) + 2)%nat with ((length l + 2) + 1 * 3)%nat by lia.
  rewrite Nat.div_add by discriminate. lia.
Qed.

(** What decodes is made of characters of the alphabet and of padding,
    and a padded text comes in groups of four. *)
Lemma decodeQuanta_chars e : forall l out,
  decodeQuanta e l = Some out ->
  Forall (fun c => dec_char e c <> None \/ is_pad e c = true) l.
Proof.
  assert (ok : forall c v, dec_char e c = Some v ->
                 dec_char e c <> None \/ is_pad e c = true)
    by (intros c v Hc; left; congruence).
  induction l as [| a | a b | a b c | a b c d l IH] using list_ind4; intros out H.
  - constructor.
  - discriminate.
  - cbn [decodeQuanta] in H. destruct (padChar e); [discriminate|].
    destruct (dec_char e a) eqn:Ea; [|discriminate].
    destruct (dec_char e b) eqn:Eb; [|discriminate].
    constructor; [eauto|]. constructor; [eauto|]. constructor.
  - cbn [decodeQuanta] in H. destruct (padChar e); [discriminate|].
    destruct (dec_char e a) eqn:Ea; [|discriminate].
    destruct (dec_char e b) eqn:Eb; [|discriminate].
    destruct (dec_char e c) eqn:Ec; [|discriminate].
    constructor; [eauto|]. constructor; [eauto|]. constructor; [eauto|]. constructor.
  - cbn [decodeQuanta] in H.
    destruct (dec_char e a) eqn:Ea; [|discriminate].
    destruct (dec_char e b) eqn:Eb; [|discriminate].
    constructor; [eauto|]. constructor; [eauto|].
    destruct (dec_char e c) eqn:Ec.
    + constructor; [eauto|].
      destruct (dec_char e d) eqn:Ed.
      * constructor; [eauto|].
        destruct (decodeQuanta e l) eqn:El; [|discriminate].
        eapply IH; reflexivity.
      * destruct l; [|discriminate].
        destruct (is_pad e d) eqn:Pd; [|discriminate].
        constructor; [right; exact Pd|constructor].
    + destruct l; [|discriminate].
      destruct (is_pad e c) eqn:Pc; [|discriminate].
      destruct (is_pad e d) eqn:Pd; [|discriminate].
      constructor; [right; exact Pc|]. constructor; [right; exact Pd|constructor].
Qed.

Lemma decodeQuanta_Std_groups : forall l out,
  decodeQuanta StdEncoding l = Some out -> (length l mod 4 = 0)%nat.
Proof.
  induction l as [| a | a b | a b c | a b c d l IH] using list_ind4; intros out H;
    try discriminate; [reflexivity|].
  cbn [decodeQuanta] in H.
  assert (Hl : (length l mod 4 = 0)%nat).
  { destruct (dec_char StdEncoding a); [|discriminate].
    destruct (dec_char StdEncoding b); [|discriminate].
    destruct (dec_char StdEncoding c).
    - destruct (dec_char StdEncoding d).
      + destruct (decodeQuanta StdEncoding l) eqn:El; [|discriminate].
        eapply IH; reflexivity.
      + destruct l; [reflexivity|discriminate].
    - destruct l; [reflexivity|discriminate]. }
  cbn [length]. replace (S (S (S (S (length l))))) with (length l + 1 * 4)%nat by lia.
  rewrite Nat.Div0.mod_add. exact Hl.
Qed.

(** X1.  A token that [Encrypt] made under one 32-byte key is accepted by
    [Decrypt] under every 32-byte key: no error is reported, and the
    result has the length of the plaintext. *)
Theorem Decrypt_accepts_every_key (rand : Reader) (s key1 key2 : string) :
  String.length key1 = 32%nat ->
  String.length key2 = 32%nat ->
  (AES.BlockSize <= length rand)%nat ->
  exists token text,
    Encrypt rand s key1 = (token, None) /\
    Decrypt token key2 = (text, None) /\
    String.length text = String.length s.
Proof.
  intros H1 H2 Hr.
  destruct (@Encrypt_Decrypt rand s key1 H1 Hr) as [token [HE _]].
  destruct (@Decrypt_any_key rand s key1 key2 token H2 HE) as [text [HD Hl]].
  exists token, text. auto.
Qed.

Lemma Decrypt_accepts_every_key_witness :
  let key1 := "your-32-byte-encryption-key-here" in
  let key2 := "12345678901234567890123456789012" in
  let rand := unhex "000102030405060708090a0b0c0d0e0f" in
  String.length key1 = 32%nat /\ String.length key2 = 32%nat /\
  (AES.BlockSize <= length rand)%nat /\
  exists token text,
    Encrypt rand "a@x.com" key1 = (token, None) /\
    Decrypt token key2 = (text, None) /\
    String.length text = String.length "a@x.com".
Proof.
  cbv zeta. split; [reflexivity|]. split; [reflexivity|].
  assert (Hr : (AES.BlockSize <= length (unhex "000102030405060708090a0b0c0d0e0f"))%nat)
    by (vm_compute; lia).
  split; [exact Hr|].
  exact (@Decrypt_accepts_every_key (unhex "000102030405060708090a0b0c0d0e0f") "a@x.com"
           "your-32-byte-encryption-key-here" "12345678901234567890123456789012"
           eq_refl eq_refl Hr).
Defined.

(** X2.  The token of [Encrypt] is the standard base64 text of the IV,
    which is the first block read from the random source, followed by as
    many bytes as the plaintext has: it decodes to exactly these bytes and
    is [4 * ceil((16 + n) / 3)] characters long. *)
Theorem Encrypt_token_layout (rand : Reader) (s key : string) :
  String.length key = 32%nat ->
  (AES.BlockSize <= length rand)%nat ->
  exists body,
    length body = String.length s /\
    Encrypt rand s key
      = (EncodeToString StdEncoding (firstn AES.BlockSize rand ++ body)%list, None) /\
    DecodeString StdEncoding (fst (Encrypt rand s key))
      = Some (firstn AES.BlockSize rand ++ body)%list /\
    String.length (fst (Encrypt rand s key))
      = (4 * ((AES.BlockSize + String.length s + 2) / 3))%nat.
Proof.
  intros Hk Hr. unfold Encrypt. rewrite Hk. cbn [Nat.eqb negb].
  destruct (@NewCipher_32 (of_string key)) as [blk Hblk].
  { rewrite length_of_string. exact Hk. }
  rewrite Hblk. unfold ReadFull.
  apply Nat.leb_le in Hr. rewrite Hr. apply Nat.leb_le in Hr.
  assert (Hiv : length (firstn AES.BlockSize rand) = AES.BlockSize)
    by (apply firstn_length_le; exact Hr).
  unfold NewCFBEncrypter, newCFB. rewrite Hiv, Nat.eqb_refl.
  eexists. split; [|split; [reflexivity|split]].
  - rewrite XORKeyStream_length. apply length_of_string.
  - cbn [fst]. apply StdEncoding_roundtrip.
  - cbn [fst]. unfold EncodeToString.
    rewrite string_length_of_list, Encode_Std_length, length_app, Hiv,
      XORKeyStream_length, length_of_string.
    reflexivity.
Qed.

Lemma Encrypt_token_layout_witness :
  let key := "your-32-byte-encryption-key-here" in
  let rand := unhex "000102030405060708090a0b0c0d0e0f1011" in
  String.length key = 32%nat /\ (AES.BlockSize <= length rand)%nat /\
  exists body,
    length body = String.length "a@x.com" /\
    Encrypt rand "a@x.com" key
      = (EncodeToString StdEncoding (firstn AES.BlockSize rand ++ body)%list, None) /\
    DecodeString StdEncoding (fst (Encrypt rand "a@x.com" key))
      = Some (firstn AES.BlockSize rand ++ body)%list /\
    String.length (fst (Encrypt rand "a@x.com" key))
      = (4 * ((AES.BlockSize + String.length "a@x.com" + 2) / 3))%nat.
Proof.
  cbv zeta. split; [reflexivity|].
  assert (Hr : (AES.BlockSize <= length (unhex "000102030405060708090a0b0c0d0e0f1011"))%nat)
    by (vm_compute; lia).
  split; [exact Hr|].
  exact (@Encrypt_token_layout (unhex "000102030405060708090a0b0c0d0e0f1011") "a@x.com"
           "your-32-byte-encryption-key-here" eq_refl Hr).
Defined.

(** X3.  [Decrypt] under a 32-byte key refuses the base64 text of fewer
    than 16 bytes, the empty token included, with the error
    [ciphertext too short] and the empty string. *)
Theorem Decrypt_short_token (c : bytes) (key : string) :
  String.length key = 32%nat ->
  (length c < AES.BlockSize)%nat ->
  Decrypt (EncodeToString StdEncoding c) key = ("", Some errTooShort).
Proof.
  intros Hk Hc. unfold Decrypt. rewrite Hk. cbn [Nat.eqb negb].
  rewrite StdEncoding_roundtrip.
  destruct (@NewCipher_32 (of_string key)) as [blk Hblk].
  { rewrite length_of_string. exact Hk. }
  rewrite Hblk. apply Nat.ltb_lt in Hc. rewrite Hc. reflexivity.
Qed.

Lemma Decrypt_short_token_witness :
  let key := "your-32-byte-encryption-key-here" in
  String.length key = 32%nat /\ (length (@nil byte) < AES.BlockSize)%nat /\
  Decrypt "" key = ("", Some errTooShort).
Proof.
  cbv zeta. split; [reflexivity|].
  assert (Hc : (length (@nil byte) < AES.BlockSize)%nat) by (vm_compute; lia).
  split; [exact Hc|].
  exact (@Decrypt_short_token [] "your-32-byte-encryption-key-here" eq_refl Hc).
Defined.

(** X4.  [Decrypt] under a 32-byte key refuses, with the empty string and
    a base64 error, every text that holds a character outside the standard
    alphabet other than padding and line breaks, and every text whose
    characters, line breaks apart, do not come in groups of four. *)
Theorem Decrypt_refuses_malformed_text (t key : string) :
  String.length key = 32%nat ->
  let text := filter (fun c => negb (is_newline c)) (list_ascii_of_string t) in
  (length text mod 4 <> 0)%nat \/
  (exists c, In c text /\ dec_char StdEncoding c = None /\ c <> StdPadding) ->
  Decrypt t key = ("", Some errCorruptInput).
Proof.
  intros Hk text Hbad. unfold Decrypt. rewrite Hk. cbn [Nat.eqb negb].
  unfold DecodeString. fold text.
  destruct (decodeQuanta StdEncoding text) as [out|] eqn:Hd; [exfalso|reflexivity].
  destruct Hbad as [Hlen | [c [Hin [Hc Hp]]]].
  - apply Hlen. eapply decodeQuanta_Std_groups. exact Hd.
  - pose proof (decodeQuanta_chars _ _ Hd) as Hall.
    rewrite Forall_forall in Hall. destruct (Hall c Hin) as [Hdec | Hpad].
    + contradiction.
    + apply Hp. unfold is_pad in Hpad. cbn [padChar StdEncoding] in Hpad.
      apply Ascii.eqb_eq in Hpad. symmetry. exact Hpad.
Qed.

Lemma Decrypt_refuses_malformed_text_witness :
  let key := "your-32-byte-encryption-key-here" in
  let t := "AAECAwQFBgcICQoLDA0OD35SicTOtY" in
  let text := filter (fun c => negb (is_newline c)) (list_ascii_of_string t) in
  String.length key = 32%nat /\
  ((length text mod 4 <> 0)%nat \/
   (exists c, In c text /\ dec_char StdEncoding c = None /\ c <> StdPadding)) /\
  Decrypt t key = ("", Some errCorruptInput).
Proof.
  cbv zeta. split; [reflexivity|].
  assert (Hbad :
    (length (filter (fun c => negb (is_newline c))
               (list_ascii_of_string "AAECAwQFBgcICQoLDA0OD35SicTOtY")) mod 4 <> 0)%nat \/
    (exists c, In c (filter (fun c => negb (is_newline c))
                       (list_ascii_of_string "AAECAwQFBgcICQoLDA0OD35SicTOtY")) /\
               dec_char StdEncoding c = None /\ c <> StdPadding))
    by (left; vm_compute; discriminate).
  split; [exact Hbad|].
  exact (@Decrypt_refuses_malformed_text "AAECAwQFBgcICQoLDA0OD35SicTOtY"
           "your-32-byte-encryption-key-here" eq_refl Hbad).
Defined.

(** X5.  [HashEmail] returns 44 characters for every address, the empty
    one included. *)
Theorem HashEmail_is_44_characters (email : string) :
  String.length (HashEmail email) = 44%nat.
Proof. apply HashEmail_length. Qed.

End Cipher_edges.

(** ** Configuration *)

Section Configuration.
Import utils http mongo auth_service.
Local Open Scope string_scope.

Lemma getEnv_default env key d :
  os.Getenv env key = "" -> shared_config.getEnv env key d = d.
Proof. intros E. unfold shared_config.getEnv. rewrite E. reflexivity. Qed.

Lemma getEnv_value env key d :
  os.Getenv env key <> "" -> shared_config.getEnv env key d = os.Getenv env key.
Proof.
  intros E. unfold shared_config.getEnv. apply String.eqb_neq in E. rewrite E. reflexivity.
Qed.

Lemma getEnv_not_empty env key d : d <> "" -> shared_config.getEnv env key d <> "".
Proof.
  intros Hd. unfold shared_config.getEnv.
  destruct (String.eqb (os.Getenv env key) "") eqn:E; cbn [negb]; [exact Hd|].
  apply String.eqb_neq. exact E.
Qed.

(** X6.  Whatever the environment holds, no field of the configuration
    that [Load] returns is empty, in the services and in the single-binary
    server: a variable that is unset or set to the empty string gives the
    built-in default. *)
Theorem Load_has_no_empty_field (env : os.Environ) :
  (let cfg := shared_config.Load env in
   MongoURI cfg <> "" /\ JWTSecret cfg <> "" /\ EncryptionKey cfg <> "" /\
   ServiceName cfg <> "" /\ ServicePort cfg <> "") /\
  (let cfg := server_config.Load env in
   server_config.MongoURI cfg <> "" /\ server_config.JWTSecret cfg <> "" /\
   server_config.EncryptionKey cfg <> "").
Proof.
  cbv zeta. unfold shared_config.Load, server_config.Load.
  cbn [MongoURI JWTSecret EncryptionKey ServiceName ServicePort
       server_config.MongoURI server_config.JWTSecret server_config.EncryptionKey].
  repeat split; apply getEnv_not_empty; discriminate.
Qed.

(** X7.  With [ENCRYPTION_KEY] unset or empty, the key that [Load]
    returns, in the services and in the single-binary server, is one that
    [Encrypt] and [Decrypt] accept: every string encrypts and decrypts back
    under it. *)
Theorem Load_default_key_works (env : os.Environ) (rand : Reader) (s : string) :
  os.Getenv env "ENCRYPTION_KEY" = "" ->
  (AES.BlockSize <= length rand)%nat ->
  (exists token,
     Encrypt rand s (EncryptionKey (shared_config.Load env)) = (token, None) /\
     Decrypt token (EncryptionKey (shared_config.Load env)) = (s, None)) /\
  (exists token,
     Encrypt rand s (server_config.EncryptionKey (server_config.Load env)) = (token, None) /\
     Decrypt token (server_config.EncryptionKey (server_config.Load env)) = (s, None)).
Proof.
  intros E Hr. unfold shared_config.Load, server_config.Load.
  cbn [EncryptionKey server_config.EncryptionKey].
  rewrite getEnv_default by exact E.
  change (server_config.getEnv env "ENCRYPTION_KEY" "12345678901234567890123456789012")
    with (shared_config.getEnv env "ENCRYPTION_KEY" "12345678901234567890123456789012").
  rewrite getEnv_default by exact E.
  split; apply Encrypt_Decrypt; (reflexivity || exact Hr).
Qed.

Lemma Load_default_key_works_witness :
  let env := [("JWT_SECRET", "s3cret"); ("ENCRYPTION_KEY", "")] in
  let rand := unhex "000102030405060708090a0b0c0d0e0f" in
  os.Getenv env "ENCRYPTION_KEY" = "" /\ (AES.BlockSize <= length rand)%nat /\
  (exists token,
     Encrypt rand "a@x.com" (EncryptionKey (shared_config.Load env)) = (token, None) /\
     Decrypt token (EncryptionKey (shared_config.Load env)) = ("a@x.com", None)) /\
  (exists token,
     Encrypt rand "a@x.com" (server_config.EncryptionKey (server_config.Load env))
       = (token, None) /\
     Decrypt token (server_config.EncryptionKey (server_config.Load env)) = ("a@x.com", None)).
Proof.
  cbv zeta. split; [reflexivity|].
  assert (Hr : (AES.BlockSize <= length (unhex "000102030405060708090a0b0c0d0e0f"))%nat)
    by (vm_compute; lia).
  split; [exact Hr|].
  exact (@Load_default_key_works [("JWT_SECRET", "s3cret"); ("ENCRYPTION_KEY", "")]
           (unhex "000102030405060708090a0b0c0d0e0f") "a@x.com" eq_refl Hr).
Defined.

End Configuration.

(** ** Registration and login *)

Section Credentials.
Context `{External}.
Import utils http mongo auth_service.
Local Open Scope string_scope.

(** The answer at hand is not a 200. *)
Ltac not_ok := cbn [fst snd StatusCode Error]; discriminate.

Lemma Encrypt_ok_key rand s key token :
  Encrypt rand s key = (token, None) ->
  String.length key = 32%nat /\ (AES.BlockSize <= length rand)%nat.
Proof.
  unfold Encrypt. destruct (String.length key =? 32)%nat eqn:Hk; [|discriminate].
  cbn [negb]. apply Nat.eqb_eq in Hk.
  destruct (AES.NewCipher _); [|discriminate].
  unfold ReadFull. destruct (AES.BlockSize <=? length rand)%nat eqn:Hr; [|discriminate].
  intros _. apply Nat.leb_le in Hr. auto.
Qed.

Lemma Encrypt_bad_key rand s key :
  String.length key <> 32%nat -> Encrypt rand s key = ("", Some errKeyLength).
Proof. intros Hk. apply Nat.eqb_neq in Hk. unfold Encrypt. rewrite Hk. reflexivity. Qed.

Lemma Decrypt_bad_key t key :
  String.length key <> 32%nat -> Decrypt t key = ("", Some errKeyLength).
Proof. intros Hk. apply Nat.eqb_neq in Hk. unfold Decrypt. rewrite Hk. reflexivity. Qed.

Lemma find_app_new (f : User -> bool) (db : Collection) u :
  find f db = None -> f u = true -> find f (db ++ [u])%list = Some u.
Proof.
  induction db as [|v db IH]; cbn; intros Hn Hu.
  - rewrite Hu. reflexivity.
  - destruct (f v); [discriminate|]. apply IH; assumption.
Qed.

(** What a registration that appended a record went through. *)
Lemma Register_appended cfg world db (r : Request RegisterRequest) req u :
  ReqBody r = Some req ->
  snd (Register cfg world db r) = (db ++ [u])%list ->
  fst (Register cfg world db r) = WriteJSON [("message", "User registered successfully")] /\
  find (by_email_hash (Email req)) db = None /\
  (String.length (Password req) <= 72)%nat /\
  (exists token,
     Encrypt (skipn bcrypt.maxSaltSize (Rand world)) (Email req) (EncryptionKey cfg)
       = (token, None) /\
     u = {| models.ID := NewObjectID world;
            models.EmailHash := Email req;
            models.Email := token;
            models.Password :=
              to_string (bcrypt_hash (firstn bcrypt.maxSaltSize (Rand world))
                                     (of_string (Password req)) bcrypt.DefaultCost);
            models.Role := if String.eqb (Role req) "admin" then "admin" else "user";
            models.CreatedAt := Now world;
            models.UpdatedAt := Now world |}).
Proof.
  intros Hreq. unfold Register. rewrite Hreq.
  assert (Hsame : forall u0 : User, db <> (db ++ [u0])%list).
  { intros u0 E. apply (f_equal (@length User)) in E. rewrite length_app in E. cbn in E. lia. }
  unfold FindOne. destruct (findFault world); [intros E; exfalso; exact (Hsame _ E)|].
  destruct (find _ db) eqn:Hfind; [intros E; exfalso; exact (Hsame _ E)|].
  unfold bcrypt.GenerateFromPassword. rewrite length_of_string.
  destruct (72 <? String.length (Password req))%nat eqn:Hpw;
    [intros E; exfalso; exact (Hsame _ E)|].
  cbn [Nat.ltb Nat.leb bcrypt.MaxCost bcrypt.DefaultCost].
  unfold ReadFull.
  destruct (bcrypt.maxSaltSize <=? length (Rand world))%nat;
    [|intros E; exfalso; exact (Hsame _ E)].
  destruct (Encrypt _ _ _) as [token [e|]] eqn:HE; [intros E; exfalso; exact (Hsame _ E)|].
  unfold InsertOne. destruct (insertFault world); [intros E; exfalso; exact (Hsame _ E)|].
  cbn [fst snd]. intros E. apply app_inv_head in E. injection E as <-.
  split; [reflexivity|]. split; [reflexivity|].
  split; [apply Nat.ltb_ge; exact Hpw|].
  exists token. split; reflexivity.
Qed.

(** X8.  A registration that stored a record can be followed by a login
    with the same address and password: given that bcrypt accepts the
    password against the digest it has just made, the login finds the new
    record, the stored ciphertext decrypts to the registered address, and
    the login answers with the token signed for that record and with the
    registered role. *)
Theorem Register_then_Login cfg world db (r : Request RegisterRequest) req u
        world' (l : Request LoginRequest) :
  ReqBody r = Some req ->
  snd (Register cfg world db r) = (db ++ [u])%list ->
  bcrypt_matches (bcrypt_hash (firstn bcrypt.maxSaltSize (Rand world))
                              (of_string (Password req)) bcrypt.DefaultCost)
                 (of_string (Password req)) = true ->
  ReqBody l = Some {| LoginEmail := Email req; LoginPassword := Password req |} ->
  findFault world' = None ->
  Decrypt (models.Email u) (EncryptionKey cfg) = (Email req, None) /\
  Login cfg world' (db ++ [u])%list l = issue cfg world' u /\
  forall ts,
    jwt.SignedString (jwt.NewWithClaims jwt.SigningMethodHS256
                        (loginClaims world' u (Email req)))
                     (of_string (JWTSecret cfg)) = (ts, None) ->
    Login cfg world' (db ++ [u])%list l
      = WriteJSON [("token", ts);
                   ("role", if String.eqb (Role req) "admin" then "admin" else "user")].
Proof.
  intros Hreq Hsnd Hb Hl Hf.
  destruct (@Register_appended cfg world db r req u Hreq Hsnd)
    as [_ [Hfind [Hpw [token [HE Hu]]]]].
  destruct (@Encrypt_ok_key _ _ _ _ HE) as [Hk Hr].
  destruct (@Encrypt_Decrypt _ (Email req) _ Hk Hr) as [token' [HE' HD]].
  rewrite HE in HE'. injection HE' as <-.
  assert (HDu : Decrypt (models.Email u) (EncryptionKey cfg) = (Email req, None))
    by (rewrite Hu; exact HD).
  assert (HL : Login cfg world' (db ++ [u])%list l = issue cfg world' u).
  { unfold Login. rewrite Hl. cbn [LoginEmail LoginPassword].
    unfold FindOne. rewrite Hf.
    rewrite (@find_app_new (by_email_hash (Email req)) db u Hfind)
      by (rewrite Hu; apply String.eqb_refl).
    unfold bcrypt.CompareHashAndPassword.
    replace (of_string (models.Password u))
      with (bcrypt_hash (firstn bcrypt.maxSaltSize (Rand world))
                        (of_string (Password req)) bcrypt.DefaultCost)
      by (rewrite Hu; cbn [models.Password]; symmetry; apply of_string_to_string).
    rewrite Hb. reflexivity. }
  split; [exact HDu|]. split; [exact HL|].
  intros ts Hts. rewrite HL. unfold issue. rewrite HDu, Hts.
  rewrite Hu. reflexivity.
Qed.

(** X9.  [Login] answers 200 only when the store answered, a stored
    record carries the address of the request as its lookup key, bcrypt
    accepts the password of the request against the stored digest, and the
    stored ciphertext decrypts under the configured key; the role in the
    answer is the stored role.  [AdminLogin] needs, in addition, the stored
    role [admin]. *)
Theorem Login_needs_the_password cfg world db (r : Request LoginRequest) :
  StatusCode (Login cfg world db r) = StatusOK \/
  StatusCode (AdminLogin cfg world db r) = StatusOK ->
  exists req user email ts,
    ReqBody r = Some req /\
    findFault world = None /\
    In user db /\
    models.EmailHash user = LoginEmail req /\
    bcrypt_matches (of_string (models.Password user)) (of_string (LoginPassword req)) = true /\
    Decrypt (models.Email user) (EncryptionKey cfg) = (email, None) /\
    (StatusCode (Login cfg world db r) = StatusOK ->
     Login cfg world db r = WriteJSON [("token", ts); ("role", models.Role user)]) /\
    (StatusCode (AdminLogin cfg world db r) = StatusOK ->
     models.Role user = "admin" /\
     AdminLogin cfg world db r = WriteJSON [("token", ts); ("role", "admin")]).
Proof.
  intros H200.
  assert (Hcore : exists req user,
            ReqBody r = Some req /\ findFault world = None /\
            find (by_email_hash (LoginEmail req)) db = Some user /\
            bcrypt_matches (of_string (models.Password user))
                           (of_string (LoginPassword req)) = true /\
            StatusCode (issue cfg world user) = StatusOK /\
            (StatusCode (Login cfg world db r) = StatusOK ->
             Login cfg world db r = issue cfg world user) /\
            (StatusCode (AdminLogin cfg world db r) = StatusOK ->
             models.Role user = "admin" /\ AdminLogin cfg world db r = issue cfg world user)).
  { unfold Login, AdminLogin, AdminLoginRequest in *.
    destruct (ReqBody r) as [req|]; [|destruct H200; discriminate].
    unfold FindOne in *. destruct (findFault world); [destruct H200; discriminate|].
    destruct (find _ db) as [user|] eqn:Hfind; [|destruct H200; discriminate].
    unfold bcrypt.CompareHashAndPassword in *.
    destruct (bcrypt_matches _ _) eqn:Hm.
    2:{ destruct (negb _); destruct H200; discriminate. }
    exists req, user.
    destruct (String.eqb (models.Role user) "admin") eqn:Hrole; cbn [negb] in *.
    - apply String.eqb_eq in Hrole.
      repeat split; try assumption || reflexivity. destruct H200; assumption.
    - repeat split; try assumption || reflexivity.
      + destruct H200; [assumption|discriminate].
      + discriminate.
      + discriminate. }
  destruct Hcore as [req [user [Hreq [Hff [Hfind [Hm [Hi [HL HA]]]]]]]].
  destruct (@issue_ok _ cfg world user _ eq_refl Hi) as [email [hb [cb Hio]]].
  cbv zeta in Hio. destruct Hio as [HD [_ [_ [_ Hresp]]]].
  apply find_some in Hfind. destruct Hfind as [Hin Hkey].
  apply String.eqb_eq in Hkey.
  exists req, user, email. eexists.
  do 6 (split; [eassumption|]). split.
  - intros HS. rewrite (HL HS). exact Hresp.
  - intros HS. destruct (HA HS) as [Hrole HAe]. split; [exact Hrole|].
    rewrite HAe, Hresp, Hrole. reflexivity.
Qed.

(** X10.  A password of more than 72 bytes is never stored: [Register] and
    [AdminRegister] answer another status than 200 and leave the store as
    it was, and when the lookup finds no record the answer is 500,
    [Failed to hash password]. *)
Theorem Register_long_password cfg world db (r : Request RegisterRequest) req
        (a : Request AdminRegisterRequest) areq :
  ReqBody r = Some req -> (72 < String.length (Password req))%nat ->
  ReqBody a = Some areq -> (72 < String.length (LoginPassword areq))%nat ->
  (StatusCode (fst (Register cfg world db r)) <> StatusOK /\
   snd (Register cfg world db r) = db /\
   (FindOne (findFault world) db (by_email_hash (Email req)) = ErrNoDocuments ->
    fst (Register cfg world db r)
      = Error "Failed to hash password" StatusInternalServerError)) /\
  (StatusCode (fst (AdminRegister cfg world db a)) <> StatusOK /\
   snd (AdminRegister cfg world db a) = db /\
   (FindOne (findFault world) db (by_email_hash (LoginEmail areq)) = ErrNoDocuments ->
    fst (AdminRegister cfg world db a)
      = Error "Failed to hash password" StatusInternalServerError)).
Proof.
  intros Hreq Hpw Hareq Hapw. apply Nat.ltb_lt in Hpw, Hapw.
  unfold Register, AdminRegister, AdminRegisterRequest in *. rewrite Hreq, Hareq.
  unfold bcrypt.GenerateFromPassword. rewrite !length_of_string, Hpw, Hapw.
  split.
  - destruct (FindOne _ _ (by_email_hash (Email req)));
      (split; [discriminate|split; [reflexivity|]]); intros E;
      try discriminate; reflexivity.
  - destruct (FindOne _ _ (by_email_hash (LoginEmail areq)));
      (split; [discriminate|split; [reflexivity|]]); intros E;
      try discriminate; reflexivity.
Qed.

(** X11.  Registration keeps the lookup keys of the store distinct: when
    no two records share a lookup key before [Register] or [AdminRegister],
    none do afterwards, whatever the request and whatever the outcome. *)
Theorem Register_keeps_keys_distinct cfg world db
        (r : Request RegisterRequest) (a : Request AdminRegisterRequest) :
  NoDup (map models.EmailHash db) ->
  NoDup (map models.EmailHash (snd (Register cfg world db r))) /\
  NoDup (map models.EmailHash (snd (AdminRegister cfg world db a))).
Proof.
  intros Hnd.
  assert (Hadd : forall key u, find (by_email_hash key) db = None ->
                   models.EmailHash u = key ->
                   NoDup (map models.EmailHash (db ++ [u])%list)).
  { intros key u Hfind Hu. rewrite map_app. cbn [map].
    apply NoDup_app; [exact Hnd | repeat constructor; intros [] |].
    intros k Hin [Hk|[]]. apply in_map_iff in Hin. destruct Hin as [v [Hv Hin]].
    pose proof (find_none _ _ Hfind v Hin) as Hb. unfold by_email_hash in Hb.
    apply String.eqb_neq in Hb. congruence. }
  split.
  - unfold Register. destruct (ReqBody r) as [req|]; [|exact Hnd].
    unfold FindOne. destruct (findFault world); [exact Hnd|].
    destruct (find _ db) eqn:Hfind; [exact Hnd|].
    destruct (bcrypt.GenerateFromPassword _ _ _) as [hp [e|]]; [exact Hnd|].
    destruct (Encrypt _ _ _) as [ct [e|]]; [exact Hnd|].
    unfold InsertOne. destruct (insertFault world); [exact Hnd|].
    cbn [snd]. eapply Hadd; [exact Hfind|reflexivity].
  - unfold AdminRegister. destruct (ReqBody a) as [req|]; [|exact Hnd].
    unfold FindOne. destruct (findFault world); [exact Hnd|].
    destruct (find _ db) eqn:Hfind; [exact Hnd|].
    destruct (bcrypt.GenerateFromPassword _ _ _) as [hp [e|]]; [exact Hnd|].
    destruct (Encrypt _ _ _) as [ct [e|]]; [exact Hnd|].
    unfold InsertOne. destruct (insertFault world); [exact Hnd|].
    cbn [snd]. eapply Hadd; [exact Hfind|reflexivity].
Qed.

(** X12.  [Load] takes an [ENCRYPTION_KEY] of any length.  Under a
    configuration loaded with a key that is not 32 bytes long no
    registration stores a record and no login answers 200, whatever the
    request, the store and the credentials. *)
Theorem Load_takes_any_key (env : os.Environ) (key : string) :
  os.Getenv env "ENCRYPTION_KEY" = key -> key <> "" -> String.length key <> 32%nat ->
  let cfg := shared_config.Load env in
  EncryptionKey cfg = key /\
  forall world db (r : Request RegisterRequest) (a : Request AdminRegisterRequest)
         (l : Request LoginRequest),
    (StatusCode (fst (Register cfg world db r)) <> StatusOK /\
     snd (Register cfg world db r) = db) /\
    (StatusCode (fst (AdminRegister cfg world db a)) <> StatusOK /\
     snd (AdminRegister cfg world db a) = db) /\
    StatusCode (Login cfg world db l) <> StatusOK /\
    StatusCode (AdminLogin cfg world db l) <> StatusOK.
Proof.
  intros Hkey Hne Hlen cfg.
  assert (Hcfg : EncryptionKey cfg = key).
  { unfold cfg, shared_config.Load. cbn [EncryptionKey].
    rewrite getEnv_value by (rewrite Hkey; exact Hne). exact Hkey. }
  split; [exact Hcfg|]. intros world db r a l.
  assert (Hissue : forall user, StatusCode (issue cfg world user) <> StatusOK).
  { intros user. unfold issue. rewrite Decrypt_bad_key by (rewrite Hcfg; exact Hlen).
    discriminate. }
  assert (HE : forall rand s, Encrypt rand s (EncryptionKey cfg) = ("", Some errKeyLength))
    by (intros; apply Encrypt_bad_key; rewrite Hcfg; exact Hlen).
  repeat split.
  - unfold Register. destruct (ReqBody r); [|not_ok].
    destruct (FindOne _ _ _); try not_ok.
    destruct (bcrypt.GenerateFromPassword _ _ _) as [hp [e|]]; [not_ok|].
    rewrite HE. not_ok.
  - unfold Register. destruct (ReqBody r); [|reflexivity].
    destruct (FindOne _ _ _); try reflexivity.
    destruct (bcrypt.GenerateFromPassword _ _ _) as [hp [e|]]; [reflexivity|].
    rewrite HE. reflexivity.
  - unfold AdminRegister. destruct (ReqBody a); [|not_ok].
    destruct (FindOne _ _ _); try not_ok.
    destruct (bcrypt.GenerateFromPassword _ _ _) as [hp [e|]]; [not_ok|].
    rewrite HE. not_ok.
  - unfold AdminRegister. destruct (ReqBody a); [|reflexivity].
    destruct (FindOne _ _ _); try reflexivity.
    destruct (bcrypt.GenerateFromPassword _ _ _) as [hp [e|]]; [reflexivity|].
    rewrite HE. reflexivity.
  - unfold Login. destruct (ReqBody l); [|not_ok].
    destruct (FindOne _ _ _); try not_ok.
    destruct (bcrypt.CompareHashAndPassword _ _); [not_ok|apply Hissue].
  - unfold AdminLogin, AdminLoginRequest. destruct (ReqBody l); [|not_ok].
    destruct (FindOne _ _ _); try not_ok.
    destruct (negb _); [not_ok|].
    destruct (bcrypt.CompareHashAndPassword _ _); [not_ok|apply Hissue].
Qed.

End Credentials.

(** ** The gate: what else it refuses and accepts *)

Section Gate_edges.
Import http.
Local Open Scope string_scope.

Lemma DecodeSegment_space s :
  In " "%char (list_ascii_of_string s) -> jwt.DecodeSegment s = None.
Proof.
  intros Hin. unfold jwt.DecodeSegment, Base64.DecodeString.
  destruct (Base64.decodeQuanta _ _) as [out|] eqn:Hd; [exfalso|reflexivity].
  pose proof (decodeQuanta_chars _ _ Hd) as Hall. rewrite Forall_forall in Hall.
  destruct (Hall " "%char) as [Hdec | Hpad].
  - apply filter_In. split; [exact Hin|reflexivity].
  - apply Hdec. reflexivity.
  - discriminate.
Qed.

(** A character other than the separator lies in one of the pieces. *)
Lemma Split_In c sep : c <> sep -> forall s,
  In c (list_ascii_of_string s) ->
  exists p, In p (strings.Split s sep) /\ In c (list_ascii_of_string p).
Proof.
  intros Hc. induction s as [|d s IH]; cbn [list_ascii_of_string strings.Split];
    intros Hin; [destruct Hin|].
  destruct (Ascii.eqb_spec d sep) as [->|Hd].
  - destruct Hin as [E|Hin]; [congruence|].
    destruct (IH Hin) as [p [Hp Hcp]]. exists p. split; [right; exact Hp|exact Hcp].
  - destruct (strings.Split s sep) as [|h t] eqn:E.
    + exfalso. exact (Split_nonempty _ _ E).
    + destruct Hin as [->|Hin].
      * exists (String c h). split; [left; reflexivity|left; reflexivity].
      * destruct (IH Hin) as [p [[<-|Hp] Hcp]].
        -- exists (String d h). split; [left; reflexivity|right; exact Hcp].
        -- exists p. split; [right; exact Hp|exact Hcp].
Qed.

Section With_libraries.
Context `{External}.

Lemma Parse_space s key now :
  In " "%char (list_ascii_of_string s) -> snd (jwt.Parse s key now) <> None.
Proof.
  intros Hin.
  destruct (@Split_In " "%char "."%char ltac:(discriminate) s Hin) as [p [Hp Hsp]].
  apply DecodeSegment_space in Hsp.
  unfold jwt.Parse.
  destruct (strings.Split s ".") as [|p0 [|p1 [|p2 [|p3 t]]]]; try discriminate.
  destruct Hp as [<-|[<-|[<-|[]]]].
  - rewrite Hsp. discriminate.
  - destruct (jwt.DecodeSegment p0); [|discriminate].
    destruct (json_Unmarshal _); [|discriminate].
    rewrite Hsp. discriminate.
  - destruct (jwt.DecodeSegment p0); [|discriminate].
    destruct (json_Unmarshal _); [|discriminate].
    destruct (jwt.DecodeSegment p1); [|discriminate].
    destruct (json_Decode _); [|discriminate].
    destruct (index _ _); try discriminate.
    destruct (jwt.GetSigningMethod _); [|discriminate].
    unfold jwt.Verify. rewrite Hsp. discriminate.
Qed.

(** X13.  A header whose token, after one leading [Bearer ] is removed,
    still holds a space is answered 401 by both gates without the next
    stage being run: the prefix is matched exactly and removed once, so a
    lower-case [bearer], a doubled prefix or another scheme are refused. *)
Theorem gate_refuses_a_space (cfg : Config) (now : time.Time) B (next : Handler B)
        (r : Request B) :
  In " "%char (list_ascii_of_string
                 (strings.TrimPrefix (Get (Header r) "Authorization") "Bearer ")) ->
  middleware.JWTAuthMiddleware cfg now next r
    = Reply (Error "Invalid token" StatusUnauthorized) /\
  microservices.JWTAuthMiddleware cfg now next r
    = Reply (Error "Invalid token" StatusUnauthorized).
Proof.
  intros Hin. apply gate_rejects.
  - intros E. rewrite E in Hin. destruct Hin.
  - apply Parse_space. exact Hin.
Qed.

Lemma Parse_SignedString_method m claims keyA keyB now ts hb cb header' claims' :
  jwt.SignedString (jwt.NewWithClaims m claims) keyA = (ts, None) ->
  json_Marshal (jwt.Header (jwt.NewWithClaims m claims)) = Some hb ->
  json_Marshal claims = Some cb ->
  json_Unmarshal hb = Some header' ->
  index header' "alg" = VString (jwt.Alg m) ->
  json_Decode cb = Some claims' ->
  jwt.mac m keyB (of_string (jwt.EncodeSegment hb ++ "." ++ jwt.EncodeSegment cb))
    = jwt.mac m keyA (of_string (jwt.EncodeSegment hb ++ "." ++ jwt.EncodeSegment cb)) ->
  jwt.ClaimsValid claims' (time.Unix now) = None ->
  exists tok, jwt.Claims tok = claims' /\ jwt.Parse ts keyB now = (Some tok, None).
Proof.
  intros HS Hh Hc Hu Halg Hd Hmac Hvalid.
  unfold jwt.SignedString, jwt.SigningString in HS.
  cbn [jwt.Claims jwt.NewWithClaims jwt.Method] in HS.
  rewrite Hh, Hc in HS. injection HS as <-.
  unfold jwt.Parse.
  match goal with |- context [strings.Split ?raw "."] => set (ts := raw) end.
  assert (Hsplit : strings.Split ts "."
                   = [jwt.EncodeSegment hb; jwt.EncodeSegment cb;
                      jwt.Sign m (jwt.EncodeSegment hb ++ "." ++ jwt.EncodeSegment cb) keyA]).
  { apply Split_three; apply EncodeSegment_no_dot. }
  rewrite Hsplit.
  rewrite !DecodeSegment_EncodeSegment, Hu, Hd, Halg.
  replace (jwt.GetSigningMethod (jwt.Alg m)) with (Some m) by (destruct m; reflexivity).
  rewrite Verify_Sign, Hmac.
  replace (bytes_eqb _ _) with true by (symmetry; apply bytes_eqb_eq; reflexivity).
  cbn [negb]. rewrite Hvalid.
  eexists. split; [|reflexivity]. reflexivity.
Qed.

(** X14.  The gates ask neither for an expiration nor for a particular
    algorithm: a token signed under the configured secret with HS256, HS384
    or HS512 whose claims hold none of [exp], [iat] and [nbf] is handed to
    the next stage by both gates at every instant, with its claims as they
    read back from JSON. *)
Theorem gate_accepts_token_without_expiry (cfg : Config) (m : jwt.SigningMethod)
        (claims : jwt.MapClaims) (ts : string) :
  jwt.SignedString (jwt.NewWithClaims m claims) (of_string (JWTSecret cfg)) = (ts, None) ->
  json_round_trips (jwt.Header (jwt.NewWithClaims m claims)) ->
  json_round_trips claims ->
  lookup "exp" claims = None -> lookup "iat" claims = None -> lookup "nbf" claims = None ->
  forall (now : time.Time) B (next : Handler B) (r : Request B),
    Get (Header r) "Authorization" = "Bearer " ++ ts ->
    exists tok,
      reads_back claims (jwt.Claims tok) /\
      middleware.JWTAuthMiddleware cfg now next r = next (with_claims r tok) /\
      microservices.JWTAuthMiddleware cfg now next r = next (with_principal cfg r tok).
Proof.
  intros HS Jh Jc He Hi Hn now B next r Hr.
  pose proof HS as HS'. unfold jwt.SignedString, jwt.SigningString in HS'.
  cbn [jwt.Claims jwt.NewWithClaims jwt.Method jwt.Header] in HS'.
  destruct (json_Marshal [("typ", VString "JWT"); ("alg", VString (jwt.Alg m))])
    as [hb|] eqn:Hh; [|discriminate].
  destruct (json_Marshal claims) as [cb|] eqn:Hc; [|discriminate]. clear HS'.
  destruct (Jh hb Hh) as [[h' [Hu Rh]] _].
  destruct (Jc cb Hc) as [_ [c' [Hd Rc]]].
  assert (Halg : index h' "alg" = VString (jwt.Alg m)).
  { unfold index. rewrite (Rh "alg"). reflexivity. }
  assert (Hvalid : jwt.ClaimsValid c' (time.Unix now) = None).
  { unfold jwt.ClaimsValid, jwt.VerifyExpiresAt, jwt.VerifyIssuedAt, jwt.VerifyNotBefore.
    rewrite (Rc "exp"), (Rc "iat"), (Rc "nbf"), He, Hi, Hn. reflexivity. }
  destruct (@Parse_SignedString_method m claims _ (of_string (JWTSecret cfg)) now ts hb cb
              h' c' HS Hh Hc Hu Halg Hd eq_refl Hvalid) as [tok [Hclaims HP]].
  assert (Hne : Get (Header r) "Authorization" <> "") by (rewrite Hr; discriminate).
  assert (Htrim : strings.TrimPrefix (Get (Header r) "Authorization") "Bearer " = ts)
    by (rewrite Hr; apply TrimPrefix_app).
  rewrite <- Htrim in HP.
  destruct (@gate_accepts _ cfg now B next r tok Hne HP) as [G1 G2].
  exists tok. split; [rewrite Hclaims; exact Rc|]. split; assumption.
Qed.

End With_libraries.
End Gate_edges.

(** ** The store: the first record a filter selects *)

Section Store_facts.
Import mongo driver.

Lemma by_id_true id u : by_id id u = true <-> models.ID u = id.
Proof. unfold by_id. apply bytes_eqb_eq. Qed.

Lemma by_id_false id u : by_id id u = false <-> models.ID u <> id.
Proof.
  rewrite <- by_id_true. destruct (by_id id u); split; congruence.
Qed.

Lemma by_email_hash_true h u : by_email_hash h u = true <-> models.EmailHash u = h.
Proof. unfold by_email_hash. apply String.eqb_eq. Qed.

(** A collection either holds a first record that a filter selects, or
    none that it selects. *)
Lemma first_selected (f : User -> bool) (db : Collection) :
  (exists l1 u l2, db = l1 ++ u :: l2 /\ f u = true /\ forall v, In v l1 -> f v = false)
  \/ (forall v, In v db -> f v = false).
Proof.
  induction db as [|w db IH].
  - right. intros v [].
  - destruct (f w) eqn:Hw.
    + left. exists [], w, db. split; [reflexivity|]. split; [exact Hw|]. intros v [].
    + destruct IH as [[l1 [u [l2 [E [Hu Hl1]]]]]|Hnone].
      * left. exists (w :: l1), u, l2. split; [rewrite E; reflexivity|].
        split; [exact Hu|]. intros v [<-|Hv]; [exact Hw|exact (Hl1 v Hv)].
      * right. intros v [<-|Hv]; [exact Hw|exact (Hnone v Hv)].
Qed.

Lemma find_first (f : User -> bool) l1 u l2 :
  f u = true -> (forall v, In v l1 -> f v = false) -> find f (l1 ++ u :: l2) = Some u.
Proof.
  intros Hu. induction l1 as [|w l1 IH]; intros Hl1; cbn.
  - rewrite Hu. reflexivity.
  - rewrite (Hl1 w (or_introl eq_refl)). apply IH. intros v Hv. apply Hl1. right. exact Hv.
Qed.

Lemma find_nothing (f : User -> bool) db :
  (forall v, In v db -> f v = false) -> find f db = None.
Proof.
  induction db as [|w db IH]; intros Hn; cbn; [reflexivity|].
  rewrite (Hn w (or_introl eq_refl)). apply IH. intros v Hv. apply Hn. right. exact Hv.
Qed.

Lemma update_first_selected f patch l1 u l2 :
  f u = true -> (forall v, In v l1 -> f v = false) ->
  update_first f patch (l1 ++ u :: l2) = (l1 ++ patch u :: l2, 1%nat).
Proof.
  intros Hu. induction l1 as [|w l1 IH]; intros Hl1; cbn.
  - rewrite Hu. reflexivity.
  - rewrite (Hl1 w (or_introl eq_refl)), IH; [reflexivity|].
    intros v Hv. apply Hl1. right. exact Hv.
Qed.

Lemma update_first_nothing f patch db :
  (forall v, In v db -> f v = false) -> update_first f patch db = (db, 0%nat).
Proof.
  induction db as [|w db IH]; intros Hn; cbn; [reflexivity|].
  rewrite (Hn w (or_introl eq_refl)), IH; [reflexivity|].
  intros v Hv. apply Hn. right. exact Hv.
Qed.

Lemma delete_first_selected f l1 u l2 :
  f u = true -> (forall v, In v l1 -> f v = false) ->
  delete_first f (l1 ++ u :: l2) = (l1 ++ l2, 1%nat).
Proof.
  intros Hu. induction l1 as [|w l1 IH]; intros Hl1; cbn.
  - rewrite Hu. reflexivity.
  - rewrite (Hl1 w (or_introl eq_refl)), IH; [reflexivity|].
    intros v Hv. apply Hl1. right. exact Hv.
Qed.

Lemma delete_first_nothing f db :
  (forall v, In v db -> f v = false) -> delete_first f db = (db, 0%nat).
Proof.
  induction db as [|w db IH]; intros Hn; cbn; [reflexivity|].
  rewrite (Hn w (or_introl eq_refl)), IH; [reflexivity|].
  intros v Hv. apply Hn. right. exact Hv.
Qed.

(** In a collection without two records of one identifier, the records
    around the first one with an identifier do not have it. *)
Lemma NoDup_ID_others l1 (u : User) l2 :
  NoDup (map models.ID (l1 ++ u :: l2)) ->
  forall v, In v (l1 ++ l2) -> models.ID v <> models.ID u.
Proof.
  rewrite map_app. cbn [map]. intros Hnd v Hv E.
  apply NoDup_remove_2 in Hnd. apply Hnd. rewrite <- map_app, <- E.
  apply in_map. exact Hv.
Qed.

Lemma ObjectIDFromHex_not_empty s id : primitive.ObjectIDFromHex s = Some id -> s <> ""%string.
Proof. intros H ->. discriminate. Qed.

End Store_facts.

(** ** Administration: who may call it, deleting, changing a role *)

Section Administration.
Context `{External}.
Import http mongo driver responses auth_service.
Local Open Scope string_scope.

Let forbidden : Result :=
  server_handlers.failed "Forbidden: Admin access required" StatusForbidden.

(** X15.  The administration handlers of the single-binary server run
    behind the token gate only, and check the role themselves: a request
    that passed the gate with a token whose role is a string other than
    [admin] is answered 403 by [ListUsers], [DeleteUser] and
    [UpdateUserRole], whatever its body and query, and the store is left as
    it was. *)
Theorem server_administration_needs_admin cfg world faults db (tok : jwt.Token) role
        (p l : string) (rl : Request unit)
        (rd : Request server_handlers.DeleteUserRequest)
        (ru : Request server_handlers.UpdateUserRoleRequest) :
  index (jwt.Claims tok) "role" = VString role -> role <> "admin" ->
  server_handlers.ListUsers cfg world faults db p l (with_claims rl tok) = Ended forbidden /\
  server_handlers.DeleteUser faults db (with_claims rd tok) = (forbidden, db) /\
  server_handlers.UpdateUserRole world db (with_claims ru tok) = (forbidden, db).
Proof.
  intros Hrole Hne. apply String.eqb_neq in Hne.
  unfold server_handlers.ListUsers, server_handlers.DeleteUser,
    server_handlers.UpdateUserRole, with_claims.
  cbn [Ctx WithContext WithValue CtxValue String.eqb Ascii.eqb Bool.eqb].
  rewrite Hrole, Hne. repeat split; reflexivity.
Qed.

Let deleted : Result := Reply (WriteJSON [("message", "User deleted successfully")]).

(** X16.  [DeleteUser], in the admin service and (for an administrator) in
    the single-binary server, removes the first record with the given
    identifier and nothing else, and answers 200; when no record has the
    identifier it answers 404 and the store is as it was. *)
Theorem DeleteUser_removes_one_record faults db idStr id (a : Request unit)
        (r : Request server_handlers.DeleteUserRequest) claims :
  deleteFault faults = None ->
  primitive.ObjectIDFromHex idStr = Some id ->
  CtxValue (Ctx r) "claims" = AClaims claims ->
  index claims "role" = VString "admin" ->
  ReqBody r = Some {| server_handlers.UserID := idStr |} ->
  (exists l1 u l2,
     db = (l1 ++ u :: l2)%list /\ models.ID u = id /\
     (forall v, In v l1 -> models.ID v <> id) /\
     admin_service.DeleteUser faults db idStr a = (deleted, (l1 ++ l2)%list) /\
     server_handlers.DeleteUser faults db r = (deleted, (l1 ++ l2)%list))
  \/
  ((forall v, In v db -> models.ID v <> id) /\
   admin_service.DeleteUser faults db idStr a
     = (Reply (Error "User not found" StatusNotFound), db) /\
   server_handlers.DeleteUser faults db r
     = (server_handlers.failed "User not found" StatusNotFound, db)).
Proof.
  intros Hf Hid Hctx Hrole Hbody.
  pose proof (@ObjectIDFromHex_not_empty _ _ Hid) as Hne. apply String.eqb_neq in Hne.
  unfold admin_service.DeleteUser, server_handlers.DeleteUser.
  rewrite Hctx, Hrole, Hbody. cbn [server_handlers.UserID]. rewrite Hne, !Hid.
  cbn [String.eqb Ascii.eqb Bool.eqb negb].
  unfold DeleteOne. rewrite Hf.
  destruct (first_selected (by_id id) db) as [[l1 [u [l2 [E [Hu Hl1]]]]]|Hnone].
  - left. exists l1, u, l2. split; [exact E|]. split; [apply by_id_true; exact Hu|].
    split; [intros v Hv; apply by_id_false; exact (Hl1 v Hv)|].
    rewrite E, (@delete_first_selected _ _ _ _ Hu Hl1). split; reflexivity.
  - right. split; [intros v Hv; apply by_id_false; exact (Hnone v Hv)|].
    rewrite (@delete_first_nothing _ _ Hnone). split; reflexivity.
Qed.

(** X17.  Once [DeleteUser] has answered 200 on a store without two
    records of one identifier, the user is gone: deleting the identifier
    again answers 404, the profile of the identifier is not found, and, the
    lookup keys being distinct too, a login under the address of the
    deleted record answers 401. *)
Theorem deleted_user_is_gone cfg faults db idStr (a : Request unit) db' :
  NoDup (map models.ID db) ->
  NoDup (map models.EmailHash db) ->
  admin_service.DeleteUser faults db idStr a = (deleted, db') ->
  exists u,
    In u db /\ primitive.ObjectIDFromHex idStr = Some (models.ID u) /\
    (forall v, In v db' -> In v db /\ models.ID v <> models.ID u) /\
    (forall faults', deleteFault faults' = None ->
       admin_service.DeleteUser faults' db' idStr a
         = (Reply (Error "User not found" StatusNotFound), db')) /\
    (forall world (g : Request unit) key,
       findFault world = None ->
       CtxValue (Ctx g) "userID" = AValue (VString idStr) ->
       CtxValue (Ctx g) "encryptionKey" = AValue (VString key) ->
       user_service.GetUserProfile world db' g
         = Ended (Reply (Error "User not found" StatusNotFound))) /\
    (forall world (l : Request LoginRequest) password,
       findFault world = None ->
       ReqBody l = Some {| LoginEmail := models.EmailHash u; LoginPassword := password |} ->
       Login cfg world db' l = Error "Invalid credentials" StatusUnauthorized).
Proof.
  intros Hids Hkeys Hdel. unfold admin_service.DeleteUser in Hdel.
  destruct (primitive.ObjectIDFromHex idStr) as [id|] eqn:Hid; [|discriminate].
  unfold DeleteOne in Hdel. destruct (deleteFault faults); [discriminate|].
  destruct (first_selected (by_id id) db) as [[l1 [u [l2 [E [Hu Hl1]]]]]|Hnone].
  2:{ rewrite (@delete_first_nothing _ _ Hnone) in Hdel. discriminate. }
  subst db. rewrite (@delete_first_selected _ _ _ _ Hu Hl1) in Hdel. cbn [Nat.eqb] in Hdel.
  injection Hdel as <-.
  apply by_id_true in Hu. subst id.
  pose proof (@NoDup_ID_others _ _ _ Hids) as Hothers.
  assert (Hnone : forall v, In v (l1 ++ l2) -> by_id (models.ID u) v = false)
    by (intros v Hv; apply by_id_false; exact (Hothers v Hv)).
  exists u. split; [apply in_elt|]. split; [reflexivity|].
  split; [|split; [|split]].
  - intros v Hv. split; [|exact (Hothers v Hv)].
    apply in_app_or in Hv. apply in_or_app.
    destruct Hv; [left|right; right]; assumption.
  - intros faults' Hf'. unfold admin_service.DeleteUser. rewrite Hid. unfold DeleteOne.
    rewrite Hf', (@delete_first_nothing _ _ Hnone). reflexivity.
  - intros world g key Hw Hg Hk. unfold user_service.GetUserProfile.
    rewrite Hg, Hid. unfold FindOne. rewrite Hw, (@find_nothing _ _ Hnone). reflexivity.
  - intros world l password Hw Hl. unfold Login. rewrite Hl. cbn [LoginEmail].
    unfold FindOne. rewrite Hw.
    rewrite find_nothing; [reflexivity|].
    intros v Hv. unfold by_email_hash. apply String.eqb_neq. intros Ev.
    rewrite map_app in Hkeys. cbn [map] in Hkeys. apply NoDup_remove_2 in Hkeys.
    apply Hkeys. rewrite <- map_app, <- Ev. apply in_map. exact Hv.
Qed.

(** X18.  [UpdateUserRole], in the admin service and in the single-binary
    server, takes the roles [user] and [admin] only: a request that asks
    for another role, the empty one included, is answered 400 and the store
    is left as it was, whether a record has the identifier or not. *)
Theorem UpdateUserRole_refuses_other_roles world db idStr role
        (a : Request admin_service.UpdateRoleRequest)
        (r : Request server_handlers.UpdateUserRoleRequest) claims :
  role <> "user" -> role <> "admin" ->
  ReqBody a = Some {| admin_service.Role := role |} ->
  CtxValue (Ctx r) "claims" = AClaims claims ->
  index claims "role" = VString "admin" ->
  ReqBody r = Some {| server_handlers.RoleUserID := idStr; server_handlers.Role := role |} ->
  (exists msg, admin_service.UpdateUserRole world db idStr a
               = (Reply (Error msg StatusBadRequest), db)) /\
  (exists msg, server_handlers.UpdateUserRole world db r
               = (server_handlers.failed msg StatusBadRequest, db)).
Proof.
  intros Hu Ha Hbody Hctx Hrole Hreq. apply String.eqb_neq in Hu, Ha.
  unfold admin_service.UpdateUserRole, server_handlers.UpdateUserRole.
  rewrite Hbody, Hctx, Hrole, Hreq.
  cbn [admin_service.Role server_handlers.Role server_handlers.RoleUserID
       String.eqb Ascii.eqb Bool.eqb negb].
  rewrite Hu, Ha. cbn [negb andb]. split.
  - destruct (primitive.ObjectIDFromHex idStr); eexists; reflexivity.
  - destruct (String.eqb idStr "" || String.eqb role ""); eexists; reflexivity.
Qed.

Let role_updated : Result :=
  Reply (WriteJSON [("message", "User role updated successfully")]).

(** X19.  [UpdateUserRole] with the role [user] or [admin], in the admin
    service and (for an administrator) in the single-binary server, sets
    the role and the modification time of the first record with the
    identifier and changes nothing else, and answers 200; when no record
    has the identifier it answers 404 and the store is as it was. *)
Theorem UpdateUserRole_changes_one_record world db idStr id role
        (a : Request admin_service.UpdateRoleRequest)
        (r : Request server_handlers.UpdateUserRoleRequest) claims :
  role = "user" \/ role = "admin" ->
  updateFault world = None ->
  primitive.ObjectIDFromHex idStr = Some id ->
  ReqBody a = Some {| admin_service.Role := role |} ->
  CtxValue (Ctx r) "claims" = AClaims claims ->
  index claims "role" = VString "admin" ->
  ReqBody r = Some {| server_handlers.RoleUserID := idStr; server_handlers.Role := role |} ->
  (exists l1 u l2,
     let u' := {| models.ID := models.ID u; models.EmailHash := models.EmailHash u;
                  models.Email := models.Email u; models.Password := models.Password u;
                  models.Role := role; models.CreatedAt := models.CreatedAt u;
                  models.UpdatedAt := Now world |} in
     db = (l1 ++ u :: l2)%list /\ models.ID u = id /\
     (forall v, In v l1 -> models.ID v <> id) /\
     admin_service.UpdateUserRole world db idStr a = (role_updated, (l1 ++ u' :: l2)%list) /\
     server_handlers.UpdateUserRole world db r = (role_updated, (l1 ++ u' :: l2)%list))
  \/
  ((forall v, In v db -> models.ID v <> id) /\
   admin_service.UpdateUserRole world db idStr a
     = (Reply (Error "User not found" StatusNotFound), db) /\
   server_handlers.UpdateUserRole world db r
     = (server_handlers.failed "User not found" StatusNotFound, db)).
Proof.
  intros Hvalid Hf Hid Hbody Hctx Hrole Hreq.
  pose proof (@ObjectIDFromHex_not_empty _ _ Hid) as Hne. apply String.eqb_neq in Hne.
  assert (Hcheck : negb (String.eqb role "user") && negb (String.eqb role "admin") = false)
    by (destruct Hvalid as [-> | ->]; reflexivity).
  assert (Hempty : String.eqb role "" = false)
    by (destruct Hvalid as [-> | ->]; reflexivity).
  unfold admin_service.UpdateUserRole, server_handlers.UpdateUserRole.
  rewrite Hbody, Hctx, Hrole, Hreq.
  cbn [admin_service.Role server_handlers.Role server_handlers.RoleUserID].
  rewrite !Hid, Hne, Hempty, Hcheck. cbn [String.eqb Ascii.eqb Bool.eqb negb orb].
  unfold UpdateOne. rewrite Hf.
  destruct (first_selected (by_id id) db) as [[l1 [u [l2 [E [Hu Hl1]]]]]|Hnone].
  - left. exists l1, u, l2. cbv zeta. split; [exact E|].
    split; [apply by_id_true; exact Hu|].
    split; [intros v Hv; apply by_id_false; exact (Hl1 v Hv)|].
    rewrite E, (@update_first_selected _ _ _ _ _ Hu Hl1). split; reflexivity.
  - right. split; [intros v Hv; apply by_id_false; exact (Hnone v Hv)|].
    rewrite (@update_first_nothing _ _ _ Hnone). split; reflexivity.
Qed.

End Administration.

(** ** Invariants of the store across the handlers *)

Section Store_invariants.
Context `{External}.
Import http mongo driver responses auth_service.
Local Open Scope string_scope.

Lemma update_first_Forall (P : User -> Prop) f patch db :
  (forall u, P u -> P (patch u)) -> Forall P db -> Forall P (fst (update_first f patch db)).
Proof.
  intros Hp. induction db as [|w db IH]; intros Hall; cbn; [constructor|].
  inversion Hall as [|? ? Hw Hdb]; subst.
  destruct (f w); cbn [fst]; [constructor; auto|].
  specialize (IH Hdb). destruct (update_first f patch db) as [rest n]. cbn [fst] in *.
  constructor; assumption.
Qed.

Lemma delete_first_Forall (P : User -> Prop) f db :
  Forall P db -> Forall P (fst (delete_first f db)).
Proof.
  induction db as [|w db IH]; intros Hall; cbn; [constructor|].
  inversion Hall as [|? ? Hw Hdb]; subst.
  destruct (f w); cbn [fst]; [assumption|].
  specialize (IH Hdb). destruct (delete_first f db) as [rest n]. cbn [fst] in *.
  constructor; assumption.
Qed.

Lemma UpdateOne_Forall (P : User -> Prop) fault f patch db :
  (forall u, P u -> P (patch u)) -> Forall P db ->
  Forall P (fst (fst (UpdateOne fault db f patch))).
Proof.
  intros Hp Hall. unfold UpdateOne. destruct fault; [exact Hall|].
  pose proof (update_first_Forall f patch Hp Hall) as Hu.
  destruct (update_first f patch db). exact Hu.
Qed.

Lemma DeleteOne_Forall (P : User -> Prop) fault f db :
  Forall P db -> Forall P (fst (fst (DeleteOne fault db f))).
Proof.
  intros Hall. unfold DeleteOne. destruct fault; [exact Hall|].
  pose proof (delete_first_Forall f Hall) as Hu.
  destruct (delete_first f db). exact Hu.
Qed.

(** The end of the profile update of the single-binary server keeps what
    its patch keeps. *)
Lemma updatePassword_Forall (P : User -> Prop) world db userID req rand update :
  (forall u, P u -> P (update u)) ->
  (forall h u, P u -> P (handlers.set_password h u)) ->
  Forall P db -> Forall P (snd (handlers.updatePassword world db userID req rand update)).
Proof.
  intros Hu Hs Hall. unfold handlers.updatePassword.
  destruct (negb _).
  - destruct (bcrypt.GenerateFromPassword _ _ _) as [hp [e|]]; [exact Hall|].
    pose proof (@UpdateOne_Forall P (updateFault world) (by_id userID)
                  (fun u => handlers.set_password (to_string hp) (update u)) db
                  (fun u Pu => Hs _ _ (Hu u Pu)) Hall) as HU.
    destruct (UpdateOne _ _ _ _) as [[db' n] [e|]]; cbn [fst snd] in *; [exact HU|].
    destruct (n =? 0)%nat; exact HU.
  - pose proof (@UpdateOne_Forall P (updateFault world) (by_id userID) update db Hu Hall)
      as HU.
    destruct (UpdateOne _ _ _ _) as [[db' n] [e|]]; cbn [fst snd] in *; [exact HU|].
    destruct (n =? 0)%nat; exact HU.
Qed.

Lemma UpdateUserProfile_Forall (P : User -> Prop) cfg world db
      (r : Request handlers.UpdateProfileRequest) :
  (forall t u, P u -> P (handlers.set_updated_at t u)) ->
  (forall c h u, P u -> P (handlers.set_email c h u)) ->
  (forall h u, P u -> P (handlers.set_password h u)) ->
  Forall P db -> Forall P (snd (handlers.UpdateUserProfile cfg world db r)).
Proof.
  intros Ht He Hp Hall. unfold handlers.UpdateUserProfile.
  destruct (CtxValue _ _); [exact Hall|].
  destruct (index _ _); try exact Hall.
  destruct (primitive.ObjectIDFromHex _); [|exact Hall].
  destruct (ReqBody r) as [req|]; [|exact Hall].
  destruct (negb _).
  - destruct (utils.Encrypt _ _ _) as [ct [e|]]; [exact Hall|].
    destruct (CountDocuments _ _ _) as [count [e|]]; [exact Hall|].
    destruct (0 <? count)%nat; [exact Hall|].
    apply updatePassword_Forall; auto.
  - apply updatePassword_Forall; auto.
Qed.

(** X20.  Every record of the store has the role [user] or [admin], and
    every handler that writes to the store keeps it so: registration and
    admin registration, the role and profile updates and the deletions of
    the services and of the single-binary server, whatever the request and
    the outcome. *)
Theorem roles_stay_valid cfg world faults db idStr
        (r1 : Request RegisterRequest) (r2 : Request AdminRegisterRequest)
        (r3 : Request server_handlers.UpdateUserRoleRequest)
        (r4 : Request admin_service.UpdateRoleRequest)
        (r5 : Request server_handlers.DeleteUserRequest) (r6 : Request unit)
        (r7 : Request handlers.UpdateProfileRequest)
        (r8 : Request user_service.UpdateProfileRequest) :
  let valid := Forall (fun u => models.Role u = "user" \/ models.Role u = "admin") in
  valid db ->
  valid (snd (Register cfg world db r1)) /\
  valid (snd (AdminRegister cfg world db r2)) /\
  valid (snd (server_handlers.UpdateUserRole world db r3)) /\
  valid (snd (admin_service.UpdateUserRole world db idStr r4)) /\
  valid (snd (server_handlers.DeleteUser faults db r5)) /\
  valid (snd (admin_service.DeleteUser faults db idStr r6)) /\
  valid (snd (handlers.UpdateUserProfile cfg world db r7)) /\
  valid (snd (user_service.UpdateUserProfile world db r8)).
Proof.
  intros valid Hall. unfold valid in *.
  assert (Happ : forall u, (models.Role u = "user" \/ models.Role u = "admin") ->
                   Forall (fun u => models.Role u = "user" \/ models.Role u = "admin")
                          (db ++ [u])).
  { intros u Hu. apply Forall_app. split; [exact Hall|]. constructor; [exact Hu|constructor]. }
  split; [|split; [|split; [|split; [|split; [|split; [|split]]]]]].
  - unfold Register. destruct (ReqBody r1) as [req|]; [|exact Hall].
    destruct (FindOne _ _ _); try exact Hall.
    destruct (bcrypt.GenerateFromPassword _ _ _) as [hp [e|]]; [exact Hall|].
    destruct (utils.Encrypt _ _ _) as [ct [e|]]; [exact Hall|].
    unfold InsertOne. destruct (insertFault world); [exact Hall|].
    cbn [snd]. apply Happ. cbn [models.Role].
    destruct (String.eqb (Role req) "admin"); auto.
  - unfold AdminRegister. destruct (ReqBody r2) as [req|]; [|exact Hall].
    destruct (FindOne _ _ _); try exact Hall.
    destruct (bcrypt.GenerateFromPassword _ _ _) as [hp [e|]]; [exact Hall|].
    destruct (utils.Encrypt _ _ _) as [ct [e|]]; [exact Hall|].
    unfold InsertOne. destruct (insertFault world); [exact Hall|].
    cbn [snd]. apply Happ. right. reflexivity.
  - unfold server_handlers.UpdateUserRole.
    destruct (CtxValue _ _); [exact Hall|].
    destruct (index _ _); try exact Hall.
    destruct (negb _); [exact Hall|].
    destruct (ReqBody r3) as [req|]; [|exact Hall].
    destruct (_ || _); [exact Hall|].
    destruct (negb (String.eqb (server_handlers.Role req) "user")
              && negb (String.eqb (server_handlers.Role req) "admin")) eqn:Hrole;
      [exact Hall|].
    destruct (primitive.ObjectIDFromHex _) as [userID|]; [|exact Hall].
    assert (Hp : forall u, (models.Role u = "user" \/ models.Role u = "admin") ->
                   models.Role (server_handlers.set_role (server_handlers.Role req)
                                  (Now world) u) = "user" \/
                   models.Role (server_handlers.set_role (server_handlers.Role req)
                                  (Now world) u) = "admin").
    { intros u _. cbn [models.Role server_handlers.set_role].
      apply andb_false_iff in Hrole.
      destruct Hrole as [Hr|Hr]; apply negb_false_iff, String.eqb_eq in Hr; auto. }
    pose proof (@UpdateOne_Forall _ (updateFault world) (by_id userID) _ db Hp Hall) as HU.
    destruct (UpdateOne _ _ _ _) as [[db' n] [e|]]; cbn [fst snd] in *; [exact HU|].
    destruct (n =? 0)%nat; exact HU.
  - unfold admin_service.UpdateUserRole.
    destruct (primitive.ObjectIDFromHex _) as [userID|]; [|exact Hall].
    destruct (ReqBody r4) as [req|]; [|exact Hall].
    destruct (negb (String.eqb (admin_service.Role req) "user")
              && negb (String.eqb (admin_service.Role req) "admin")) eqn:Hrole;
      [exact Hall|].
    assert (Hp : forall u, (models.Role u = "user" \/ models.Role u = "admin") ->
                   models.Role (server_handlers.set_role (admin_service.Role req)
                                  (Now world) u) = "user" \/
                   models.Role (server_handlers.set_role (admin_service.Role req)
                                  (Now world) u) = "admin").
    { intros u _. cbn [models.Role server_handlers.set_role].
      apply andb_false_iff in Hrole.
      destruct Hrole as [Hr|Hr]; apply negb_false_iff, String.eqb_eq in Hr; auto. }
    pose proof (@UpdateOne_Forall _ (updateFault world) (by_id userID) _ db Hp Hall) as HU.
    destruct (UpdateOne _ _ _ _) as [[db' n] [e|]]; cbn [fst snd] in *; [exact HU|].
    destruct (n =? 0)%nat; exact HU.
  - unfold server_handlers.DeleteUser.
    destruct (CtxValue _ _); [exact Hall|].
    destruct (index _ _); try exact Hall.
    destruct (negb _); [exact Hall|].
    destruct (ReqBody r5) as [req|]; [|exact Hall].
    destruct (String.eqb _ _); [exact Hall|].
    destruct (primitive.ObjectIDFromHex _) as [userID|]; [|exact Hall].
    pose proof (@DeleteOne_Forall _ (deleteFault faults) (by_id userID) db Hall) as HD.
    destruct (DeleteOne _ _ _) as [[db' n] [e|]]; cbn [fst snd] in *; [exact HD|].
    destruct (n =? 0)%nat; exact HD.
  - unfold admin_service.DeleteUser.
    destruct (primitive.ObjectIDFromHex _) as [userID|]; [|exact Hall].
    pose proof (@DeleteOne_Forall _ (deleteFault faults) (by_id userID) db Hall) as HD.
    destruct (DeleteOne _ _ _) as [[db' n] [e|]]; cbn [fst snd] in *; [exact HD|].
    destruct (n =? 0)%nat; exact HD.
  - apply UpdateUserProfile_Forall; auto.
  - unfold user_service.UpdateUserProfile.
    destruct (ReqBody r8) as [req|]; [|exact Hall].
    destruct (CtxValue _ "userID") as [[| userIDStr | | | |]|]; try exact Hall.
    destruct (primitive.ObjectIDFromHex _) as [userID|]; [|exact Hall].
    destruct (CtxValue _ "encryptionKey") as [[| key | | | |]|]; try exact Hall.
    destruct (utils.Encrypt _ _ _) as [ct [e|]]; [exact Hall|].
    assert (Hp : forall u, (models.Role u = "user" \/ models.Role u = "admin") ->
                   models.Role (user_service.set_profile ct (user_service.Email req)
                                  (Now world) u) = "user" \/
                   models.Role (user_service.set_profile ct (user_service.Email req)
                                  (Now world) u) = "admin")
      by (intros u Pu; exact Pu).
    pose proof (@UpdateOne_Forall _ (updateFault world) (by_id userID) _ db Hp Hall) as HU.
    destruct (UpdateOne _ _ _ _) as [[db' n] [e|]]; cbn [fst snd] in *; [exact HU|].
    destruct (n =? 0)%nat; exact HU.
Qed.

(** What a filter finds after an update that does not touch what it
    filters on, when it found the updated record before. *)
Lemma find_update_first (f g : User -> bool) patch db u :
  (forall v, g (patch v) = g v) ->
  find f db = Some u -> find g db = Some u ->
  find g (fst (update_first f patch db)) = Some (patch u).
Proof.
  intros Hg. induction db as [|w db IH]; cbn; [discriminate|].
  destruct (f w) eqn:Fw.
  - intros E. injection E as ->. cbn [fst find]. rewrite Hg.
    destruct (g u) eqn:Gu; [reflexivity|].
    intros Hfind. apply find_some in Hfind. destruct Hfind as [_ Hgu]. congruence.
  - intros Hf. destruct (g w) eqn:Gw.
    + intros E. injection E as ->. apply find_some in Hf. destruct Hf as [_ Hfu]. congruence.
    + intros Hgf. specialize (IH Hf Hgf).
      destruct (update_first f patch db) as [rest n]. cbn [fst find] in *.
      rewrite Gw. exact IH.
Qed.

(** X21.  A change of role by the admin service reaches the admin login
    at once: for a record that is the first with its identifier and the
    first with its lookup key, after [UpdateUserRole] has set the role
    [user] the admin login under its address answers 403 whatever the
    password, and after it has set [admin] the admin login answers what
    the regular login answers. *)
Theorem role_change_reaches_AdminLogin cfg world db idStr id role
        (a : Request admin_service.UpdateRoleRequest) db' u world'
        (l : Request LoginRequest) req :
  primitive.ObjectIDFromHex idStr = Some id ->
  ReqBody a = Some {| admin_service.Role := role |} ->
  admin_service.UpdateUserRole world db idStr a
    = (Reply (WriteJSON [("message", "User role updated successfully")]), db') ->
  find (by_id id) db = Some u ->
  find (by_email_hash (LoginEmail req)) db = Some u ->
  ReqBody l = Some req ->
  findFault world' = None ->
  (role = "user" \/ role = "admin") /\
  (role = "user" ->
   AdminLogin cfg world' db' l = Error "Access denied: Admin only" StatusForbidden) /\
  (role = "admin" -> AdminLogin cfg world' db' l = Login cfg world' db' l).
Proof.
  intros Hid Hbody Hupd Hfid Hfkey Hl Hw.
  unfold admin_service.UpdateUserRole in Hupd. rewrite Hid, Hbody in Hupd.
  cbn [admin_service.Role] in Hupd.
  destruct (negb (String.eqb role "user") && negb (String.eqb role "admin")) eqn:Hrole;
    [discriminate|].
  assert (Hvalid : role = "user" \/ role = "admin").
  { apply andb_false_iff in Hrole.
    destruct Hrole as [Hr|Hr]; apply negb_false_iff, String.eqb_eq in Hr; auto. }
  unfold UpdateOne in Hupd. destruct (updateFault world); [discriminate|].
  pose proof (@find_update_first (by_id id) (by_email_hash (LoginEmail req))
                (server_handlers.set_role role (Now world)) db u
                (fun v => eq_refl) Hfid Hfkey) as Hfound.
  destruct (update_first _ _ db) as [db0 n]. cbn [fst] in Hfound.
  destruct (n =? 0)%nat; [discriminate|]. injection Hupd as <-.
  split; [exact Hvalid|].
  unfold AdminLogin, Login, AdminLoginRequest. rewrite Hl. unfold FindOne.
  rewrite Hw, Hfound. cbn [models.Role server_handlers.set_role].
  split; intros ->; reflexivity.
Qed.

End Store_invariants.

(** ** Profiles: reading what was registered, and changing the address *)

Section Identifiers.

Lemma hex_length b : String.length (hex b) = (2 * length b)%nat.
Proof. induction b as [|a b IH]; cbn [hex String.length length]; [reflexivity|]. lia. Qed.

Lemma hex_one (a : byte) :
  let h := hexdigit (N.shiftr (N_of_byte a) 4) in
  let l := hexdigit (N.land (N_of_byte a) 15) in
  byte_of_N (16 * hexval h + hexval l) = a /\
  primitive.is_hex h = true /\ primitive.is_hex l = true.
Proof. destruct a as [[] [] [] [] [] [] [] []]; repeat split; vm_compute; reflexivity. Qed.

Lemma unhex_hex b : unhex (hex b) = b.
Proof.
  induction b as [|a b IH]; [reflexivity|].
  destruct (hex_one a) as [Ha _].
  change (unhex (hex (a :: b)))
    with (byte_of_N (16 * hexval (hexdigit (N.shiftr (N_of_byte a) 4))
                     + hexval (hexdigit (N.land (N_of_byte a) 15))) :: unhex (hex b)).
  rewrite Ha, IH. reflexivity.
Qed.

Lemma hex_is_hex b : forallb primitive.is_hex (list_ascii_of_string (hex b)) = true.
Proof.
  induction b as [|a b IH]; [reflexivity|].
  destruct (hex_one a) as [_ [Hh Hl]].
  change (forallb primitive.is_hex (list_ascii_of_string (hex (a :: b))))
    with (primitive.is_hex (hexdigit (N.shiftr (N_of_byte a) 4))
          && (primitive.is_hex (hexdigit (N.land (N_of_byte a) 15))
              && forallb primitive.is_hex (list_ascii_of_string (hex b)))).
  rewrite Hh, Hl, IH. reflexivity.
Qed.

(** The hexadecimal form of a 12-byte identifier reads back. *)
Lemma ObjectIDFromHex_Hex (id : primitive.ObjectID) :
  length id = 12%nat -> primitive.ObjectIDFromHex (primitive.Hex id) = Some id.
Proof.
  intros Hl. unfold primitive.ObjectIDFromHex, primitive.Hex.
  rewrite hex_length, Hl, hex_is_hex, unhex_hex. reflexivity.
Qed.

End Identifiers.

Section Profiles.
Context `{External}.
Import utils http mongo driver responses auth_service.
Local Open Scope string_scope.

(** X22.  The profile shows what was registered.  After a registration
    that stored a record under a fresh 12-byte identifier, a request that
    passed the gate with a token for that identifier gets, from
    [GetUserProfile] of the user service and of the single-binary server,
    the identifier in hexadecimal, the address as it was registered, the
    role and the registration time. *)
Theorem profile_shows_registration cfg world db (r : Request RegisterRequest) req u
        world' (tok : jwt.Token) (g : Request unit) :
  ReqBody r = Some req ->
  snd (Register cfg world db r) = (db ++ [u])%list ->
  length (NewObjectID world) = 12%nat ->
  (forall v, In v db -> models.ID v <> NewObjectID world) ->
  index (jwt.Claims tok) "userID" = VString (primitive.Hex (NewObjectID world)) ->
  findFault world' = None ->
  let profile :=
    {| responses.ID := primitive.Hex (NewObjectID world);
       responses.Email := Email req;
       responses.Role := if String.eqb (Role req) "admin" then "admin" else "user";
       responses.CreatedAt := Now world;
       responses.UpdatedAt := Now world |} in
  user_service.GetUserProfile world' (db ++ [u])%list (with_principal cfg g tok) = Wrote profile /\
  server_handlers.GetUserProfile cfg world' (db ++ [u])%list (with_claims g tok) = Wrote profile.
Proof.
  intros Hreq Hsnd Hlen Hfresh Htok Hw profile.
  destruct (@Register_appended _ cfg world db r req u Hreq Hsnd)
    as [_ [_ [_ [token [HE Hu]]]]].
  destruct (@Encrypt_ok_key _ _ _ _ HE) as [Hk Hr].
  destruct (@Encrypt_Decrypt _ (Email req) _ Hk Hr) as [token' [HE' HD]].
  rewrite HE in HE'. injection HE' as <-.
  assert (Hfind : find (by_id (NewObjectID world)) (db ++ [u])%list = Some u).
  { apply find_app_new.
    - apply find_nothing. intros v Hv. apply by_id_false. exact (Hfresh v Hv).
    - apply by_id_true. rewrite Hu. reflexivity. }
  unfold user_service.GetUserProfile, server_handlers.GetUserProfile,
    with_principal, with_claims.
  cbn [Ctx WithContext WithValue CtxValue String.eqb Ascii.eqb Bool.eqb].
  rewrite Htok, (ObjectIDFromHex_Hex _ Hlen). unfold FindOne. rewrite Hw, Hfind.
  replace (models.Email u) with token by (rewrite Hu; reflexivity).
  rewrite HD. unfold profile. rewrite Hu. split; reflexivity.
Qed.

(** What [UpdateUserProfile] of the user service does to the first record
    with the identifier of the request. *)
Lemma service_profile_update world (r : Request user_service.UpdateProfileRequest)
      idStr key email l1 u l2 :
  ReqBody r = Some {| user_service.Email := email |} ->
  CtxValue (Ctx r) "userID" = AValue (VString idStr) ->
  CtxValue (Ctx r) "encryptionKey" = AValue (VString key) ->
  primitive.ObjectIDFromHex idStr = Some (models.ID u) ->
  (forall v, In v l1 -> models.ID v <> models.ID u) ->
  String.length key = 32%nat ->
  (AES.BlockSize <= length (Rand world))%nat ->
  updateFault world = None ->
  exists token,
    Encrypt (Rand world) email key = (token, None) /\
    Decrypt token key = (email, None) /\
    user_service.UpdateUserProfile world (l1 ++ u :: l2)%list r
      = (Reply (WriteJSON [("message", "Profile updated successfully")]),
         (l1 ++ {| models.ID := models.ID u; models.EmailHash := email;
                   models.Email := token; models.Password := models.Password u;
                   models.Role := models.Role u; models.CreatedAt := models.CreatedAt u;
                   models.UpdatedAt := Now world |} :: l2)%list).
Proof.
  intros Hbody Hid Hkey Hhex Hl1 Hk Hr Hf.
  destruct (@Encrypt_Decrypt (Rand world) email key Hk Hr) as [token [HE HD]].
  exists token. split; [exact HE|]. split; [exact HD|].
  unfold user_service.UpdateUserProfile.
  rewrite Hbody, Hid, Hhex, Hkey. cbn [user_service.Email]. rewrite HE.
  unfold UpdateOne. rewrite Hf.
  rewrite update_first_selected.
  - reflexivity.
  - apply by_id_true. reflexivity.
  - intros v Hv. apply by_id_false. exact (Hl1 v Hv).
Qed.

(** X23.  [UpdateUserProfile] of the user service stores the new address
    itself as the lookup key, as registration does, with its ciphertext,
    and keeps identifier, password digest and role: afterwards a login
    under the new address, when no earlier record has it, is checked
    against the password digest of the updated record. *)
Theorem service_profile_update_moves_the_lookup_key cfg world
        (r : Request user_service.UpdateProfileRequest) idStr key email l1 u l2
        world' (l : Request LoginRequest) password :
  ReqBody r = Some {| user_service.Email := email |} ->
  CtxValue (Ctx r) "userID" = AValue (VString idStr) ->
  CtxValue (Ctx r) "encryptionKey" = AValue (VString key) ->
  primitive.ObjectIDFromHex idStr = Some (models.ID u) ->
  (forall v, In v l1 -> models.ID v <> models.ID u) ->
  String.length key = 32%nat ->
  (AES.BlockSize <= length (Rand world))%nat ->
  updateFault world = None ->
  (forall v, In v l1 -> models.EmailHash v <> email) ->
  ReqBody l = Some {| LoginEmail := email; LoginPassword := password |} ->
  findFault world' = None ->
  exists token,
    let u' := {| models.ID := models.ID u; models.EmailHash := email;
                 models.Email := token; models.Password := models.Password u;
                 models.Role := models.Role u; models.CreatedAt := models.CreatedAt u;
                 models.UpdatedAt := Now world |} in
    Decrypt token key = (email, None) /\
    user_service.UpdateUserProfile world (l1 ++ u :: l2)%list r
      = (Reply (WriteJSON [("message", "Profile updated successfully")]),
         (l1 ++ u' :: l2)%list) /\
    Login cfg world' (l1 ++ u' :: l2)%list l
      = match bcrypt.CompareHashAndPassword (of_string (models.Password u))
                                            (of_string password) with
        | Some _ => Error "Invalid credentials" StatusUnauthorized
        | None => issue cfg world' u'
        end.
Proof.
  intros Hbody Hid Hkey Hhex Hl1 Hk Hr Hf Hnew Hl Hw.
  destruct (@service_profile_update world r idStr key email l1 u l2
              Hbody Hid Hkey Hhex Hl1 Hk Hr Hf) as [token [_ [HD HU]]].
  exists token. cbv zeta. split; [exact HD|]. split; [exact HU|].
  unfold Login. rewrite Hl. cbn [LoginEmail LoginPassword]. unfold FindOne. rewrite Hw.
  rewrite find_first.
  - reflexivity.
  - apply by_email_hash_true. reflexivity.
  - intros v Hv. unfold by_email_hash. apply String.eqb_neq. exact (Hnew v Hv).
Qed.

(** X24.  [UpdateUserProfile] of the user service does not check that the
    new address is free: when another record already has it as its lookup
    key the update still answers 200, and the lookup keys of the store are
    no longer distinct. *)
Theorem service_profile_update_can_duplicate_a_key world
        (r : Request user_service.UpdateProfileRequest) idStr key email l1 u l2 v :
  ReqBody r = Some {| user_service.Email := email |} ->
  CtxValue (Ctx r) "userID" = AValue (VString idStr) ->
  CtxValue (Ctx r) "encryptionKey" = AValue (VString key) ->
  primitive.ObjectIDFromHex idStr = Some (models.ID u) ->
  (forall w, In w l1 -> models.ID w <> models.ID u) ->
  String.length key = 32%nat ->
  (AES.BlockSize <= length (Rand world))%nat ->
  updateFault world = None ->
  In v (l1 ++ l2)%list -> models.EmailHash v = email ->
  exists db',
    user_service.UpdateUserProfile world (l1 ++ u :: l2)%list r
      = (Reply (WriteJSON [("message", "Profile updated successfully")]), db') /\
    ~ NoDup (map models.EmailHash db').
Proof.
  intros Hbody Hid Hkey Hhex Hl1 Hk Hr Hf Hv Hve.
  destruct (@service_profile_update world r idStr key email l1 u l2
              Hbody Hid Hkey Hhex Hl1 Hk Hr Hf) as [token [_ [_ HU]]].
  eexists. split; [exact HU|].
  rewrite map_app. cbn [map models.EmailHash]. intros Hnd.
  apply NoDup_remove_2 in Hnd. apply Hnd. rewrite <- map_app, <- Hve.
  apply in_map. exact Hv.
Qed.

Lemma update_first_keys f patch db :
  (forall u, models.EmailHash (patch u) = models.EmailHash u) ->
  map models.EmailHash (fst (update_first f patch db)) = map models.EmailHash db.
Proof.
  intros Hp. induction db as [|w db IH]; cbn; [reflexivity|].
  destruct (f w); cbn [fst map]; [rewrite Hp; reflexivity|].
  destruct (update_first f patch db) as [rest n]. cbn [fst map] in *. rewrite IH. reflexivity.
Qed.

Lemma filter_nil_none {A} (f : A -> bool) l :
  length (filter f l) = 0%nat -> forall x, In x l -> f x = false.
Proof.
  intros Hl x Hx. destruct (f x) eqn:E; [|reflexivity].
  assert (Hin : In x (filter f l)) by (apply filter_In; auto).
  destruct (filter f l); [destruct Hin|discriminate].
Qed.

(** What [UpdateOne] by identifier does to the lookup keys when the patch
    sets none, or sets one that no record of another identifier has. *)
Lemma UpdateOne_keys_distinct fault id patch db :
  NoDup (map models.ID db) ->
  NoDup (map models.EmailHash db) ->
  (forall u, models.EmailHash (patch u) = models.EmailHash u) \/
  (exists h, (forall u, models.EmailHash (patch u) = h) /\
             forall v, In v db -> models.ID v <> id -> models.EmailHash v <> h) ->
  NoDup (map models.EmailHash (fst (fst (UpdateOne fault db (by_id id) patch)))).
Proof.
  intros Hids Hkeys Hpatch. unfold UpdateOne. destruct fault; [exact Hkeys|].
  destruct Hpatch as [Hsame | [h [Hset Hfree]]].
  - pose proof (@update_first_keys (by_id id) patch db Hsame) as E.
    destruct (update_first _ _ db). cbn [fst] in *. rewrite E. exact Hkeys.
  - destruct (first_selected (by_id id) db) as [[l1 [u [l2 [E [Hu Hl1]]]]]|Hnone].
    + subst db. rewrite (@update_first_selected _ patch _ _ l2 Hu Hl1). cbn [fst].
      apply by_id_true in Hu. subst id.
      pose proof (@NoDup_ID_others _ _ _ Hids) as Hothers.
      rewrite map_app in *. cbn [map] in *. rewrite Hset.
      apply NoDup_remove_1 in Hkeys.
      apply (NoDup_Add (Add_app h (map models.EmailHash l1) (map models.EmailHash l2))).
      split; [exact Hkeys|].
      rewrite <- map_app. intros Hin. apply in_map_iff in Hin.
      destruct Hin as [v [Hvh Hv]].
      refine (Hfree v _ (Hothers v Hv) Hvh).
      apply in_app_or in Hv. apply in_or_app. destruct Hv; [left|right; right]; assumption.
    + rewrite (@update_first_nothing _ patch _ Hnone). exact Hkeys.
Qed.

(** X25.  [UpdateUserProfile] of the single-binary server keeps the lookup
    keys of the store distinct: on a store without two records of one
    identifier or of one lookup key, no two records share a lookup key
    afterwards, whatever the request and the outcome. *)
Theorem server_profile_update_keeps_keys_distinct cfg world db
        (r : Request handlers.UpdateProfileRequest) :
  NoDup (map models.ID db) ->
  NoDup (map models.EmailHash db) ->
  NoDup (map models.EmailHash (snd (handlers.UpdateUserProfile cfg world db r))).
Proof.
  intros Hids Hkeys.
  assert (Hend : forall userID req rand update,
            (forall u, models.EmailHash (update u) = models.EmailHash u) \/
            (exists h, (forall u, models.EmailHash (update u) = h) /\
                       forall v, In v db -> models.ID v <> userID ->
                                 models.EmailHash v <> h) ->
            NoDup (map models.EmailHash
                     (snd (handlers.updatePassword world db userID req rand update)))).
  { intros userID req rand update Hupd. unfold handlers.updatePassword.
    destruct (negb _).
    - destruct (bcrypt.GenerateFromPassword _ _ _) as [hp [e|]]; [exact Hkeys|].
      pose proof (@UpdateOne_keys_distinct (updateFault world) userID
                    (fun u => handlers.set_password (to_string hp) (update u)) db
                    Hids Hkeys Hupd) as HU.
      destruct (UpdateOne _ _ _ _) as [[db' n] [e|]]; cbn [fst snd] in *; [exact HU|].
      destruct (n =? 0)%nat; exact HU.
    - pose proof (@UpdateOne_keys_distinct (updateFault world) userID update db
                    Hids Hkeys Hupd) as HU.
      destruct (UpdateOne _ _ _ _) as [[db' n] [e|]]; cbn [fst snd] in *; [exact HU|].
      destruct (n =? 0)%nat; exact HU. }
  unfold handlers.UpdateUserProfile.
  destruct (CtxValue _ _); [exact Hkeys|].
  destruct (index _ _); try exact Hkeys.
  destruct (primitive.ObjectIDFromHex _) as [userID|]; [|exact Hkeys].
  destruct (ReqBody r) as [req|]; [|exact Hkeys].
  destruct (negb _).
  - destruct (Encrypt _ _ _) as [ct [e|]]; [exact Hkeys|].
    unfold CountDocuments. destruct (countFault world); [exact Hkeys|].
    destruct (0 <? _)%nat eqn:Hcount; [exact Hkeys|].
    apply Hend. right. exists (HashEmail (handlers.Email req)).
    split; [reflexivity|].
    intros v Hv Hid Hh. apply Nat.ltb_ge in Hcount.
    assert (Hzero : length (filter (fun u => by_email_hash (HashEmail (handlers.Email req)) u
                                             && negb (by_id userID u)) db) = 0%nat) by lia.
    pose proof (filter_nil_none _ _ Hzero v Hv) as Hf. cbn beta in Hf.
    apply by_email_hash_true in Hh. apply by_id_false in Hid.
    rewrite Hh, Hid in Hf. discriminate.
  - apply Hend. left. reflexivity.
Qed.

End Profiles.

(** ** Listings *)

Section Listings.
Import utils http mongo driver responses.
Local Open Scope string_scope.

Lemma userResponses_shows key : forall users l,
  userResponses key users = Some l -> Forall2 (shows key) users l.
Proof.
  induction users as [|u users IH]; cbn [userResponses]; intros l Hl.
  - injection Hl as <-. constructor.
  - destruct (Decrypt (models.Email u) key) as [email [e|]] eqn:HD; [discriminate|].
    destruct (userResponses key users) as [tl|]; [|discriminate].
    injection Hl as <-. constructor; [|apply IH; reflexivity].
    unfold shows. cbn. rewrite HD. repeat split; reflexivity.
Qed.

Lemma userResponses_all key : forall users,
  (forall u, In u users -> snd (Decrypt (models.Email u) key) = None) ->
  exists l, userResponses key users = Some l.
Proof.
  induction users as [|u users IH]; intros Hall; cbn [userResponses]; [eexists; reflexivity|].
  pose proof (Hall u (or_introl eq_refl)) as Hu.
  destruct (Decrypt (models.Email u) key) as [email [e|]]; [discriminate|].
  destruct IH as [tl ->]; [intros v Hv; apply Hall; right; exact Hv|].
  eexists; reflexivity.
Qed.

Lemma userResponses_one_fails key : forall users u,
  In u users -> snd (Decrypt (models.Email u) key) <> None ->
  userResponses key users = None.
Proof.
  induction users as [|w users IH]; intros u Hin Hu; [destruct Hin|].
  cbn [userResponses]. destruct Hin as [->|Hin].
  - destruct (Decrypt (models.Email u) key) as [email [e|]]; [reflexivity|].
    exfalso. apply Hu. reflexivity.
  - rewrite (IH u Hin Hu). destruct (Decrypt (models.Email w) key) as [email [e|]]; reflexivity.
Qed.

(** X26.  [ListUsers] of the admin service lists every record or none:
    with the store answering, it writes one entry per record, in the order
    of the store, each with the identifier, role and times of its record
    and the address as [Decrypt] returns it under the key of the context,
    when every stored ciphertext decrypts; and it answers 500 without any
    entry as soon as one does not. *)
Theorem service_listing_is_all_or_nothing faults db (r : Request unit) key :
  listFault faults = None ->
  cursorFault faults = None ->
  CtxValue (Ctx r) "encryptionKey" = AValue (VString key) ->
  ((forall u, In u db -> snd (Decrypt (models.Email u) key) = None) ->
   exists l, admin_service.ListUsers faults db r = Wrote l /\ Forall2 (shows key) db l) /\
  ((exists u, In u db /\ snd (Decrypt (models.Email u) key) <> None) ->
   admin_service.ListUsers faults db r
     = Ended (Reply (Error "Failed to decrypt data" StatusInternalServerError))).
Proof.
  intros Hl Hc Hkey. unfold admin_service.ListUsers, Find, All. rewrite Hl, Hc.
  cbn [Z.ltb Z.compare Z.to_nat skipn]. split.
  - intros Hall. destruct (userResponses_all key db Hall) as [l Hresp].
    exists l. split; [|apply userResponses_shows; exact Hresp].
    destruct db as [|u db]; [cbn in Hresp; injection Hresp as <-; reflexivity|].
    rewrite Hkey, Hresp. reflexivity.
  - intros [u [Hin Hu]]. destruct db as [|w db]; [destruct Hin|].
    rewrite Hkey, (userResponses_one_fails key _ u Hin Hu). reflexivity.
Qed.

Lemma insert_desc_In u : forall sorted v, In v (insert_desc u sorted) <-> v = u \/ In v sorted.
Proof.
  induction sorted as [|w sorted IH]; intros v; cbn [insert_desc].
  - cbn. intuition congruence.
  - destruct (models.CreatedAt w <=? models.CreatedAt u)%Z.
    + cbn. intuition congruence.
    + cbn [In]. rewrite IH. intuition congruence.
Qed.

Lemma insert_desc_length u : forall sorted,
  length (insert_desc u sorted) = S (length sorted).
Proof.
  induction sorted as [|w sorted IH]; cbn [insert_desc]; [reflexivity|].
  destruct (_ <=? _)%Z; cbn [length]; [reflexivity|]. rewrite IH. reflexivity.
Qed.

Lemma insert_desc_sorted u : forall sorted,
  StronglySorted newer_first sorted -> StronglySorted newer_first (insert_desc u sorted).
Proof.
  induction sorted as [|w sorted IH]; intros Hs; cbn [insert_desc].
  - repeat constructor.
  - inversion Hs as [|? ? Hrest Hw]; subst.
    destruct (models.CreatedAt w <=? models.CreatedAt u)%Z eqn:E.
    + apply Z.leb_le in E. constructor; [exact Hs|].
      constructor; [exact E|].
      rewrite Forall_forall in *. intros v Hv. specialize (Hw v Hv).
      unfold newer_first in *. lia.
    + apply Z.leb_gt in E. constructor; [apply IH; exact Hrest|].
      rewrite Forall_forall in *. intros v Hv. apply insert_desc_In in Hv.
      destruct Hv as [->|Hv]; [unfold newer_first; lia|exact (Hw v Hv)].
Qed.

Lemma sort_desc_facts db :
  StronglySorted newer_first (sort_desc db) /\
  length (sort_desc db) = length db /\
  forall v, In v (sort_desc db) <-> In v db.
Proof.
  unfold sort_desc. induction db as [|u db [Hs [Hl Hin]]]; cbn [fold_right].
  - split; [constructor|]. split; [reflexivity|]. intros v; reflexivity.
  - split; [apply insert_desc_sorted; exact Hs|].
    split; [rewrite insert_desc_length, Hl; reflexivity|].
    intros v. rewrite insert_desc_In, Hin. cbn. intuition congruence.
Qed.

Lemma In_firstn {A} n : forall (l : list A) x, In x (firstn n l) -> In x l.
Proof.
  induction n as [|n IH]; intros l x Hx; [destruct Hx|].
  destruct l as [|a l]; [destruct Hx|]. destruct Hx as [->|Hx]; [left; reflexivity|].
  right. apply IH. exact Hx.
Qed.

Lemma Forall2_In_r {A B} (R : A -> B -> Prop) l l' :
  Forall2 R l l' -> forall y, In y l' -> exists x, In x l /\ R x y.
Proof.
  induction 1 as [|x y0 l l' Hxy Hrest IH]; intros y Hy; [destruct Hy|].
  destruct Hy as [->|Hy].
  - exists x. split; [left; reflexivity|exact Hxy].
  - destruct (IH y Hy) as [x' [Hx' Hr]]. exists x'. split; [right; exact Hx'|exact Hr].
Qed.

Lemma filter_all {A} (l : list A) : length (filter (fun _ => true) l) = length l.
Proof. induction l as [|a l IH]; cbn; congruence. Qed.

Lemma StronglySorted_skipn {A} (R : A -> A -> Prop) n : forall l,
  StronglySorted R l -> StronglySorted R (skipn n l).
Proof.
  induction n as [|n IH]; intros l Hs; [exact Hs|].
  destruct l as [|a l]; [constructor|]. inversion Hs; subst. cbn. apply IH. assumption.
Qed.

Lemma StronglySorted_firstn {A} (R : A -> A -> Prop) n : forall l,
  StronglySorted R l -> StronglySorted R (firstn n l).
Proof.
  induction n as [|n IH]; intros l Hs; [constructor|].
  destruct l as [|a l]; [constructor|]. inversion Hs as [|? ? Hl Ha]; subst. cbn.
  constructor; [apply IH; exact Hl|].
  rewrite Forall_forall in *. intros v Hv. apply Ha. eapply In_firstn. exact Hv.
Qed.

Lemma In_skipn {A} n : forall (l : list A) x, In x (skipn n l) -> In x l.
Proof.
  induction n as [|n IH]; intros l x Hx; [exact Hx|].
  destruct l as [|a l]; [destruct Hx|]. right. apply IH. exact Hx.
Qed.

Lemma Forall2_sorted key : forall users l,
  Forall2 (shows key) users l ->
  StronglySorted newer_first users ->
  StronglySorted (fun x y => (responses.CreatedAt y <= responses.CreatedAt x)%Z) l.
Proof.
  induction 1 as [|u x users l Hux Hrest IH]; intros Hs; [constructor|].
  inversion Hs as [|? ? Hs' Hu]; subst. constructor; [apply IH; exact Hs'|].
  rewrite Forall_forall in *. intros y Hy.
  destruct (Forall2_In_r Hrest y Hy) as [v [Hv Hvy]].
  specialize (Hu v Hv). unfold newer_first in Hu.
  destruct Hux as [_ [_ [_ [Hc _]]]]. destruct Hvy as [_ [_ [_ [Hc' _]]]].
  rewrite Hc, Hc'. exact Hu.
Qed.

(** What [ListUsers] of the single-binary server went through when it
    wrote a page. *)
Lemma ListUsers_wrote cfg world faults db p l (r : Request unit) resp :
  server_handlers.ListUsers cfg world faults db p l r = Wrote resp ->
  let page := server_handlers.Page resp in
  let limit := server_handlers.Limit resp in
  let skip := wrap_int ((page - 1) * limit) in
  (1 <= page)%Z /\ (1 <= limit <= 100)%Z /\ (0 <= skip)%Z /\
  (limit = 10%Z \/ strconv.Atoi l = Some limit) /\
  (page = 1%Z \/ strconv.Atoi p = Some page) /\
  server_handlers.Total resp = Z.of_nat (length db) /\
  server_handlers.TotalPages resp = ((Z.of_nat (length db) + limit - 1) / limit)%Z /\
  Forall2 (shows (EncryptionKey cfg))
          (firstn (Z.to_nat limit) (skipn (Z.to_nat skip) (sort_desc db)))
          (server_handlers.Users resp).
Proof.
  unfold server_handlers.ListUsers.
  destruct (CtxValue _ _); [discriminate|].
  destruct (index _ _); try discriminate.
  match goal with |- context [negb (String.eqb ?role "admin")] =>
    destruct (negb (String.eqb role "admin")); [discriminate|] end.
  remember (if negb (String.eqb p "") then
              match strconv.Atoi p with
              | Some parsed => if (0 <? parsed)%Z then parsed else 1%Z
              | None => 1%Z
              end
            else 1%Z) as page eqn:Epage.
  remember (if negb (String.eqb l "") then
              match strconv.Atoi l with
              | Some parsed => if (0 <? parsed)%Z && (parsed <=? 100)%Z then parsed else 10%Z
              | None => 10%Z
              end
            else 10%Z) as limit eqn:Elimit.
  assert (Hpage : (1 <= page)%Z /\ (page = 1%Z \/ strconv.Atoi p = Some page)).
  { subst page. destruct (negb (String.eqb p "")); [|split; [lia|left; reflexivity]].
    destruct (strconv.Atoi p) as [n|]; [|split; [lia|left; reflexivity]].
    destruct (0 <? n)%Z eqn:E; [|split; [lia|left; reflexivity]].
    apply Z.ltb_lt in E. split; [lia|right; reflexivity]. }
  assert (Hlimit : (1 <= limit <= 100)%Z /\ (limit = 10%Z \/ strconv.Atoi l = Some limit)).
  { subst limit. destruct (negb (String.eqb l "")); [|split; [lia|left; reflexivity]].
    destruct (strconv.Atoi l) as [n|]; [|split; [lia|left; reflexivity]].
    destruct ((0 <? n)%Z && (n <=? 100)%Z) eqn:E; [|split; [lia|left; reflexivity]].
    apply andb_prop in E. destruct E as [E1 E2].
    apply Z.ltb_lt in E1. apply Z.leb_le in E2. split; [lia|right; reflexivity]. }
  clear Epage Elimit.
  unfold CountDocuments. destruct (countFault world); [discriminate|].
  unfold Find. destruct (listFault faults); [discriminate|].
  destruct (wrap_int ((page - 1) * limit) <? 0)%Z eqn:Hskip; [discriminate|].
  replace (limit =? 0)%Z with false by (symmetry; apply Z.eqb_neq; lia).
  unfold All. destruct (cursorFault faults); [discriminate|].
  destruct (userResponses _ _) as [responses|] eqn:Hresp; [|discriminate].
  intros E. injection E as <-.
  cbn [server_handlers.Page server_handlers.Limit server_handlers.Total
       server_handlers.TotalPages server_handlers.Users]. cbv zeta.
  apply Z.ltb_ge in Hskip.
  destruct Hpage as [Hp1 Hp2]. destruct Hlimit as [Hl1 Hl2].
  split; [exact Hp1|]. split; [exact Hl1|]. split; [exact Hskip|].
  split; [exact Hl2|]. split; [exact Hp2|].
  rewrite filter_all.
  split; [reflexivity|]. split; [reflexivity|].
  apply userResponses_shows.
  replace (Z.to_nat limit) with (Z.abs_nat limit) by (apply Zabs2Nat.abs_nat_nonneg; lia).
  exact Hresp.
Qed.

(** X27.  A page that [ListUsers] of the single-binary server writes
    keeps within its bounds: the page number is at least 1 and the limit
    between 1 and 100 (a limit outside this range is replaced by 10, not
    cut to 100), the total is the number of records, the number of pages is
    the total divided by the limit and rounded up, and the page holds at
    most [limit] entries; when [(page - 1) * limit] fits an [int] it holds
    exactly the records that are left after the earlier pages, up to
    [limit]. *)
Theorem listing_page_bounds cfg world faults db p l (r : Request unit) resp :
  server_handlers.ListUsers cfg world faults db p l r = Wrote resp ->
  let page := server_handlers.Page resp in
  let limit := server_handlers.Limit resp in
  let total := server_handlers.Total resp in
  let pages := server_handlers.TotalPages resp in
  let entries := Z.of_nat (length (server_handlers.Users resp)) in
  (1 <= page)%Z /\ (1 <= limit <= 100)%Z /\
  (limit = 10%Z \/ strconv.Atoi l = Some limit) /\
  total = Z.of_nat (length db) /\
  ((pages - 1) * limit < total <= pages * limit)%Z /\
  (entries <= limit)%Z /\
  ((page - 1) * limit < 2 ^ 63 ->
   entries = Z.min limit (Z.max 0 (total - (page - 1) * limit)))%Z.
Proof.
  intros Hw. destruct (ListUsers_wrote _ _ _ _ _ _ _ Hw)
    as [Hp [Hl [Hs [Hlim [_ [Ht [Hpages Hshows]]]]]]].
  cbv zeta in *.
  set (page := server_handlers.Page resp) in *.
  set (limit := server_handlers.Limit resp) in *.
  assert (Hlen : length (server_handlers.Users resp)
                 = length (firstn (Z.to_nat limit)
                             (skipn (Z.to_nat (wrap_int ((page - 1) * limit)))
                                    (sort_desc db))))
    by (symmetry; eapply Forall2_length; exact Hshows).
  destruct (sort_desc_facts db) as [_ [Hsl _]].
  rewrite length_firstn, length_skipn, Hsl in Hlen.
  split; [exact Hp|]. split; [exact Hl|]. split; [exact Hlim|]. split; [exact Ht|].
  split; [rewrite Hpages, Ht; nia|].
  split; [lia|].
  intros Hfit. rewrite Ht.
  assert (Hint : wrap_int ((page - 1) * limit) = ((page - 1) * limit)%Z).
  { unfold wrap_int. rewrite Z.mod_small; nia. }
  rewrite Hint in Hlen. lia.
Qed.

(** X28.  A page that [ListUsers] of the single-binary server writes is
    in the order newest first, and every entry shows a record of the
    store: its identifier, role and times, and its address as [Decrypt]
    returns it under the configured key. *)
Theorem listing_is_newest_first cfg world faults db p l (r : Request unit) resp :
  server_handlers.ListUsers cfg world faults db p l r = Wrote resp ->
  StronglySorted (fun x y => (responses.CreatedAt y <= responses.CreatedAt x)%Z)
                 (server_handlers.Users resp) /\
  forall x, In x (server_handlers.Users resp) ->
    exists u, In u db /\ shows (EncryptionKey cfg) u x.
Proof.
  intros Hw. destruct (ListUsers_wrote _ _ _ _ _ _ _ Hw)
    as [_ [_ [_ [_ [_ [_ [_ Hshows]]]]]]].
  cbv zeta in Hshows. destruct (sort_desc_facts db) as [Hsorted [_ Hin]].
  split.
  - eapply Forall2_sorted; [exact Hshows|].
    apply StronglySorted_firstn, StronglySorted_skipn. exact Hsorted.
  - intros x Hx. destruct (Forall2_In_r Hshows x Hx) as [u [Hu Hux]].
    exists u. split; [|exact Hux].
    apply Hin. eapply In_skipn. eapply In_firstn. exact Hu.
Qed.

End Listings.

(** ** Runs of the further properties on recorded inputs *)

Section Further_runs.
Import http mongo driver responses auth_service Recorded Scenes.
Local Open Scope string_scope.

(** *** Registration and login *)

Lemma Register_then_Login_witness :
  let r := register "a@x.com" "pw123456" "" in
  let l := login "a@x.com" "pw123456" in
  snd (Register cfg world [] r) = [alice] /\
  bcrypt_matches (bcrypt_hash (firstn bcrypt.maxSaltSize (Rand world))
                              (of_string "pw123456") bcrypt.DefaultCost)
                 (of_string "pw123456") = true /\
  findFault world = None /\
  utils.Decrypt (models.Email alice) (EncryptionKey cfg) = ("a@x.com", None) /\
  Login cfg world [alice] l = issue cfg world alice.
Proof.
  cbv zeta.
  assert (H1 : snd (Register cfg world [] (register "a@x.com" "pw123456" ""))
               = ([] ++ [alice])%list) by (vm_compute; reflexivity).
  assert (H2 : bcrypt_matches
                 (bcrypt_hash (firstn bcrypt.maxSaltSize (Rand world))
                    (of_string (Password {| Email := "a@x.com"; Password := "pw123456";
                                            Role := "" |})) bcrypt.DefaultCost)
                 (of_string (Password {| Email := "a@x.com"; Password := "pw123456";
                                         Role := "" |})) = true)
    by (vm_compute; reflexivity).
  split; [exact H1|]. split; [exact H2|]. split; [reflexivity|].
  pose proof (@Register_then_Login external cfg world [] (register "a@x.com" "pw123456" "")
                _ alice world (login "a@x.com" "pw123456") eq_refl H1 H2 eq_refl eq_refl)
    as [HD [HL _]].
  split; [exact HD|exact HL].
Defined.

Lemma Login_needs_the_password_witness :
  let l := login "a@x.com" "pw123456" in
  (StatusCode (Login cfg world [alice] l) = StatusOK \/
   StatusCode (AdminLogin cfg world [alice] l) = StatusOK) /\
  exists req user email ts,
    ReqBody l = Some req /\
    findFault world = None /\
    In user [alice] /\
    models.EmailHash user = LoginEmail req /\
    bcrypt_matches (of_string (models.Password user)) (of_string (LoginPassword req)) = true /\
    utils.Decrypt (models.Email user) (EncryptionKey cfg) = (email, None) /\
    (StatusCode (Login cfg world [alice] l) = StatusOK ->
     Login cfg world [alice] l = WriteJSON [("token", ts); ("role", models.Role user)]) /\
    (StatusCode (AdminLogin cfg world [alice] l) = StatusOK ->
     models.Role user = "admin" /\
     AdminLogin cfg world [alice] l = WriteJSON [("token", ts); ("role", "admin")]).
Proof.
  cbv zeta.
  assert (H1 : StatusCode (Login cfg world [alice] (login "a@x.com" "pw123456")) = StatusOK \/
               StatusCode (AdminLogin cfg world [alice] (login "a@x.com" "pw123456"))
               = StatusOK) by (left; vm_compute; reflexivity).
  split; [exact H1|].
  exact (@Login_needs_the_password external cfg world [alice]
           (login "a@x.com" "pw123456") H1).
Defined.

Lemma Register_long_password_witness :
  let r := register "a@x.com" long_password "" in
  let a := login "a@x.com" long_password in
  (72 < String.length long_password)%nat /\
  Register cfg world [bob] r
    = (Error "Failed to hash password" StatusInternalServerError, [bob]) /\
  AdminRegister cfg world [bob] a
    = (Error "Failed to hash password" StatusInternalServerError, [bob]).
Proof.
  cbv zeta.
  assert (Hlen : (72 < String.length long_password)%nat) by (vm_compute; lia).
  split; [exact Hlen|].
  pose proof (@Register_long_password external cfg world [bob]
                (register "a@x.com" long_password "") _
                (login "a@x.com" long_password) _ eq_refl Hlen eq_refl Hlen)
    as [[_ [HR1 HR2]] [_ [HA1 HA2]]].
  split.
  - rewrite (surjective_pairing (Register cfg world [bob] _)), HR1, (HR2 eq_refl).
    reflexivity.
  - rewrite (surjective_pairing (AdminRegister cfg world [bob] _)), HA1, (HA2 eq_refl).
    reflexivity.
Defined.

Lemma Register_keeps_keys_distinct_witness :
  let r := register "c@x.com" "pw123456" "" in
  let a := login "a@x.com" "admin123" in
  NoDup (map models.EmailHash [alice; bob]) /\
  NoDup (map models.EmailHash (snd (Register cfg world [alice; bob] r))) /\
  NoDup (map models.EmailHash (snd (AdminRegister cfg world [alice; bob] a))).
Proof.
  cbv zeta.
  assert (Hnd : NoDup (map models.EmailHash [alice; bob])).
  { cbn. constructor; [intros [E|[]]; discriminate|].
    constructor; [intros []|constructor]. }
  split; [exact Hnd|].
  exact (@Register_keeps_keys_distinct external cfg world [alice; bob]
           (register "c@x.com" "pw123456" "") (login "a@x.com" "admin123") Hnd).
Defined.

Lemma Load_takes_any_key_witness :
  let env := [("ENCRYPTION_KEY", "short-key")] in
  os.Getenv env "ENCRYPTION_KEY" = "short-key" /\
  "short-key" <> "" /\ String.length "short-key" <> 32%nat /\
  EncryptionKey (shared_config.Load env) = "short-key" /\
  StatusCode (fst (Register (shared_config.Load env) world []
                            (register "a@x.com" "pw123456" ""))) <> StatusOK /\
  StatusCode (Login (shared_config.Load env) world [alice] (login "a@x.com" "pw123456"))
    <> StatusOK.
Proof.
  cbv zeta.
  assert (H1 : "short-key" <> "") by discriminate.
  assert (H2 : String.length "short-key" <> 32%nat) by discriminate.
  split; [reflexivity|]. split; [exact H1|]. split; [exact H2|].
  pose proof (@Load_takes_any_key external [("ENCRYPTION_KEY", "short-key")] "short-key"
                eq_refl H1 H2) as [Hk Hall].
  split; [exact Hk|].
  destruct (Hall world [] (register "a@x.com" "pw123456" "") (login "a@x.com" "pw123456")
              (login "a@x.com" "pw123456")) as [[HR _] _].
  destruct (Hall world [alice] (register "a@x.com" "pw123456" "")
              (login "a@x.com" "pw123456") (login "a@x.com" "pw123456"))
    as [_ [_ [HL _]]].
  split; [exact HR|exact HL].
Defined.

(** *** The gate *)

Lemma gate_refuses_a_space_witness :
  let r := get ("bearer " ++ user_token) in
  let now := (t0 + time.Hour)%Z in
  In " "%char (list_ascii_of_string
                 (strings.TrimPrefix (Get (Header r) "Authorization") "Bearer ")) /\
  middleware.JWTAuthMiddleware cfg now whoami r
    = Reply (Error "Invalid token" StatusUnauthorized) /\
  microservices.JWTAuthMiddleware cfg now whoami r
    = Reply (Error "Invalid token" StatusUnauthorized).
Proof.
  cbv zeta.
  assert (Hin : In " "%char
                  (list_ascii_of_string
                     (strings.TrimPrefix
                        (Get (Header (get ("bearer " ++ user_token))) "Authorization")
                        "Bearer ")))
    by (vm_compute; do 6 right; left; reflexivity).
  split; [exact Hin|].
  exact (@gate_refuses_a_space external cfg (t0 + time.Hour)%Z unit whoami
           (get ("bearer " ++ user_token)) Hin).
Defined.

(** The JSON texts of the token without time claims read back. *)
Lemma HS512_round_trips :
  @json_round_trips Recorded_HS512.external Recorded_HS512.header /\
  @json_round_trips Recorded_HS512.external Recorded_HS512.claims.
Proof.
  assert (Rh : reads_back Recorded_HS512.header Recorded_HS512.header_read).
  { intros k. unfold Recorded_HS512.header, Recorded_HS512.header_read. cbn [lookup].
    repeat match goal with
           | |- context [String.eqb ?a k] => destruct (String.eqb_spec a k)
           end; subst; try discriminate; reflexivity. }
  assert (Rc : reads_back Recorded_HS512.claims Recorded_HS512.claims_read).
  { intros k. unfold Recorded_HS512.claims, Recorded_HS512.claims_read. cbn [lookup].
    repeat match goal with
           | |- context [String.eqb ?a k] => destruct (String.eqb_spec a k)
           end; subst; try discriminate; reflexivity. }
  split; intros b Hb.
  - assert (Hb' : b = text Recorded_HS512.header_segment)
      by (vm_compute in Hb; vm_compute; congruence).
    subst b. split; exists Recorded_HS512.header_read;
      (split; [vm_compute; reflexivity|exact Rh]).
  - assert (Hb' : b = text Recorded_HS512.claims_segment)
      by (vm_compute in Hb; vm_compute; congruence).
    subst b. split; exists Recorded_HS512.claims_read;
      (split; [vm_compute; reflexivity|exact Rc]).
Qed.

Lemma gate_accepts_token_without_expiry_witness :
  let ext := Recorded_HS512.external in
  let r := get ("Bearer " ++ Recorded_HS512.token) in
  let century := (100 * 365 * 24 * time.Hour)%Z in
  @jwt.SignedString ext (jwt.NewWithClaims jwt.SigningMethodHS512 Recorded_HS512.claims)
                    (of_string (JWTSecret cfg)) = (Recorded_HS512.token, None) /\
  lookup "exp" Recorded_HS512.claims = None /\
  exists tok,
    reads_back Recorded_HS512.claims (jwt.Claims tok) /\
    @middleware.JWTAuthMiddleware ext cfg (t0 + century)%Z unit whoami r
      = whoami (with_claims r tok) /\
    @microservices.JWTAuthMiddleware ext cfg (t0 + century)%Z unit whoami r
      = whoami (with_principal cfg r tok).
Proof.
  cbv zeta.
  assert (HS : @jwt.SignedString Recorded_HS512.external
                 (jwt.NewWithClaims jwt.SigningMethodHS512 Recorded_HS512.claims)
                 (of_string (JWTSecret cfg)) = (Recorded_HS512.token, None))
    by (vm_compute; reflexivity).
  split; [exact HS|]. split; [reflexivity|].
  exact (@gate_accepts_token_without_expiry Recorded_HS512.external cfg
           jwt.SigningMethodHS512 Recorded_HS512.claims Recorded_HS512.token HS
           (proj1 HS512_round_trips) (proj2 HS512_round_trips) eq_refl eq_refl eq_refl
           (t0 + 100 * 365 * 24 * time.Hour)%Z unit whoami
           (get ("Bearer " ++ Recorded_HS512.token)) eq_refl).
Defined.

(** The token without time claims, a century after it was made. *)
Example token_without_expiry_runs :
  let ext := Recorded_HS512.external in
  let century := (100 * 365 * 24 * time.Hour)%Z in
  @microservices.adminRoute ext cfg (t0 + century)%Z unit whoami
     (get ("Bearer " ++ Recorded_HS512.token))
  = Reply (WriteJSON [("role", "admin")]).
Proof. vm_compute. reflexivity. Qed.

End Further_runs.

Section Further_runs_of_the_handlers.
Import http mongo driver responses auth_service Recorded Scenes.
Local Open Scope string_scope.

(** *** Administration *)

(** The administration handlers of the single-binary server and of the
    admin service on a store of three users. *)
Example administration_runs :
  let db := [alice; bob; carol] in
  let admin {B} (b : B) := with_token (B := B) admin_claims (Some b) in
  server_handlers.DeleteUser quiet db
      (admin {| server_handlers.UserID := bobID |})
    = (Reply (WriteJSON [("message", "User deleted successfully")]), [alice; carol]) /\
  server_handlers.DeleteUser quiet db
      (admin {| server_handlers.UserID := "not-an-identifier" |})
    = (server_handlers.failed "Invalid user ID format" StatusBadRequest, db) /\
  admin_service.DeleteUser quiet [alice; carol] bobID (get "")
    = (Reply (Error "User not found" StatusNotFound), [alice; carol]) /\
  map models.Role
      (snd (admin_service.UpdateUserRole world db bobID
              (post {| admin_service.Role := "admin" |})))
    = ["user"; "admin"; "user"] /\
  server_handlers.UpdateUserRole world db
      (admin {| server_handlers.RoleUserID := bobID; server_handlers.Role := "root" |})
    = (server_handlers.failed "Invalid role. Must be 'user' or 'admin'" StatusBadRequest, db).
Proof. cbv zeta. repeat split; vm_compute; reflexivity. Qed.

Lemma server_administration_needs_admin_witness :
  let tok := passed (claims_read (VString "user")) in
  let db := [alice; bob] in
  let forbidden :=
    server_handlers.failed "Forbidden: Admin access required" StatusForbidden in
  index (jwt.Claims tok) "role" = VString "user" /\ "user" <> "admin" /\
  server_handlers.ListUsers cfg world quiet db "" "" (with_claims (get user_token) tok)
    = Ended forbidden /\
  server_handlers.DeleteUser quiet db
      (with_claims (post {| server_handlers.UserID := bobID |}) tok) = (forbidden, db) /\
  server_handlers.UpdateUserRole world db
      (with_claims (post {| server_handlers.RoleUserID := userID;
                            server_handlers.Role := "admin" |}) tok) = (forbidden, db).
Proof.
  cbv zeta.
  assert (Hne : "user" <> "admin") by discriminate.
  split; [reflexivity|]. split; [exact Hne|].
  exact (@server_administration_needs_admin cfg world quiet [alice; bob]
           (passed (claims_read (VString "user"))) "user" "" "" (get user_token)
           (post {| server_handlers.UserID := bobID |})
           (post {| server_handlers.RoleUserID := userID; server_handlers.Role := "admin" |})
           eq_refl Hne).
Defined.

Lemma DeleteUser_removes_one_record_witness :
  let db := [alice; bob] in
  let a := get "" in
  let r := with_token admin_claims (Some {| server_handlers.UserID := bobID |}) in
  let deleted := Reply (WriteJSON [("message", "User deleted successfully")]) in
  deleteFault quiet = None /\
  primitive.ObjectIDFromHex bobID = Some (unhex bobID) /\
  index admin_claims "role" = VString "admin" /\
  ((exists l1 u l2,
      db = (l1 ++ u :: l2)%list /\ models.ID u = unhex bobID /\
      (forall v, In v l1 -> models.ID v <> unhex bobID) /\
      admin_service.DeleteUser quiet db bobID a = (deleted, (l1 ++ l2)%list) /\
      server_handlers.DeleteUser quiet db r = (deleted, (l1 ++ l2)%list))
   \/
   ((forall v, In v db -> models.ID v <> unhex bobID) /\
    admin_service.DeleteUser quiet db bobID a
      = (Reply (Error "User not found" StatusNotFound), db) /\
    server_handlers.DeleteUser quiet db r
      = (server_handlers.failed "User not found" StatusNotFound, db))).
Proof.
  cbv zeta.
  assert (Hid : primitive.ObjectIDFromHex bobID = Some (unhex bobID))
    by (vm_compute; reflexivity).
  split; [reflexivity|]. split; [exact Hid|]. split; [reflexivity|].
  exact (@DeleteUser_removes_one_record quiet [alice; bob] bobID (unhex bobID) (get "")
           (with_token admin_claims (Some {| server_handlers.UserID := bobID |}))
           admin_claims eq_refl Hid eq_refl eq_refl eq_refl).
Defined.

Lemma distinct_alice_bob :
  NoDup (map models.ID [alice; bob]) /\ NoDup (map models.EmailHash [alice; bob]).
Proof.
  split; (constructor; [intros [E|[]]; vm_compute in E; discriminate|]);
    (constructor; [intros []|constructor]).
Qed.

Lemma deleted_user_is_gone_witness :
  let db := [alice; bob] in
  let deleted := Reply (WriteJSON [("message", "User deleted successfully")]) in
  NoDup (map models.ID db) /\ NoDup (map models.EmailHash db) /\
  admin_service.DeleteUser quiet db bobID (get "") = (deleted, [alice]) /\
  exists u,
    In u db /\ primitive.ObjectIDFromHex bobID = Some (models.ID u) /\
    admin_service.DeleteUser quiet [alice] bobID (get "")
      = (Reply (Error "User not found" StatusNotFound), [alice]) /\
    Login cfg world [alice]
          (post {| LoginEmail := models.EmailHash u; LoginPassword := "admin123" |})
      = Error "Invalid credentials" StatusUnauthorized.
Proof.
  cbv zeta. destruct distinct_alice_bob as [Hids Hkeys].
  assert (Hdel : admin_service.DeleteUser quiet [alice; bob] bobID (get "")
                 = (Reply (WriteJSON [("message", "User deleted successfully")]), [alice]))
    by (vm_compute; reflexivity).
  split; [exact Hids|]. split; [exact Hkeys|]. split; [exact Hdel|].
  destruct (@deleted_user_is_gone external cfg quiet [alice; bob] bobID (get "") [alice]
              Hids Hkeys Hdel) as [u [Hin [Hid [_ [Hagain [_ Hlogin]]]]]].
  exists u. split; [exact Hin|]. split; [exact Hid|].
  split; [exact (Hagain quiet eq_refl)|].
  exact (Hlogin world
           (post {| LoginEmail := models.EmailHash u; LoginPassword := "admin123" |})
           "admin123" eq_refl eq_refl).
Defined.

Lemma UpdateUserRole_refuses_other_roles_witness :
  let db := [alice; bob] in
  let a := post {| admin_service.Role := "root" |} in
  let r := with_token admin_claims
             (Some {| server_handlers.RoleUserID := bobID; server_handlers.Role := "root" |}) in
  "root" <> "user" /\ "root" <> "admin" /\
  index admin_claims "role" = VString "admin" /\
  (exists msg, admin_service.UpdateUserRole world db bobID a
               = (Reply (Error msg StatusBadRequest), db)) /\
  (exists msg, server_handlers.UpdateUserRole world db r
               = (server_handlers.failed msg StatusBadRequest, db)).
Proof.
  cbv zeta.
  assert (H1 : "root" <> "user") by discriminate.
  assert (H2 : "root" <> "admin") by discriminate.
  split; [exact H1|]. split; [exact H2|]. split; [reflexivity|].
  exact (@UpdateUserRole_refuses_other_roles world [alice; bob] bobID "root"
           (post {| admin_service.Role := "root" |})
           (with_token admin_claims
              (Some {| server_handlers.RoleUserID := bobID;
                       server_handlers.Role := "root" |}))
           admin_claims H1 H2 eq_refl eq_refl eq_refl eq_refl).
Defined.

Lemma UpdateUserRole_changes_one_record_witness :
  let db := [alice; bob] in
  let a := post {| admin_service.Role := "admin" |} in
  let r := with_token admin_claims
             (Some {| server_handlers.RoleUserID := bobID;
                      server_handlers.Role := "admin" |}) in
  let done := Reply (WriteJSON [("message", "User role updated successfully")]) in
  ("admin" = "user" \/ "admin" = "admin") /\
  updateFault world = None /\
  primitive.ObjectIDFromHex bobID = Some (unhex bobID) /\
  ((exists l1 u l2,
      let u' := {| models.ID := models.ID u; models.EmailHash := models.EmailHash u;
                   models.Email := models.Email u; models.Password := models.Password u;
                   models.Role := "admin"; models.CreatedAt := models.CreatedAt u;
                   models.UpdatedAt := Now world |} in
      db = (l1 ++ u :: l2)%list /\ models.ID u = unhex bobID /\
      (forall v, In v l1 -> models.ID v <> unhex bobID) /\
      admin_service.UpdateUserRole world db bobID a = (done, (l1 ++ u' :: l2)%list) /\
      server_handlers.UpdateUserRole world db r = (done, (l1 ++ u' :: l2)%list))
   \/
   ((forall v, In v db -> models.ID v <> unhex bobID) /\
    admin_service.UpdateUserRole world db bobID a
      = (Reply (Error "User not found" StatusNotFound), db) /\
    server_handlers.UpdateUserRole world db r
      = (server_handlers.failed "User not found" StatusNotFound, db))).
Proof.
  cbv zeta.
  assert (Hrole : "admin" = "user" \/ "admin" = "admin") by (right; reflexivity).
  assert (Hid : primitive.ObjectIDFromHex bobID = Some (unhex bobID))
    by (vm_compute; reflexivity).
  split; [exact Hrole|]. split; [reflexivity|]. split; [exact Hid|].
  exact (@UpdateUserRole_changes_one_record world [alice; bob] bobID (unhex bobID) "admin"
           (post {| admin_service.Role := "admin" |})
           (with_token admin_claims
              (Some {| server_handlers.RoleUserID := bobID;
                       server_handlers.Role := "admin" |}))
           admin_claims Hrole eq_refl Hid eq_refl eq_refl eq_refl eq_refl).
Defined.

Lemma roles_stay_valid_witness :
  let db := [alice; root] in
  let valid := Forall (fun u => models.Role u = "user" \/ models.Role u = "admin") in
  valid db /\
  valid (snd (Register cfg world db (register "c@x.com" "pw123456" "owner"))) /\
  valid (snd (admin_service.UpdateUserRole world db userID
                (post {| admin_service.Role := "admin" |}))) /\
  valid (snd (user_service.UpdateUserProfile world db
                (with_identity userID "user"
                   (Some {| user_service.Email := "new@x.com" |})))).
Proof.
  cbv zeta.
  assert (Hv : Forall (fun u => models.Role u = "user" \/ models.Role u = "admin")
                      [alice; root]).
  { constructor; [left; reflexivity|]. constructor; [right; reflexivity|constructor]. }
  split; [exact Hv|].
  pose proof (@roles_stay_valid external cfg world quiet [alice; root] userID
                (register "c@x.com" "pw123456" "owner") (login "c@x.com" "pw123456")
                (post {| server_handlers.RoleUserID := userID;
                         server_handlers.Role := "admin" |})
                (post {| admin_service.Role := "admin" |})
                (post {| server_handlers.UserID := userID |}) (get "")
                (profile_update userID "new@x.com")
                (with_identity userID "user" (Some {| user_service.Email := "new@x.com" |}))
                Hv) as [H1 [_ [_ [H4 [_ [_ [_ H8]]]]]]].
  split; [exact H1|]. split; [exact H4|exact H8].
Defined.

Lemma role_change_reaches_AdminLogin_witness :
  let db := [alice; root] in
  let a := post {| admin_service.Role := "user" |} in
  let db' := snd (admin_service.UpdateUserRole world db bobID a) in
  let l := login "b@x.com" "admin123" in
  admin_service.UpdateUserRole world db bobID a
    = (Reply (WriteJSON [("message", "User role updated successfully")]), db') /\
  find (by_id (unhex bobID)) db = Some root /\
  find (by_email_hash "b@x.com") db = Some root /\
  AdminLogin cfg world db l <> Error "Access denied: Admin only" StatusForbidden /\
  AdminLogin cfg world db' l = Error "Access denied: Admin only" StatusForbidden.
Proof.
  cbv zeta.
  assert (Hupd : admin_service.UpdateUserRole world [alice; root] bobID
                   (post {| admin_service.Role := "user" |})
                 = (Reply (WriteJSON [("message", "User role updated successfully")]),
                    snd (admin_service.UpdateUserRole world [alice; root] bobID
                           (post {| admin_service.Role := "user" |}))))
    by (vm_compute; reflexivity).
  assert (Hid : primitive.ObjectIDFromHex bobID = Some (unhex bobID))
    by (vm_compute; reflexivity).
  assert (Hf1 : find (by_id (unhex bobID)) [alice; root] = Some root)
    by (vm_compute; reflexivity).
  assert (Hf2 : find (by_email_hash
                        (LoginEmail {| LoginEmail := "b@x.com"; LoginPassword := "admin123" |}))
                     [alice; root] = Some root) by (vm_compute; reflexivity).
  split; [exact Hupd|]. split; [exact Hf1|]. split; [exact Hf2|].
  split; [vm_compute; discriminate|].
  exact (proj1 (proj2 (@role_change_reaches_AdminLogin external cfg world [alice; root]
                         bobID (unhex bobID) "user"
                         (post {| admin_service.Role := "user" |}) _ root world
                         (login "b@x.com" "admin123") _ Hid eq_refl Hupd Hf1 Hf2
                         eq_refl eq_refl)) eq_refl).
Defined.

(** *** Profiles *)

Example profile_runs :
  user_service.GetUserProfile world [alice; bob] (with_identity bobID "user" None)
    = Wrote {| responses.ID := bobID; responses.Email := "b@x.com";
               responses.Role := "user"; responses.CreatedAt := t0;
               responses.UpdatedAt := t0 |} /\
  user_service.GetUserProfile world [alice] (with_identity bobID "user" None)
    = Ended (Reply (Error "User not found" StatusNotFound)) /\
  server_handlers.GetUserProfile cfg world [alice; bob]
      (with_token [("userID", VFloat64 5)] None)
    = Ended (Panic handlers.panicConversion) /\
  map models.EmailHash
      (snd (user_service.UpdateUserProfile world [alice; bob]
              (with_identity bobID "user" (Some {| user_service.Email := "" |}))))
    = ["a@x.com"; ""].
Proof. repeat split; vm_compute; reflexivity. Qed.

Lemma profile_shows_registration_witness :
  let r := register "a@x.com" "pw123456" "" in
  let tok := passed (claims_read (VString "user")) in
  let profile :=
    {| responses.ID := userID; responses.Email := "a@x.com"; responses.Role := "user";
       responses.CreatedAt := t0; responses.UpdatedAt := t0 |} in
  snd (Register cfg world [bob] r) = [bob; alice] /\
  length (NewObjectID world) = 12%nat /\
  (forall v, In v [bob] -> models.ID v <> NewObjectID world) /\
  index (jwt.Claims tok) "userID" = VString (primitive.Hex (NewObjectID world)) /\
  user_service.GetUserProfile world [bob; alice] (with_principal cfg (get user_token) tok)
    = Wrote profile /\
  server_handlers.GetUserProfile cfg world [bob; alice] (with_claims (get user_token) tok)
    = Wrote profile.
Proof.
  cbv zeta.
  assert (H1 : snd (Register cfg world [bob] (register "a@x.com" "pw123456" ""))
               = ([bob] ++ [alice])%list) by (vm_compute; reflexivity).
  assert (H2 : length (NewObjectID world) = 12%nat) by (vm_compute; reflexivity).
  assert (H3 : forall v, In v [bob] -> models.ID v <> NewObjectID world)
    by (intros v [<-|[]]; vm_compute; discriminate).
  assert (H4 : index (jwt.Claims (passed (claims_read (VString "user")))) "userID"
               = VString (primitive.Hex (NewObjectID world))) by (vm_compute; reflexivity).
  split; [exact H1|]. split; [exact H2|]. split; [exact H3|]. split; [exact H4|].
  exact (@profile_shows_registration external cfg world [bob]
           (register "a@x.com" "pw123456" "") _ alice world
           (passed (claims_read (VString "user"))) (get user_token)
           eq_refl H1 H2 H3 H4 eq_refl).
Defined.

Lemma service_profile_update_moves_the_lookup_key_witness :
  let r := with_identity bobID "user" (Some {| user_service.Email := "new@x.com" |}) in
  let l := login "new@x.com" "admin123" in
  primitive.ObjectIDFromHex bobID = Some (models.ID bob) /\
  (forall v, In v [alice] -> models.ID v <> models.ID bob) /\
  String.length (EncryptionKey cfg) = 32%nat /\
  (AES.BlockSize <= length (Rand world))%nat /\
  (forall v, In v [alice] -> models.EmailHash v <> "new@x.com") /\
  exists token,
    let bob' := {| models.ID := models.ID bob; models.EmailHash := "new@x.com";
                   models.Email := token; models.Password := models.Password bob;
                   models.Role := models.Role bob; models.CreatedAt := models.CreatedAt bob;
                   models.UpdatedAt := Now world |} in
    utils.Decrypt token (EncryptionKey cfg) = ("new@x.com", None) /\
    user_service.UpdateUserProfile world [alice; bob] r
      = (Reply (WriteJSON [("message", "Profile updated successfully")]), [alice; bob']) /\
    Login cfg world [alice; bob'] l
      = match bcrypt.CompareHashAndPassword (of_string (models.Password bob))
                                            (of_string "admin123") with
        | Some _ => Error "Invalid credentials" StatusUnauthorized
        | None => issue cfg world bob'
        end.
Proof.
  cbv zeta.
  assert (H1 : primitive.ObjectIDFromHex bobID = Some (models.ID bob))
    by (vm_compute; reflexivity).
  assert (H2 : forall v, In v [alice] -> models.ID v <> models.ID bob)
    by (intros v [<-|[]]; vm_compute; discriminate).
  assert (H3 : (AES.BlockSize <= length (Rand world))%nat) by (vm_compute; lia).
  assert (H4 : forall v, In v [alice] -> models.EmailHash v <> "new@x.com")
    by (intros v [<-|[]]; discriminate).
  split; [exact H1|]. split; [exact H2|]. split; [reflexivity|]. split; [exact H3|].
  split; [exact H4|].
  exact (@service_profile_update_moves_the_lookup_key external cfg world
           (with_identity bobID "user" (Some {| user_service.Email := "new@x.com" |}))
           bobID (EncryptionKey cfg) "new@x.com" [alice] bob [] world
           (login "new@x.com" "admin123") "admin123"
           eq_refl eq_refl eq_refl H1 H2 eq_refl H3 eq_refl H4 eq_refl eq_refl).
Defined.

Lemma service_profile_update_can_duplicate_a_key_witness :
  let r := with_identity bobID "user" (Some {| user_service.Email := "a@x.com" |}) in
  primitive.ObjectIDFromHex bobID = Some (models.ID bob) /\
  (forall w, In w [alice] -> models.ID w <> models.ID bob) /\
  (AES.BlockSize <= length (Rand world))%nat /\
  In alice ([alice] ++ []) /\ models.EmailHash alice = "a@x.com" /\
  exists db',
    user_service.UpdateUserProfile world [alice; bob] r
      = (Reply (WriteJSON [("message", "Profile updated successfully")]), db') /\
    ~ NoDup (map models.EmailHash db').
Proof.
  cbv zeta.
  assert (H1 : primitive.ObjectIDFromHex bobID = Some (models.ID bob))
    by (vm_compute; reflexivity).
  assert (H2 : forall w, In w [alice] -> models.ID w <> models.ID bob)
    by (intros v [<-|[]]; vm_compute; discriminate).
  assert (H3 : (AES.BlockSize <= length (Rand world))%nat) by (vm_compute; lia).
  assert (H4 : In alice ([alice] ++ [])) by (left; reflexivity).
  split; [exact H1|]. split; [exact H2|]. split; [exact H3|]. split; [exact H4|].
  split; [reflexivity|].
  exact (@service_profile_update_can_duplicate_a_key world
           (with_identity bobID "user" (Some {| user_service.Email := "a@x.com" |}))
           bobID (EncryptionKey cfg) "a@x.com" [alice] bob [] alice
           eq_refl eq_refl eq_refl H1 H2 eq_refl H3 eq_refl H4 eq_refl).
Defined.

Lemma server_profile_update_keeps_keys_distinct_witness :
  let db := [alice; bob] in
  NoDup (map models.ID db) /\ NoDup (map models.EmailHash db) /\
  NoDup (map models.EmailHash
           (snd (handlers.UpdateUserProfile cfg world db (profile_update bobID "a@x.com")))).
Proof.
  cbv zeta. destruct distinct_alice_bob as [Hids Hkeys].
  split; [exact Hids|]. split; [exact Hkeys|].
  exact (@server_profile_update_keeps_keys_distinct external cfg world [alice; bob]
           (profile_update bobID "a@x.com") Hids Hkeys).
Defined.

(** *** Listings *)

Example listing_runs :
  let db := [alice; bob; carol] in
  let r := with_token admin_claims None in
  let entry id email created :=
    {| responses.ID := id; responses.Email := email; responses.Role := "user";
       responses.CreatedAt := created; responses.UpdatedAt := created |} in
  let later := (t0 + time.Hour)%Z in
  server_handlers.ListUsers cfg world quiet db "" "" r
    = Wrote {| server_handlers.Users :=
                 [entry carolID "c@x.com" later; entry userID "a@x.com" t0;
                  entry bobID "b@x.com" t0];
               server_handlers.Total := 3; server_handlers.Page := 1;
               server_handlers.Limit := 10; server_handlers.TotalPages := 1 |} /\
  server_handlers.ListUsers cfg world quiet db "2" "2" r
    = Wrote {| server_handlers.Users := [entry bobID "b@x.com" t0];
               server_handlers.Total := 3; server_handlers.Page := 2;
               server_handlers.Limit := 2; server_handlers.TotalPages := 2 |} /\
  server_handlers.ListUsers cfg world quiet db "-1" "1000" r
    = server_handlers.ListUsers cfg world quiet db "" "" r /\
  server_handlers.ListUsers cfg world quiet db "9223372036854775807" "100" r
    = Ended (server_handlers.failed "Failed to fetch users" StatusInternalServerError) /\
  admin_service.ListUsers quiet db (with_identity bobID "admin" None)
    = Wrote [entry userID "a@x.com" t0; entry bobID "b@x.com" t0;
             entry carolID "c@x.com" later] /\
  admin_service.ListUsers quiet [] (get "") = Wrote [] /\
  admin_service.ListUsers quiet [alice; broken] (with_identity bobID "admin" None)
    = Ended (Reply (Error "Failed to decrypt data" StatusInternalServerError)).
Proof. cbv zeta. repeat split; vm_compute; reflexivity. Qed.

Lemma service_listing_is_all_or_nothing_witness :
  let r := with_identity bobID "admin" None in
  let key := EncryptionKey cfg in
  listFault quiet = None /\ cursorFault quiet = None /\
  (forall u, In u [alice; bob] -> snd (utils.Decrypt (models.Email u) key) = None) /\
  (exists l, admin_service.ListUsers quiet [alice; bob] r = Wrote l /\
             Forall2 (shows key) [alice; bob] l) /\
  (exists u, In u [alice; broken] /\ snd (utils.Decrypt (models.Email u) key) <> None) /\
  admin_service.ListUsers quiet [alice; broken] r
    = Ended (Reply (Error "Failed to decrypt data" StatusInternalServerError)).
Proof.
  cbv zeta.
  assert (H1 : forall u, In u [alice; bob] ->
                 snd (utils.Decrypt (models.Email u) (EncryptionKey cfg)) = None)
    by (intros u [<-|[<-|[]]]; vm_compute; reflexivity).
  assert (H2 : exists u, In u [alice; broken] /\
                 snd (utils.Decrypt (models.Email u) (EncryptionKey cfg)) <> None)
    by (exists broken; split; [right; left; reflexivity|vm_compute; discriminate]).
  split; [reflexivity|]. split; [reflexivity|]. split; [exact H1|].
  split.
  - exact (proj1 (@service_listing_is_all_or_nothing quiet [alice; bob]
                    (with_identity bobID "admin" None) (EncryptionKey cfg)
                    eq_refl eq_refl eq_refl) H1).
  - split; [exact H2|].
    exact (proj2 (@service_listing_is_all_or_nothing quiet [alice; broken]
                    (with_identity bobID "admin" None) (EncryptionKey cfg)
                    eq_refl eq_refl eq_refl) H2).
Defined.

Lemma listing_page_bounds_witness :
  let db := [alice; bob; carol] in
  let resp := second_page in
  let page := server_handlers.Page resp in
  let limit := server_handlers.Limit resp in
  let total := server_handlers.Total resp in
  let pages := server_handlers.TotalPages resp in
  let entries := Z.of_nat (length (server_handlers.Users resp)) in
  server_handlers.ListUsers cfg world quiet db "2" "2" (with_token admin_claims None)
    = Wrote resp /\
  (1 <= page)%Z /\ (1 <= limit <= 100)%Z /\
  (limit = 10%Z \/ strconv.Atoi "2" = Some limit) /\
  total = Z.of_nat (length db) /\
  ((pages - 1) * limit < total <= pages * limit)%Z /\
  (entries <= limit)%Z /\
  ((page - 1) * limit < 2 ^ 63 ->
   entries = Z.min limit (Z.max 0 (total - (page - 1) * limit)))%Z.
Proof.
  cbv zeta.
  assert (Hw : server_handlers.ListUsers cfg world quiet [alice; bob; carol] "2" "2"
                 (with_token admin_claims None) = Wrote second_page)
    by (vm_compute; reflexivity).
  split; [exact Hw|].
  exact (@listing_page_bounds cfg world quiet [alice; bob; carol] "2" "2"
           (with_token admin_claims None) second_page Hw).
Defined.

Lemma listing_is_newest_first_witness :
  let db := [alice; bob; carol] in
  let resp := second_page in
  server_handlers.ListUsers cfg world quiet db "2" "2" (with_token admin_claims None)
    = Wrote resp /\
  StronglySorted (fun x y => (responses.CreatedAt y <= responses.CreatedAt x)%Z)
                 (server_handlers.Users resp) /\
  forall x, In x (server_handlers.Users resp) ->
    exists u, In u db /\ shows (EncryptionKey cfg) u x.
Proof.
  cbv zeta.
  assert (Hw : server_handlers.ListUsers cfg world quiet [alice; bob; carol] "2" "2"
                 (with_token admin_claims None) = Wrote second_page)
    by (vm_compute; reflexivity).
  split; [exact Hw|].
  exact (@listing_is_newest_first cfg world quiet [alice; bob; carol] "2" "2"
           (with_token admin_claims None) second_page Hw).
Defined.

End Further_runs_of_the_handlers.
